(** * Expense tracker: aggregation, budgets, record editing and the per-user store

    A shallow embedding of [expense_track.py].  Python values are modelled as
    follows.

    - Amounts and limits are Python numbers.  The program only uses [0], [+],
      [-], [<] and [==] on them, so they are an instance of the class [Num]
      below.  Two instances are given: [Z] (a JSON integer literal is loaded as
      a Python [int], whose arithmetic is exact) and [f64] (what
      [float(input())] produces: IEEE binary64, taken from the specification
      of floating-point numbers in the Standard Library).
    - A [str] is a [string], read as a sequence of characters with code
      points below 256; comparison is lexicographic on code points.
    - A [dict] keeps its keys in insertion order; it is an association list
      with the operations [dict_get] and [dict_set].
    - A [list] is a [list]; positions are looked up with [!!].
    - The file system is a finite map from file names to file contents.
    - [sorted] is a stable sort that compares keys with [<] only. *)

From Stdlib Require Import ZArith Ascii.
From Stdlib Require Import Floats.SpecFloat.
From stdpp Require Import gmap strings list sorting pretty.

(** ** Python numbers *)

Class Num (A : Type) := {
  num_zero : A;
  num_add : A → A → A;
  num_sub : A → A → A;
  num_ltb : A → A → bool;
  num_eqb : A → A → bool
}.

(** A number that compares equal to itself: every number but a float NaN. *)
Definition is_number {A} `{Num A} (a : A) : Prop := num_eqb a a = true.

(** A number that is not negative, as the amounts of valid records are. *)
Definition is_amount {A} `{Num A} (a : A) : Prop :=
  is_number a ∧ num_ltb a num_zero = false.

(** What [<], [==] and [+] satisfy on every Python number, floats included:
    the three tests [r < 0], [r == 0] and [0 < r] exclude one another; [<] is
    asymmetric, and [not <] is transitive through a number that is not a NaN
    (a NaN is below, above and equal to nothing); numbers that compare equal
    are not ordered by [<]; sums of amounts are amounts. *)
Class NumLaws (A : Type) `{Num A} : Prop := {
  num_zero_not_neg : ∀ r : A, num_eqb r num_zero = true → num_ltb r num_zero = false;
  num_pos_not_neg : ∀ r : A, num_ltb num_zero r = true → num_ltb r num_zero = false;
  num_pos_not_zero : ∀ r : A, num_ltb num_zero r = true → num_eqb r num_zero = false;
  num_ltb_asym : ∀ a b : A, num_ltb a b = true → num_ltb b a = false;
  num_ltb_negtrans : ∀ a b c : A,
    is_number b → num_ltb a b = false → num_ltb b c = false → num_ltb a c = false;
  num_eqb_tied : ∀ a b t : A, num_eqb a t = true → num_eqb b t = true → num_ltb b a = false;
  num_zero_amount : is_amount (num_zero : A);
  num_add_amount : ∀ a b : A, is_amount a → is_amount b → is_amount (num_add a b)
}.

(** Exact addition: a commutative monoid.  Python's [int] is exact, its
    [float] is not associative. *)
Class Exact (A : Type) `{Num A} : Prop := {
  num_add_comm : ∀ a b : A, num_add a b = num_add b a;
  num_add_assoc : ∀ a b c : A, num_add a (num_add b c) = num_add (num_add a b) c;
  num_add_zero_l : ∀ a : A, num_add num_zero a = a
}.

#[export] Instance Z_num : Num Z := {|
  num_zero := 0%Z;
  num_add := Z.add;
  num_sub := Z.sub;
  num_ltb := Z.ltb;
  num_eqb := Z.eqb
|}.

(** A Python [float]: binary64, that is 53 bits of precision and exponents
    below 1024. *)
Definition f64 : Type := spec_float.

Definition f64_of_Z (z : Z) : f64 := binary_normalize 53 1024 z 0 false.

#[export] Instance f64_eq_dec : EqDecision f64.
Proof. unfold f64. solve_decision. Defined.

#[export] Instance f64_num : Num f64 := {|
  num_zero := S754_zero false;
  num_add := SFadd 53 1024;
  num_sub := SFsub 53 1024;
  num_ltb := SFltb;
  num_eqb := SFeqb
|}.

(** [a <= b] as Python evaluates it on numbers. *)
Definition num_leb {A} `{Num A} (a b : A) : bool := num_ltb a b || num_eqb a b.

(** ** Python dictionaries, in insertion order *)

Abbreviation dict V := (list (string * V)).

(** [d.get(k, default)] *)
Fixpoint dict_get {V} (k : string) (default : V) (d : dict V) : V :=
  match d with
  | [] => default
  | (k', v) :: d' => if decide (k' = k) then v else dict_get k default d'
  end.

(** [d[k] = v]: an existing key keeps its place, a new key goes last. *)
Fixpoint dict_set {V} (k : string) (v : V) (d : dict V) : dict V :=
  match d with
  | [] => [(k, v)]
  | (k', v') :: d' =>
      if decide (k' = k) then (k', v) :: d' else (k', v') :: dict_set k v d'
  end.

Definition dict_keys {V} (d : dict V) : list string := d.*1.
Definition dict_values {V} (d : dict V) : list V := d.*2.

(** ** [sorted(xs, key=..., reverse=...)]

    A stable sort that compares keys with [<] only.  On keys that [<] puts
    in order every stable sort returns the same list, so the sort is written
    as an insertion sort: [insert_by] places an element before the first one
    whose key is not smaller, and among equal keys the earlier element stays
    first.  With [reverse=True] Python reverses the list, sorts it, and
    reverses the result, which keeps equal keys in their original order. *)

Section Sorted.
Context {E K : Type} (key : E → K) (lt : K → K → bool).

Fixpoint insert_by (x : E) (l : list E) : list E :=
  match l with
  | [] => [x]
  | y :: l' => if lt (key y) (key x) then y :: insert_by x l' else x :: y :: l'
  end.

Fixpoint sort_by (l : list E) : list E :=
  match l with
  | [] => []
  | x :: l' => insert_by x (sort_by l')
  end.

Definition sorted (rev : bool) (l : list E) : list E :=
  if rev then reverse (sort_by (reverse l)) else sort_by l.

End Sorted.

(** [sum(xs)]: the items added from left to right, starting from [0].
    (From Python 3.12 on, [sum] carries a compensation term along a run of
    floats, which can change the last bits of a float total; whole numbers
    are not affected.) *)
Definition py_sum {A} `{Num A} (xs : list A) : A := fold_left num_add xs num_zero.

(** ** Expense records *)

Record expense (A : Type) := Expense {
  amount : A;
  category : string;
  date : string
}.
Arguments Expense {A} _ _ _.
Arguments amount {A} _.
Arguments category {A} _.
Arguments date {A} _.

#[export] Instance expense_eq_dec {A} `{EqDecision A} : EqDecision (expense A).
Proof. solve_decision. Defined.

(** [a == b] on two records: the same category and date, and amounts that
    compare equal. *)
Definition expense_eqb {A} `{Num A} (a b : expense A) : bool :=
  num_eqb (amount a) (amount b)
  && bool_decide (category a = category b)
  && bool_decide (date a = date b).

(** ** Dates: [datetime.strptime(s, '%Y-%m-%d')] and [strftime]

    [strptime] accepts four digits for the year, one or two for the month
    (1 to 12) and for the day (01 to 31, or a space and one digit), and then
    requires the day to exist in that month; any other text raises
    [ValueError], here [None]. *)

Definition digit_of (c : ascii) : option nat :=
  let n := nat_of_ascii c in
  if bool_decide (48 ≤ n ≤ 57) then Some (n - 48) else None.

Definition digit_char (n : nat) : ascii := ascii_of_nat (48 + n).

Definition two_digits (c1 c2 : ascii) : option nat :=
  d1 ← digit_of c1; d2 ← digit_of c2; Some (10 * d1 + d2).

Definition nonzero (n : nat) : option nat := if bool_decide (1 ≤ n) then Some n else None.

(** The characters before the first ["-"], and those after it. *)
Fixpoint split_dash (cs : list ascii) : option (list ascii * list ascii) :=
  match cs with
  | [] => None
  | c :: cs' =>
      if decide (c = "-"%char) then Some ([], cs')
      else '(a, b) ← split_dash cs'; Some (c :: a, b)
  end.

Definition month_field (tok : list ascii) : option nat :=
  match tok with
  | [c] => digit_of c ≫= nonzero
  | [c1; c2] => m ← two_digits c1 c2 ≫= nonzero; if bool_decide (m ≤ 12) then Some m else None
  | _ => None
  end.

Definition day_field (tok : list ascii) : option nat :=
  match tok with
  | [c] => digit_of c ≫= nonzero
  | [c1; c2] =>
      if decide (c1 = " "%char) then digit_of c2 ≫= nonzero
      else d ← two_digits c1 c2 ≫= nonzero; if bool_decide (d ≤ 31) then Some d else None
  | _ => None
  end.

Definition is_leap (y : nat) : bool :=
  bool_decide (y `mod` 4 = 0) && (negb (bool_decide (y `mod` 100 = 0)) || bool_decide (y `mod` 400 = 0)).

Definition days_in_month (y m : nat) : nat :=
  match m with
  | 2 => if is_leap y then 29 else 28
  | 4 | 6 | 9 | 11 => 30
  | _ => 31
  end.

Record ymd := Ymd { year : nat; month : nat; day : nat }.

Definition strptime (s : string) : option ymd :=
  match String.list_ascii_of_string s with
  | y1 :: y2 :: y3 :: y4 :: dash :: rest =>
      if decide (dash = "-"%char) then
        hi ← two_digits y1 y2; lo ← two_digits y3 y4;
        y ← nonzero (100 * hi + lo);
        '(mtok, dtok) ← split_dash rest;
        m ← month_field mtok;
        d ← day_field dtok;
        if bool_decide (d ≤ days_in_month y m) then Some (Ymd y m d) else None
      else None
  | _ => None
  end.

Definition pad2 (n : nat) : list ascii := [digit_char (n `div` 10); digit_char (n `mod` 10)].

Fixpoint strip_zeros (cs : list ascii) : list ascii :=
  match cs with
  | c :: cs' => if decide (c = "0"%char) then strip_zeros cs' else cs
  | [] => []
  end.

(** [%Y]: the year in decimal; the C library of Linux writes it without
    leading zeros (other platforms pad a year below 1000 to four digits). *)
Definition year_digits (y : nat) : list ascii :=
  strip_zeros (pad2 (y `div` 100) ++ pad2 (y `mod` 100)).

(** [.strftime('%Y-%m')] and [.strftime('%Y')] *)
Definition strftime_Ym (t : ymd) : string :=
  String.string_of_list_ascii (year_digits (year t) ++ ["-"%char] ++ pad2 (month t)).
Definition strftime_Y (t : ymd) : string :=
  String.string_of_list_ascii (year_digits (year t)).

(** ** Aggregation: [view_summary], [view_monthly_summary], [view_annual_summary] *)

Section Aggregation.
Context {A : Type} `{Num A}.

(** [total_spending = sum(item['amount'] for item in expenses)] *)
Definition total_spending (expenses : list (expense A)) : A :=
  py_sum (amount <$> expenses).

(** One turn of the accumulation loops:
    [spending[k] = spending.get(k, 0) + amount]. *)
Definition accumulate (spending : dict A) (k : string) (a : A) : dict A :=
  dict_set k (num_add (dict_get k num_zero spending) a) spending.

Definition category_spending (expenses : list (expense A)) : dict A :=
  fold_left (λ d item, accumulate d (category item) (amount item)) expenses [].

(** [sorted(category_spending.items(), key=lambda item: item[1], reverse=True)] *)
Definition sorted_categories (expenses : list (expense A)) : list (string * A) :=
  sorted snd num_ltb true (category_spending expenses).

(** What [view_summary] prints: nothing but a notice for an empty list,
    otherwise the overall total and the categories by spending. *)
Definition view_summary (expenses : list (expense A)) : option (A * list (string * A)) :=
  match expenses with
  | [] => None
  | _ => Some (total_spending expenses, sorted_categories expenses)
  end.

(** The accumulation loop of the monthly and annual summaries; a date that
    [strptime] refuses raises [ValueError] out of the loop ([None]). *)
Definition spending_by (fmt : ymd → string) (expenses : list (expense A)) : option (dict A) :=
  foldl (λ acc item, d ← acc; t ← strptime (date item); Some (accumulate d (fmt t) (amount item)))
        (Some []) expenses.

Definition monthly_spending : list (expense A) → option (dict A) := spending_by strftime_Ym.
Definition annual_spending : list (expense A) → option (dict A) := spending_by strftime_Y.

(** [for k in sorted(spending.keys()): ... spending[k]] *)
Definition by_sorted_keys (spending : dict A) : list (string * A) :=
  (λ k, (k, dict_get k num_zero spending)) <$> sorted id String.ltb false (dict_keys spending).

Definition view_monthly_summary (expenses : list (expense A)) : option (list (string * A)) :=
  match expenses with
  | [] => Some []
  | _ => by_sorted_keys <$> monthly_spending expenses
  end.

Definition view_annual_summary (expenses : list (expense A)) : option (list (string * A)) :=
  match expenses with
  | [] => Some []
  | _ => by_sorted_keys <$> annual_spending expenses
  end.

(** [sorted(expenses, key=lambda x: x['date'])], with or without
    [reverse=True]: the one sort both listings use. *)
Definition sorted_by_date (rev : bool) (expenses : list (expense A)) : list (expense A) :=
  sorted date String.ltb rev expenses.

(** The numbered lines of [view_all_expenses_detailed]. *)
Definition view_all_expenses_detailed (expenses : list (expense A)) : list (nat * expense A) :=
  imap (λ i e, (i + 1, e)) (sorted_by_date false expenses).

(** ** Budgets: [check_budgets] *)

Inductive status := Over | Exact_on_budget | Under.

Record budget_line := BudgetLine {
  bl_category : string;
  bl_limit : A;
  bl_spent : A;
  bl_remaining : A;
  bl_status : status
}.

Definition budget_status (remaining : A) : status :=
  if num_ltb remaining num_zero then Over
  else if num_eqb remaining num_zero then Exact_on_budget
  else Under.

(** The lines [check_budgets] prints, one per turn of its loop over
    [budgets.items()]; with no budget at all it prints a notice and returns. *)
Definition check_budgets (expenses : list (expense A)) (budgets : dict A) : list budget_line :=
  match budgets with
  | [] => []
  | _ =>
      let current_spending := category_spending expenses in
      (λ '(category, limit),
         let spent := dict_get category num_zero current_spending in
         let remaining := num_sub limit spent in
         BudgetLine category limit spent remaining (budget_status remaining)) <$> budgets
  end.

End Aggregation.
Arguments budget_line A : clear implicits.

(** ** Record editing: the delete and edit branches of [manage_expenses] *)

(** [xs.index(x)]: the first position whose element compares equal to [x];
    [None] stands for [ValueError]. *)
Fixpoint index {E} (eqb : E → E → bool) (x : E) (xs : list E) : option nat :=
  match xs with
  | [] => None
  | y :: xs' => if eqb y x then Some 0 else S <$> index eqb x xs'
  end.

(** [xs.pop(i)] for [0 <= i]; [None] stands for [IndexError]. *)
Definition pop {E} (i : nat) (xs : list E) : option (E * list E) :=
  x ← xs !! i; Some (x, delete i xs).

Section Editor.
Context {A : Type} `{Num A}.

(** How the number typed by the user resolves: the list is shown sorted by
    date, newest first, and the chosen line is looked up again in the stored
    list. *)
Inductive selection :=
  | OutOfRange
  | NotFound
  | Selected (original_expense : expense A) (original_idx : nat).

Definition select_expense (expenses : list (expense A)) (number : Z) : selection :=
  let sorted_expenses := sorted_by_date true expenses in
  let idx_to_manage := (number - 1)%Z in
  if bool_decide (0 ≤ idx_to_manage < Z.of_nat (length sorted_expenses))%Z then
    match sorted_expenses !! Z.to_nat idx_to_manage with
    | Some original_expense =>
        match index expense_eqb original_expense expenses with
        | Some original_idx => Selected original_expense original_idx
        | None => NotFound
        end
    | None => NotFound
    end
  else OutOfRange.

Inductive manage_outcome :=
  | InvalidNumber
  | InvalidInput
  | DeletionCancelled
  | Deleted (deleted_expense : expense A)
  | Updated.

(** Choice ['d']: [confirm] is the answer to the confirmation prompt, in
    lower case. *)
Definition manage_delete (expenses : list (expense A)) (number : Z) (confirm : string)
    : manage_outcome * list (expense A) :=
  match select_expense expenses number with
  | OutOfRange => (InvalidNumber, expenses)
  | NotFound => (InvalidInput, expenses)
  | Selected _ original_idx =>
      if bool_decide (confirm = "y") then
        match pop original_idx expenses with
        | Some (deleted_expense, rest) => (Deleted deleted_expense, rest)
        | None => (InvalidInput, expenses)
        end
      else (DeletionCancelled, expenses)
  end.

(** The three prompts of choice ['e']: [new_amount] is the number typed, if
    one was typed and parsed; [new_category] is the text typed, possibly
    empty; [new_date] is what [get_valid_date] returned. *)
Definition amend (e : expense A) (new_amount : option A) (new_category new_date : string)
    : expense A :=
  let e1 :=
    match new_amount with
    | Some a => if num_leb a num_zero then e else Expense a (category e) (date e)
    | None => e
    end in
  let e2 := if bool_decide (new_category = "") then e1
            else Expense (amount e1) new_category (date e1) in
  if bool_decide (new_date = date e2) then e2
  else Expense (amount e2) (category e2) new_date.

Definition manage_edit (expenses : list (expense A)) (number : Z)
    (new_amount : option A) (new_category new_date : string)
    : manage_outcome * list (expense A) :=
  match select_expense expenses number with
  | OutOfRange => (InvalidNumber, expenses)
  | NotFound => (InvalidInput, expenses)
  | Selected _ original_idx =>
      match expenses !! original_idx with
      | Some e => (Updated, <[original_idx := amend e new_amount new_category new_date]> expenses)
      | None => (InvalidInput, expenses)
      end
  end.

End Editor.
Arguments selection A : clear implicits.
Arguments manage_outcome A : clear implicits.

(** ** The record store: [load_data] and [save_data] *)

Definition BASE_EXPENSE_FILE : string := "_expenses.json".
Definition BASE_BUDGET_FILE : string := "_budgets.json".
Definition USERS_FILE : string := "users.json".

(** The values [json.load] can return. *)
#[local] Set Warnings "-register-all".
Inductive pyval (A : Type) :=
  | PNone
  | PBool (b : bool)
  | PNum (a : A)
  | PStr (s : string)
  | PList (xs : list (pyval A))
  | PDict (kvs : list (string * pyval A)).
Arguments PNone {A}.
Arguments PBool {A} _.
Arguments PNum {A} _.
Arguments PStr {A} _.
Arguments PList {A} _.
Arguments PDict {A} _.

Definition expense_value {A} (e : expense A) : pyval A :=
  PDict [("amount", PNum (amount e)); ("category", PStr (category e)); ("date", PStr (date e))].
Definition expenses_value {A} (expenses : list (expense A)) : pyval A :=
  PList (expense_value <$> expenses).
Definition budgets_value {A} (budgets : dict A) : pyval A :=
  PDict (prod_map id PNum <$> budgets).
Definition users_value {A} (users : list string) : pyval A :=
  PList (PStr <$> users).

(** The [json] module, over some type [T] of file contents: [json.dump]
    always produces a text, [json.load] raises [JSONDecodeError] ([None]) on a
    text that is not JSON. *)
Class Codec (A T : Type) := {
  json_dump : pyval A → T;
  json_load : T → option (pyval A)
}.

(** A file's content taken as what [json.load] makes of it: [Some v] for a
    text that parses to [v], [None] for a text that is not JSON. *)
#[export] Instance parsed_codec (A : Type) : Codec A (option (pyval A)) := {|
  json_dump := Some;
  json_load := id
|}.

(** [needle in hay] on strings. *)
Fixpoint contains (needle hay : string) : bool :=
  String.prefix needle hay ||
  match hay with
  | EmptyString => false
  | String _ hay' => contains needle hay'
  end.

Section Store.
Context {A T : Type} `{Codec A T}.

(** The value [load_data] falls back to, chosen from the file name. *)
Definition empty_default (filename : string) : pyval A :=
  if contains BASE_EXPENSE_FILE filename then PList []
  else if contains BASE_BUDGET_FILE filename then PDict []
  else if bool_decide (filename = USERS_FILE) then PList []
  else PDict [].

(** A missing file is [FileNotFoundError]; both caught exceptions lead to
    the default. *)
Definition load_data (fs : gmap string T) (filename : string) : pyval A :=
  match fs !! filename with
  | Some text =>
      match json_load text with
      | Some v => v
      | None => empty_default filename
      end
  | None => empty_default filename
  end.

Definition save_data (data : pyval A) (filename : string) (fs : gmap string T) : gmap string T :=
  <[filename := json_dump data]> fs.

(** [if os.path.exists(path): os.remove(path)] *)
Definition remove_if_exists (path : string) (fs : gmap string T) : gmap string T :=
  delete path fs.

(** ** The user registry *)

Record world := World {
  CURRENT_EXPENSE_FILE : string;
  CURRENT_BUDGET_FILE : string;
  CURRENT_USERNAME : option string;
  files : gmap string T
}.

Definition expense_file_path (username : string) : string := username +:+ BASE_EXPENSE_FILE.
Definition budget_file_path (username : string) : string := username +:+ BASE_BUDGET_FILE.

(** [users_list.remove(x)]: the first occurrence goes. *)
Fixpoint list_remove (x : string) (xs : list string) : list string :=
  match xs with
  | [] => []
  | y :: xs' => if decide (y = x) then xs' else y :: list_remove x xs'
  end.

Inductive delete_outcome := ProfileDeleted | UnknownUser | DeletionRefused.

(** [delete_user_profile] returns [True] after [ProfileDeleted] only. *)
Definition delete_returns (o : delete_outcome) : bool :=
  match o with ProfileDeleted => true | _ => false end.

Definition delete_user_profile (confirm : string) (users_list : list string)
    (username_to_delete : string) (w : world) : delete_outcome * list string * world :=
  if bool_decide (confirm = "DELETE USER") then
    let fs1 := remove_if_exists (expense_file_path username_to_delete) (files w) in
    let fs2 := remove_if_exists (budget_file_path username_to_delete) fs1 in
    if bool_decide (username_to_delete ∈ users_list) then
      let users_list' := list_remove username_to_delete users_list in
      let fs3 := save_data (users_value users_list') USERS_FILE fs2 in
      let current :=
        if bool_decide (CURRENT_USERNAME w = Some username_to_delete) then None
        else CURRENT_USERNAME w in
      (ProfileDeleted, users_list',
       World (CURRENT_EXPENSE_FILE w) (CURRENT_BUDGET_FILE w) current fs3)
    else
      (UnknownUser, users_list,
       World (CURRENT_EXPENSE_FILE w) (CURRENT_BUDGET_FILE w) (CURRENT_USERNAME w) fs2)
  else (DeletionRefused, users_list, w).

(** [str.isalnum()]: at least one character, and alphanumeric characters
    only.  Below 256 these are the ASCII digits and letters, the ordinal
    indicators, the superscript digits, the micro sign, the fractions, and
    the accented letters. *)
Definition is_alnum_char (c : ascii) : bool :=
  let n := nat_of_ascii c in
  bool_decide (48 ≤ n ≤ 57) || bool_decide (65 ≤ n ≤ 90) || bool_decide (97 ≤ n ≤ 122)
  || bool_decide (n ∈ [170; 178; 179; 181; 185; 186])
  || bool_decide (188 ≤ n ≤ 190) || bool_decide (192 ≤ n ≤ 214)
  || bool_decide (216 ≤ n ≤ 246) || bool_decide (248 ≤ n ≤ 255).

Definition isalnum (s : string) : bool :=
  match String.list_ascii_of_string s with
  | [] => false
  | cs => forallb is_alnum_char cs
  end.

Inductive create_outcome := UserCreated | InvalidUsername | DuplicateUser.

(** One turn of the loop of choice ['2'] in [user_management_menu], on the
    name typed (after [strip]). *)
Definition create_user (new_username : string) (users : list string) (w : world)
    : create_outcome * list string * world :=
  if negb (isalnum new_username) then (InvalidUsername, users, w)
  else if bool_decide (new_username ∈ users) then (DuplicateUser, users, w)
  else
    let users' := users ++ [new_username] in
    (UserCreated, users',
     World (expense_file_path new_username) (budget_file_path new_username)
           (Some new_username) (save_data (users_value users') USERS_FILE (files w))).

End Store.
Arguments world T : clear implicits.

(** ** Prompts: [get_valid_amount], [get_valid_date], [get_valid_category]

    A prompt loops until an answer is accepted.  The answers still to come
    are a list; when the list runs out before an answer is accepted the
    program is [Waiting] at the prompt.  [Raised] is an exception that leaves
    the function. *)

Inductive prompted (R : Type) :=
  | Answered (r : R)
  | Raised
  | Waiting.
Arguments Answered {R} _.
Arguments Raised {R}.
Arguments Waiting {R}.

(** An answer is what [float(input(prompt))] makes of a line: a number, or
    [None] for [ValueError]. *)
Fixpoint get_valid_amount {A} `{Num A} (answers : list (option A)) : prompted A :=
  match answers with
  | [] => Waiting
  | Some amount :: rest =>
      if num_leb amount num_zero then get_valid_amount rest else Answered amount
  | None :: rest => get_valid_amount rest
  end.

(** [.strftime('%Y-%m-%d')] *)
Definition strftime_Ymd (t : ymd) : string :=
  String.string_of_list_ascii
    (year_digits (year t) ++ ["-"%char] ++ pad2 (month t) ++ ["-"%char] ++ pad2 (day t)).

(** [now - timedelta(days=1)]; before the first day of year 1 there is no
    date ([OverflowError], here [None]). *)
Definition prev_day (t : ymd) : option ymd :=
  if bool_decide (2 ≤ day t) then Some (Ymd (year t) (month t) (day t - 1))
  else if bool_decide (2 ≤ month t)
       then Some (Ymd (year t) (month t - 1) (days_in_month (year t) (month t - 1)))
  else if bool_decide (2 ≤ year t) then Some (Ymd (year t - 1) 12 31)
  else None.

(** [now] is the date of [datetime.now()]; an answer is a line after
    [.strip().lower()]. *)
Fixpoint get_valid_date (now : ymd) (default_date : option string) (answers : list string)
    : prompted string :=
  match answers with
  | [] => Waiting
  | date_input :: rest =>
      if bool_decide (date_input = "") then
        Answered (match default_date with
                  | Some d => if bool_decide (d = "") then strftime_Ymd now else d
                  | None => strftime_Ymd now
                  end)
      else if bool_decide (date_input = "today") then Answered (strftime_Ymd now)
      else if bool_decide (date_input = "yesterday") then
        match prev_day now with
        | Some t => Answered (strftime_Ymd t)
        | None => Raised
        end
      else
        match strptime date_input with
        | Some _ => Answered date_input
        | None => get_valid_date now default_date rest
        end
  end.

Definition common_categories : list string :=
  ["Food"; "Transport"; "Entertainment"; "Utilities"; "Rent"; "Groceries"; "Shopping";
   "Health"; "Education"; "Other"].

(** [str.isdigit()]: at least one character, and digits only; below 256 the
    digits are the ASCII ones and the superscripts one, two and three. *)
Definition is_digit_char (c : ascii) : bool :=
  let n := nat_of_ascii c in
  bool_decide (48 ≤ n ≤ 57) || bool_decide (n ∈ [178; 179; 185]).

Definition isdigit (s : string) : bool :=
  match String.list_ascii_of_string s with
  | [] => false
  | cs => forallb is_digit_char cs
  end.

(** [int(s)] on a text that passed [isdigit]: the decimal value of ASCII
    digits; a superscript digit, or more than 4300 digits, is a
    [ValueError] ([None]). *)
Definition py_int (s : string) : option Z :=
  let cs := String.list_ascii_of_string s in
  if bool_decide (length cs ≤ 4300) then
    ds ← mapM digit_of cs; Some (foldl (λ n d, 10 * n + Z.of_nat d)%Z 0%Z ds)
  else None.

(** The answers are the lines typed: a choice after [.strip().lower()], and
    after the choice ["c"] a name after [.strip().title()]. *)
Fixpoint get_valid_category (answers : list string) : prompted string :=
  match answers with
  | [] => Waiting
  | category_choice :: rest =>
      if bool_decide (category_choice = "c") then
        match rest with
        | [] => Waiting
        | category :: rest' =>
            if bool_decide (category = "") then get_valid_category rest'
            else Answered category
        end
      else if isdigit category_choice then
        match py_int category_choice with
        | Some n =>
            let idx := (n - 1)%Z in
            if bool_decide (0 ≤ idx < Z.of_nat (length common_categories))%Z then
              match common_categories !! Z.to_nat idx with
              | Some category => Answered category
              | None => Raised
              end
            else get_valid_category rest
        | None => Raised
        end
      else get_valid_category rest
  end.

(** ** [add_expense] and [set_budget] *)

Section Entry.
Context {A : Type} `{Num A}.

(** The three prompts in turn, each with its own answers, then [append]. *)
Definition add_expense (expenses : list (expense A))
    (amount_answers : list (option A)) (category_answers : list string)
    (now : ymd) (date_answers : list string) : prompted (list (expense A)) :=
  match get_valid_amount amount_answers with
  | Answered amount =>
      match get_valid_category category_answers with
      | Answered category =>
          match get_valid_date now None date_answers with
          | Answered date => Answered (expenses ++ [Expense amount category date])
          | Raised => Raised
          | Waiting => Waiting
          end
      | Raised => Raised
      | Waiting => Waiting
      end
  | Raised => Raised
  | Waiting => Waiting
  end.

(** The loop of [set_budget] that reads the limit. *)
Fixpoint budget_limit (answers : list (option A)) : prompted A :=
  match answers with
  | [] => Waiting
  | Some limit :: rest =>
      if num_ltb limit num_zero then budget_limit rest else Answered limit
  | None :: rest => budget_limit rest
  end.

(** [category] is the line typed after [.strip().title()]. *)
Definition set_budget (budgets : dict A) (category : string) (answers : list (option A))
    : prompted (dict A) :=
  match budget_limit answers with
  | Answered limit => Answered (dict_set category limit budgets)
  | Raised => Raised
  | Waiting => Waiting
  end.

End Entry.

(** ** [reset_user_data] and the menu of [user_management_menu] *)

Section Menu.
Context {A T : Type} `{Codec A T}.

(** [confirm] is the line typed; the function returns whether it reset. *)
Definition reset_user_data (confirm : string) (username : string) (w : world T)
    : bool * world T :=
  if bool_decide (confirm = "YES") then
    let fs1 := remove_if_exists (expense_file_path username) (files w) in
    let fs2 := remove_if_exists (budget_file_path username) fs1 in
    (true, World (CURRENT_EXPENSE_FILE w) (CURRENT_BUDGET_FILE w) (CURRENT_USERNAME w) fs2)
  else (false, w).

Inductive select_outcome :=
  | NoUsers
  | UserSelected (w : world T)
  | InvalidUserNumber
  | NotANumber
  | SelectRaised.

(** One turn of the loop of choice ['1'], on the line typed after [strip]. *)
Definition select_user (user_choice : string) (users : list string) (w : world T)
    : select_outcome :=
  if bool_decide (users = []) then NoUsers
  else if isdigit user_choice then
    match py_int user_choice with
    | Some n =>
        let idx := (n - 1)%Z in
        if bool_decide (0 ≤ idx < Z.of_nat (length users))%Z then
          match users !! Z.to_nat idx with
          | Some username =>
              UserSelected (World (expense_file_path username) (budget_file_path username)
                                  (Some username) (files w))
          | None => SelectRaised
          end
        else InvalidUserNumber
    | None => SelectRaised
    end
  else NotANumber.

Inductive menu_delete_outcome :=
  | NoUsersToDelete
  | DeleteCancelled
  | DeleteInvalidNumber
  | DeleteInvalidInput
  | DeleteRaised
  | DeleteDone (o : delete_outcome) (reloaded : pyval A) (w : world T).

(** One turn of the loop of choice ['3']: the line typed after
    [.strip().lower()], then the confirmation that [delete_user_profile]
    asks for, then the registry is loaded again from its file. *)
Definition menu_delete (user_to_delete_idx confirm : string) (users : list string)
    (w : world T) : menu_delete_outcome :=
  if bool_decide (users = []) then NoUsersToDelete
  else if bool_decide (user_to_delete_idx = "q") then DeleteCancelled
  else if isdigit user_to_delete_idx then
    match py_int user_to_delete_idx with
    | Some n =>
        let idx := (n - 1)%Z in
        if bool_decide (0 ≤ idx < Z.of_nat (length users))%Z then
          match users !! Z.to_nat idx with
          | Some username_to_delete =>
              let '(o, _, w') := delete_user_profile confirm users username_to_delete w in
              DeleteDone o (load_data (files w') USERS_FILE) w'
          | None => DeleteRaised
          end
        else DeleteInvalidNumber
    | None => DeleteRaised
    end
  else DeleteInvalidInput.

End Menu.
Arguments select_outcome T : clear implicits.
Arguments menu_delete_outcome A T : clear implicits.

(** ** The numbered lists of the menus

    [for i, x in enumerate(xs): print(f"  {i+1}. {x}")]: each item with the
    number printed before it, in decimal. *)
Definition numbered (xs : list string) : list (string * string) :=
  imap (λ i x, (pretty (i + 1), x)) xs.

(** ** The loop of [manage_expenses]

    One turn of the loop is one choice with the answers to the prompts that
    follow it: [number] is what [int] makes of the line typed ([None] for
    [ValueError], which the loop catches), the other answers are those of
    [manage_delete] and [manage_edit].  The loop is left by [q], by a
    confirmed deletion and by an edit. *)

Inductive manage_turn (A : Type) :=
  | TurnQuit
  | TurnDelete (number : option Z) (confirm : string)
  | TurnEdit (number : option Z) (new_amount : option A) (new_category new_date : string)
  | TurnOther.
Arguments TurnQuit {A}.
Arguments TurnDelete {A} _ _.
Arguments TurnEdit {A} _ _ _ _.
Arguments TurnOther {A}.

Section Manage.
Context {A : Type} `{Num A}.

Fixpoint manage_loop (expenses : list (expense A)) (turns : list (manage_turn A))
    : prompted (list (expense A)) :=
  match turns with
  | [] => Waiting
  | TurnQuit :: _ => Answered expenses
  | TurnDelete (Some number) confirm :: rest =>
      match manage_delete expenses number confirm with
      | (Deleted _, expenses') => Answered expenses'
      | (_, expenses') => manage_loop expenses' rest
      end
  | TurnEdit (Some number) new_amount new_category new_date :: rest =>
      match manage_edit expenses number new_amount new_category new_date with
      | (Updated, expenses') => Answered expenses'
      | (_, expenses') => manage_loop expenses' rest
      end
  | TurnDelete None _ :: rest | TurnEdit None _ _ _ :: rest | TurnOther :: rest =>
      manage_loop expenses rest
  end.

(** With no record the function returns at once. *)
Definition manage_expenses (expenses : list (expense A)) (turns : list (manage_turn A))
    : prompted (list (expense A)) :=
  match expenses with
  | [] => Answered []
  | _ => manage_loop expenses turns
  end.

End Manage.

(** ** One turn of the loop of [main]

    The choices that change something: [1] adds an expense and saves the
    list, [3] manages the expenses and saves the list, [4] sets a budget and
    saves the budgets, [6] resets the data of the active user.  [expenses]
    and [budgets] are what the turn loaded from the two files of the active
    user, for files that hold a list of records and a dictionary of limits.
    The loop runs while [CURRENT_USERNAME] is true, that is neither [None]
    nor the empty text. *)

Inductive main_choice (A : Type) :=
  | Choice1 (amount_answers : list (option A)) (category_answers date_answers : list string)
  | Choice3 (turns : list (manage_turn A))
  | Choice4 (category : string) (answers : list (option A))
  | Choice6 (confirm : string).
Arguments Choice1 {A} _ _ _.
Arguments Choice3 {A} _.
Arguments Choice4 {A} _ _.
Arguments Choice6 {A} _.

Section Main.
Context {A T : Type} `{Num A} `{Codec A T}.

Definition with_files (w : world T) (fs : gmap string T) : world T :=
  World (CURRENT_EXPENSE_FILE w) (CURRENT_BUDGET_FILE w) (CURRENT_USERNAME w) fs.

Definition main_turn (now : ymd) (choice : main_choice A)
    (expenses : list (expense A)) (budgets : dict A) (w : world T) : prompted (world T) :=
  match CURRENT_USERNAME w with
  | None => Answered w
  | Some username =>
      if bool_decide (username = "") then Answered w
      else
        match choice with
        | Choice1 amount_answers category_answers date_answers =>
            match add_expense expenses amount_answers category_answers now date_answers with
            | Answered expenses' =>
                Answered (with_files w (save_data (expenses_value expenses')
                                          (CURRENT_EXPENSE_FILE w) (files w)))
            | Raised => Raised
            | Waiting => Waiting
            end
        | Choice3 turns =>
            match manage_expenses expenses turns with
            | Answered expenses' =>
                Answered (with_files w (save_data (expenses_value expenses')
                                          (CURRENT_EXPENSE_FILE w) (files w)))
            | Raised => Raised
            | Waiting => Waiting
            end
        | Choice4 category answers =>
            match set_budget budgets category answers with
            | Answered budgets' =>
                Answered (with_files w (save_data (budgets_value budgets')
                                          (CURRENT_BUDGET_FILE w) (files w)))
            | Raised => Raised
            | Waiting => Waiting
            end
        | Choice6 confirm => Answered (reset_user_data confirm username w).2
        end
  end.

End Main.

(** ** Vocabulary of the properties *)

(** The distinct elements of a list, each at its first occurrence. *)
Fixpoint first_seen (l : list string) : list string :=
  match l with
  | [] => []
  | x :: l' => x :: filter (λ y, y ≠ x) (first_seen l')
  end.

(** The records of one category, and the sum of their amounts. *)
Definition in_category {A} (c : string) (expenses : list (expense A)) : list (expense A) :=
  filter (λ e, category e = c) expenses.

Definition category_total {A} `{Num A} (expenses : list (expense A)) (c : string) : A :=
  py_sum (amount <$> in_category c expenses).

(** The key under which the monthly or annual loop files a record whose date
    parses. *)
Definition group_key {A} (fmt : ymd → string) (e : expense A) : string :=
  from_option fmt "" (strptime (date e)).

Definition valid_date {A} (e : expense A) : Prop := is_Some (strptime (date e)).

(** Python floats that round: 10^16, 1 and 1 in one category, the first in
    January and the others in February. *)
Definition rounding_expenses : list (expense f64) :=
  [Expense (f64_of_Z (10 ^ 16)) "Food" "2024-01-05";
   Expense (f64_of_Z 1) "Food" "2024-02-01";
   Expense (f64_of_Z 1) "Food" "2024-02-02"].

(** The rank by which floats are compared: the class (infinities, negative,
    zero, positive), then exponent and mantissa. *)
Definition f64_rank (x : f64) : Z * Z * Z :=
  match x with
  | S754_zero _ => (0, 0, 0)
  | S754_infinity s => (if s then -2 else 2, 0, 0)
  | S754_nan => (0, 0, 0)
  | S754_finite s m e => if s then (-1, - e, - Z.pos m) else (1, e, Z.pos m)
  end%Z.

(** The floats that are not negative: zero, the positive ones and plus
    infinity. *)
Definition f64_nonneg (x : f64) : Prop :=
  match x with
  | S754_zero _ => True
  | S754_infinity s | S754_finite s _ _ => s = false
  | S754_nan => False
  end.

Definition rank_lt (a b : Z * Z * Z) : Prop :=
  (a.1.1 < b.1.1 ∨ (a.1.1 = b.1.1 ∧ (a.1.2 < b.1.2 ∨ (a.1.2 = b.1.2 ∧ a.2 < b.2))))%Z.

(** A date of the calendar. *)
Definition valid_ymd (t : ymd) : Prop :=
  1 ≤ month t ≤ 12 ∧ 1 ≤ day t ≤ days_in_month (year t) (month t).

(** An answer that [get_valid_amount] refuses: no number, or one that is
    [<= 0]. *)
Definition refused_amount {A} `{Num A} (answer : option A) : Prop :=
  ∀ a, answer = Some a → num_leb a num_zero = true.

(** The digits that [isdigit] accepts and [int] refuses: the superscripts
    two, three and one. *)
Definition superscript_digit (c : ascii) : Prop := nat_of_ascii c ∈ [178; 179; 185].

(** A text of digits that [int] refuses with [ValueError]: one with a
    superscript digit, or with more than 4300 digits. *)
Definition int_refuses (s : string) : Prop :=
  Exists superscript_digit (String.list_ascii_of_string s)
  ∨ 4300 < length (String.list_ascii_of_string s).

(** A record as the prompts of [add_expense] let it in: an amount that is
    not [<= 0], a category that is not empty, a date that [strptime]
    accepts. *)
Definition entered {A} `{Num A} (e : expense A) : Prop :=
  num_leb (amount e) num_zero = false ∧ category e ≠ "" ∧ valid_date e.

(** What the lines of a summary by month or by year are to the records:
    the keys in strictly ascending order, one line for each key that some
    record has, and in each line the amounts of the records of that key,
    added in the order of the list. *)
Definition report_of {A} `{Num A} (fmt : ymd → string) (expenses : list (expense A))
    (lines : list (string * A)) : Prop :=
  StronglySorted (λ a b, String.ltb a b = true) lines.*1
  ∧ (∀ k, k ∈ lines.*1 ↔ ∃ e, e ∈ expenses ∧ group_key fmt e = k)
  ∧ (∀ k total, (k, total) ∈ lines →
       total = py_sum (amount <$> filter (λ e, group_key fmt e = k) expenses)).

(** A registry as [create_user] builds it: distinct alphanumeric names. *)
Definition registry_ok (users : list string) : Prop :=
  NoDup users ∧ Forall (λ v, isalnum v = true) users.

(** The file names that the main loop loads and saves are those of the
    active user. *)
Definition consistent {T} (w : world T) : Prop :=
  ∀ username, CURRENT_USERNAME w = Some username →
    CURRENT_EXPENSE_FILE w = expense_file_path username
    ∧ CURRENT_BUDGET_FILE w = budget_file_path username.

(** The two files of a name hold the same in two worlds. *)
Definition same_profile {T} (username : string) (w w' : world T) : Prop :=
  files w' !! expense_file_path username = files w !! expense_file_path username
  ∧ files w' !! budget_file_path username = files w !! budget_file_path username.

(** A turn of the editor whose new date, if it has one, is a date that
    [strptime] accepts, as the dates that [get_valid_date] returns are. *)
Definition valid_turn {A} (t : manage_turn A) : Prop :=
  match t with
  | TurnEdit _ _ _ new_date => is_Some (strptime new_date)
  | _ => True
  end.

(** The month of one date is before the month of another. *)
Definition earlier_month (t1 t2 : ymd) : Prop :=
  year t1 < year t2 ∨ (year t1 = year t2 ∧ month t1 < month t2).

(** The digits of a text read from the left, as [int] reads them, on top of
    the value [acc] read so far. *)
Definition read_digits (acc : Z) (cs : list ascii) : option Z :=
  ds ← mapM digit_of cs; Some (foldl (λ n d, 10 * n + Z.of_nat d)%Z acc ds).

(** An answer that [set_budget] refuses: no number, or one that is [< 0]. *)
Definition refused_limit {A} `{Num A} (answer : option A) : Prop :=
  ∀ a, answer = Some a → num_ltb a num_zero = true.

(** ** The [json] module: [json.dump(data, f, indent=4)] and [json.load(f)]

    The text that [json.dump] writes with [indent=4] and the default
    [ensure_ascii=True], and the value that [json.load] makes of a text,
    after CPython's [json.encoder] and [json.decoder].  A text is a string of
    code points below 256, as everywhere here: a [\uXXXX] escape of a higher
    code point is not read.  [json.load] raising [JSONDecodeError] is [None];
    [RecursionError] on a very deep nesting is outside the model. *)

(** The text of a number: [num_repr] is what [json.dump] writes for it (the
    [repr] of the number, and [NaN], [Infinity], [-Infinity] for the floats
    that have no finite value); [num_read] is what [json.load] makes of a
    number token, or of one of these three names. *)
Class NumText (A : Type) := {
  num_repr : A → list ascii;
  num_read : list ascii → option A
}.

(** The white space that the decoder skips: space, tab, line feed and
    carriage return. *)
Definition is_ws (c : ascii) : bool :=
  bool_decide (c ∈ [" "%char; "009"%char; "010"%char; "013"%char]).

Fixpoint skip_ws (cs : list ascii) : list ascii :=
  match cs with
  | c :: cs' => if is_ws c then skip_ws cs' else cs
  | [] => []
  end.

(** A hexadecimal digit, in lower case. *)
Definition hex_char (n : nat) : ascii :=
  if bool_decide (n < 10) then ascii_of_nat (48 + n) else ascii_of_nat (87 + n).

(** [py_encode_basestring_ascii] on one character: the quote, the backslash
    and five control characters have a short escape, a printable ASCII
    character stands for itself, and any other is written as [\u00xx]. *)
Definition escape_char (c : ascii) : list ascii :=
  let n := nat_of_ascii c in
  if bool_decide (n = 34) then ["\"; "034"]%char
  else if bool_decide (n = 92) then ["\"; "\"]%char
  else if bool_decide (n = 10) then ["\"; "n"]%char
  else if bool_decide (n = 13) then ["\"; "r"]%char
  else if bool_decide (n = 9) then ["\"; "t"]%char
  else if bool_decide (n = 8) then ["\"; "b"]%char
  else if bool_decide (n = 12) then ["\"; "f"]%char
  else if bool_decide (32 ≤ n ≤ 126) then [c]
  else ["\"; "u"; "0"; "0"; hex_char (n `div` 16); hex_char (n `mod` 16)]%char.

(** A string between quotes. *)
Definition encode_string (s : string) : list ascii :=
  ["034"%char] ++ flat_map escape_char (String.list_ascii_of_string s) ++ ["034"%char].

(** A new line and the indentation of a nesting level, four spaces each. *)
Definition newline_indent (level : nat) : list ascii :=
  "010"%char :: replicate (4 * level) " "%char.

(** [sep.join(xs)] *)
Fixpoint join (sep : list ascii) (xs : list (list ascii)) : list ascii :=
  match xs with
  | [] => []
  | [x] => x
  | x :: xs' => x ++ sep ++ join sep xs'
  end.

Section Json.
Context {A : Type} `{NumText A}.

(** [_iterencode]: an empty list is [[]] and an empty dictionary [{}]; the
    items of any other one stand on lines of their own, one level deeper,
    with [,] between them and [: ] after a key. *)
Fixpoint encode (level : nat) (v : pyval A) : list ascii :=
  match v with
  | PNone => String.list_ascii_of_string "null"
  | PBool b => String.list_ascii_of_string (if b then "true" else "false")
  | PNum a => num_repr a
  | PStr s => encode_string s
  | PList xs =>
      match xs with
      | [] => String.list_ascii_of_string "[]"
      | _ =>
          ["["%char] ++ newline_indent (S level)
          ++ join (","%char :: newline_indent (S level)) (map (encode (S level)) xs)
          ++ newline_indent level ++ ["]"%char]
      end
  | PDict kvs =>
      match kvs with
      | [] => String.list_ascii_of_string "{}"
      | _ =>
          ["{"%char] ++ newline_indent (S level)
          ++ join (","%char :: newline_indent (S level))
               (map (λ kv, let '(k, x) := kv in
                           encode_string k ++ [":"; " "]%char ++ encode (S level) x) kvs)
          ++ newline_indent level ++ ["}"%char]
      end
  end.

(** The text that [json.dump] writes into the file. *)
Definition json_dumps (v : pyval A) : string := String.string_of_list_ascii (encode 0 v).

(** A hexadecimal digit of either case. *)
Definition hex_value (c : ascii) : option nat :=
  let n := nat_of_ascii c in
  if bool_decide (48 ≤ n ≤ 57) then Some (n - 48)
  else if bool_decide (65 ≤ n ≤ 70) then Some (n - 55)
  else if bool_decide (97 ≤ n ≤ 102) then Some (n - 87)
  else None.

(** The character after a backslash, other than [u]. *)
Definition unescape (c : ascii) : option ascii :=
  if decide (c = "034"%char) then Some "034"%char
  else if decide (c = "\"%char) then Some "\"%char
  else if decide (c = "/"%char) then Some "/"%char
  else if decide (c = "b"%char) then Some "008"%char
  else if decide (c = "f"%char) then Some "012"%char
  else if decide (c = "n"%char) then Some "010"%char
  else if decide (c = "r"%char) then Some "013"%char
  else if decide (c = "t"%char) then Some "009"%char
  else None.

(** [scanstring], after the opening quote, in strict mode: the string up to
    the closing quote and what follows it; a control character, an unknown
    escape or a missing quote is an error. *)
Fixpoint scan_string (cs : list ascii) : option (string * list ascii) :=
  match cs with
  | [] => None
  | c :: rest =>
      if decide (c = "034"%char) then Some (EmptyString, rest)
      else if decide (c = "\"%char) then
        match rest with
        | e :: rest1 =>
            if decide (e = "u"%char) then
              match rest1 with
              | h1 :: h2 :: h3 :: h4 :: rest2 =>
                  a ← hex_value h1; b ← hex_value h2; c3 ← hex_value h3; d ← hex_value h4;
                  let code := ((a * 16 + b) * 16 + c3) * 16 + d in
                  if bool_decide (code < 256) then
                    '(s, r) ← scan_string rest2; Some (String (ascii_of_nat code) s, r)
                  else None
              | _ => None
              end
            else
              ch ← unescape e; '(s, r) ← scan_string rest1; Some (String ch s, r)
        | [] => None
        end
      else if bool_decide (nat_of_ascii c < 32) then None
      else '(s, r) ← scan_string rest; Some (String c s, r)
  end.

(** [NUMBER_RE]: an optional minus sign, [0] or digits that do not start
    with [0], then an optional fraction and an optional exponent; the token
    is the longest such prefix. *)
Definition is_digit09 (c : ascii) : bool := bool_decide (48 ≤ nat_of_ascii c ≤ 57).

Fixpoint span_digits (cs : list ascii) : list ascii * list ascii :=
  match cs with
  | c :: cs' =>
      if is_digit09 c then let '(ds, r) := span_digits cs' in (c :: ds, r) else ([], cs)
  | [] => ([], [])
  end.

Definition scan_int (cs : list ascii) : option (list ascii * list ascii) :=
  let '(sign, cs1) :=
    match cs with
    | c :: r => if decide (c = "-"%char) then ([c], r) else ([], cs)
    | [] => ([], cs)
    end in
  match cs1 with
  | c :: r =>
      if decide (c = "0"%char) then Some (sign ++ [c], r)
      else if is_digit09 c then let '(ds, r') := span_digits r in Some (sign ++ c :: ds, r')
      else None
  | [] => None
  end.

Definition scan_frac (cs : list ascii) : list ascii * list ascii :=
  match cs with
  | c :: r =>
      if decide (c = "."%char) then
        match span_digits r with
        | ([], _) => ([], cs)
        | (ds, r') => (c :: ds, r')
        end
      else ([], cs)
  | [] => ([], cs)
  end.

Definition scan_exp (cs : list ascii) : list ascii * list ascii :=
  match cs with
  | c :: r =>
      if bool_decide (c ∈ ["e"; "E"]%char) then
        let '(sign, r1) :=
          match r with
          | s :: r2 => if bool_decide (s ∈ ["+"; "-"]%char) then ([s], r2) else ([], r)
          | [] => ([], r)
          end in
        match span_digits r1 with
        | ([], _) => ([], cs)
        | (ds, r') => (c :: sign ++ ds, r')
        end
      else ([], cs)
  | [] => ([], cs)
  end.

Definition scan_number (cs : list ascii) : option (list ascii * list ascii) :=
  '(i, r1) ← scan_int cs;
  let '(f, r2) := scan_frac r1 in
  let '(e, r3) := scan_exp r2 in
  Some (i ++ f ++ e, r3).

(** [cs] starts with [word]: what is left after it. *)
Fixpoint after (word cs : list ascii) : option (list ascii) :=
  match word, cs with
  | [], _ => Some cs
  | w :: word', c :: cs' => if decide (w = c) then after word' cs' else None
  | _ :: _, [] => None
  end.

(** [_scan_once] on anything but a string, an object or an array: the three
    names, a number token, or one of the three names of the floats that
    have no finite value. *)
Definition scan_atom (cs : list ascii) : option (pyval A * list ascii) :=
  match after (String.list_ascii_of_string "null") cs with
  | Some r => Some (PNone, r)
  | None =>
  match after (String.list_ascii_of_string "true") cs with
  | Some r => Some (PBool true, r)
  | None =>
  match after (String.list_ascii_of_string "false") cs with
  | Some r => Some (PBool false, r)
  | None =>
  match scan_number cs with
  | Some (token, r) => a ← num_read token; Some (PNum a, r)
  | None =>
  match after (String.list_ascii_of_string "NaN") cs with
  | Some r => a ← num_read (String.list_ascii_of_string "NaN"); Some (PNum a, r)
  | None =>
  match after (String.list_ascii_of_string "Infinity") cs with
  | Some r => a ← num_read (String.list_ascii_of_string "Infinity"); Some (PNum a, r)
  | None =>
  match after (String.list_ascii_of_string "-Infinity") cs with
  | Some r => a ← num_read (String.list_ascii_of_string "-Infinity"); Some (PNum a, r)
  | None => None
  end end end end end end end.

(** [dict(pairs)]: a key that comes again keeps its place and takes the
    later value. *)
Definition dict_of_pairs {V} (pairs : list (string * V)) : dict V :=
  foldl (λ d kv, dict_set kv.1 kv.2 d) [] pairs.

(** [_scan_once], [JSONArray] after the first item is known to exist, and
    [JSONObject] after the opening quote of a key.  [fuel] bounds the
    nesting and the number of items; [json_loads] gives enough of it. *)
Fixpoint scan_value (fuel : nat) (cs : list ascii) : option (pyval A * list ascii) :=
  match fuel with
  | 0 => None
  | S fuel' =>
      match cs with
      | [] => None
      | c :: rest =>
          if decide (c = "034"%char) then
            '(s, r) ← scan_string rest; Some (PStr s, r)
          else if decide (c = "{"%char) then
            match skip_ws rest with
            | c1 :: r =>
                if decide (c1 = "}"%char) then Some (PDict [], r)
                else if decide (c1 = "034"%char) then
                  '(pairs, r') ← scan_members fuel' r; Some (PDict (dict_of_pairs pairs), r')
                else None
            | [] => None
            end
          else if decide (c = "["%char) then
            match skip_ws rest with
            | c1 :: r =>
                if decide (c1 = "]"%char) then Some (PList [], r)
                else '(xs, r') ← scan_elements fuel' (c1 :: r); Some (PList xs, r')
            | [] => None
            end
          else scan_atom cs
      end
  end
with scan_elements (fuel : nat) (cs : list ascii) : option (list (pyval A) * list ascii) :=
  match fuel with
  | 0 => None
  | S fuel' =>
      '(v, r) ← scan_value fuel' cs;
      match skip_ws r with
      | c :: r1 =>
          if decide (c = "]"%char) then Some ([v], r1)
          else if decide (c = ","%char) then
            '(vs, r2) ← scan_elements fuel' (skip_ws r1); Some (v :: vs, r2)
          else None
      | [] => None
      end
  end
with scan_members (fuel : nat) (cs : list ascii)
    : option (list (string * pyval A) * list ascii) :=
  match fuel with
  | 0 => None
  | S fuel' =>
      '(k, r) ← scan_string cs;
      match skip_ws r with
      | c :: r1 =>
          if decide (c = ":"%char) then
            '(v, r2) ← scan_value fuel' (skip_ws r1);
            match skip_ws r2 with
            | c2 :: r3 =>
                if decide (c2 = "}"%char) then Some ([(k, v)], r3)
                else if decide (c2 = ","%char) then
                  match skip_ws r3 with
                  | c3 :: r4 =>
                      if decide (c3 = "034"%char) then
                        '(kvs, r5) ← scan_members fuel' r4; Some ((k, v) :: kvs, r5)
                      else None
                  | [] => None
                  end
                else None
            | [] => None
            end
          else None
      | [] => None
      end
  end.

(** [json.load]: one value, with white space around it and nothing else. *)
Definition json_loads (text : string) : option (pyval A) :=
  let cs := String.list_ascii_of_string text in
  '(v, r) ← scan_value (2 * length cs + 2) (skip_ws cs);
  match skip_ws r with
  | [] => Some v
  | _ => None
  end.

End Json.

(** Whole numbers: [json.dump] writes [repr] of an [int], its decimal
    digits after a minus sign if it is negative, and [json.load] makes an
    [int] of a token without fraction and exponent, with [int]'s limit of
    4300 digits; a token with a fraction or an exponent, and the three names,
    make a float, which is no whole number ([None]). *)
Definition Z_read (token : list ascii) : option Z :=
  match token with
  | c :: ds =>
      if decide (c = "-"%char) then
        if bool_decide (length ds ≤ 4300) then Z.opp <$> read_digits 0 ds else None
      else if bool_decide (length token ≤ 4300) then read_digits 0 token else None
  | [] => None
  end.

#[export] Instance Z_text : NumText Z := {|
  num_repr z := String.list_ascii_of_string (pretty z);
  num_read := Z_read
|}.

(** The files of the program hold the text that [json.dump] wrote. *)
#[export] Instance json_codec (A : Type) `{NumText A} : Codec A string := {|
  json_dump := json_dumps;
  json_load := json_loads
|}.

(** ** Vocabulary of the stored texts *)

(** What follows a value in a text that [json.dump] wrote: nothing, a comma,
    or a new line. *)
Definition delimited (rest : list ascii) : Prop :=
  rest = [] ∨ ∃ c r, rest = c :: r ∧ (c = ","%char ∨ c = "010"%char).

(** The text of the number [a] is read back as [a]: for a float,
    [float(repr(a)) == a]. *)
Definition reads_back {A} `{NumText A} (a : A) : Prop :=
  ∀ rest, delimited rest → scan_value 1 (num_repr a ++ rest) = Some (PNum a, rest).

(** A value whose numbers read back and whose dictionaries have each key
    once, as every Python [dict] has. *)
Fixpoint dumpable {A} `{NumText A} (v : pyval A) : Prop :=
  match v with
  | PNum a => reads_back a
  | PList xs => foldr (λ x P, dumpable x ∧ P) True xs
  | PDict kvs =>
      NoDup kvs.*1 ∧ foldr (λ kv P, (let '(_, x) := kv in dumpable x) ∧ P) True kvs
  | _ => True
  end.

(** A value is read back at every nesting level, before every delimited
    rest, with fuel for twice its text. *)
Definition read_back_at {A} `{NumText A} (v : pyval A) : Prop :=
  ∀ level rest fuel, delimited rest → 2 * length (encode level v) ≤ fuel →
    scan_value fuel (encode level v ++ rest) = Some (v, rest).

(** The text of one item of a dictionary. *)
Definition member_text {A} `{NumText A} (level : nat) (kv : string * pyval A) : list ascii :=
  let '(k, x) := kv in encode_string k ++ [":"; " "]%char ++ encode (S level) x.

(** A whole number of at most 4300 digits, the longest that [int] converts
    to and from text. *)
Definition short_number (z : Z) : Prop :=
  length (String.list_ascii_of_string (pretty (Z.abs_N z))) ≤ 4300.

(** * Properties *)

(** ** The number instances *)

Lemma Z_laws : NumLaws Z.
Proof.
  split; unfold is_amount, is_number; simpl.
  - intros r ->%Z.eqb_eq. reflexivity.
  - intros r ?%Z.ltb_lt. apply Z.ltb_ge. lia.
  - intros r ?%Z.ltb_lt. apply Z.eqb_neq. lia.
  - intros a b ?%Z.ltb_lt. apply Z.ltb_ge. lia.
  - intros a b c _ ?%Z.ltb_ge ?%Z.ltb_ge. apply Z.ltb_ge. lia.
  - intros a b t ->%Z.eqb_eq ->%Z.eqb_eq. apply Z.ltb_irrefl.
  - done.
  - intros a b [_ ?%Z.ltb_ge] [_ ?%Z.ltb_ge]. split; [apply Z.eqb_refl|].
    apply Z.ltb_ge. lia.
Qed.
#[export] Existing Instance Z_laws.

Lemma Z_exact : Exact Z.
Proof. split; simpl; intros; lia. Qed.
#[export] Existing Instance Z_exact.

(** Floats that are not NaN compare as their ranks do. *)
Lemma SFcompare_rank (x y : f64) :
  x ≠ S754_nan → y ≠ S754_nan →
  match SFcompare x y with
  | Some Lt => rank_lt (f64_rank x) (f64_rank y)
  | Some Eq => f64_rank x = f64_rank y
  | Some Gt => rank_lt (f64_rank y) (f64_rank x)
  | None => False
  end.
Proof.
  intros Hx Hy. unfold rank_lt.
  destruct x as [sx|sx| |sx mx ex], y as [sy|sy| |sy my ey]; try done;
    try (destruct sx); try (destruct sy); simpl; try lia; try done.
  - destruct (Z.compare_spec ex ey) as [->|?|?]; simpl; try lia.
    rewrite Pos.compare_cont_spec. simpl.
    destruct (Pos.compare_spec mx my) as [->|?|?]; simpl; try done; lia.
  - destruct (Z.compare_spec ex ey) as [->|?|?]; simpl; try lia.
    rewrite Pos.compare_cont_spec. simpl.
    destruct (Pos.compare_spec mx my) as [->|?|?]; simpl; try done; lia.
Qed.

Lemma SFltb_rank (x y : f64) :
  SFltb x y = true ↔ x ≠ S754_nan ∧ y ≠ S754_nan ∧ rank_lt (f64_rank x) (f64_rank y).
Proof.
  destruct (decide (x = S754_nan)) as [->|Hx]; [by split; [|intros [? _]]|].
  destruct (decide (y = S754_nan)) as [->|Hy].
  { split; [by destruct x | by intros (_ & ? & _)]. }
  pose proof (SFcompare_rank x y Hx Hy) as Hc. unfold SFltb.
  destruct (f64_rank x) as [[cx ex] mx], (f64_rank y) as [[cy ey] my].
  unfold rank_lt in *. simpl in *.
  destruct (SFcompare x y) as [[]|]; try done;
    (split; [intros ?; try done | intros (_ & _ & ?)]); try done.
  - injection Hc as -> -> ->. lia.
  - lia.
Qed.

Lemma SFeqb_rank (x y : f64) :
  SFeqb x y = true ↔ x ≠ S754_nan ∧ y ≠ S754_nan ∧ f64_rank x = f64_rank y.
Proof.
  destruct (decide (x = S754_nan)) as [->|Hx]; [by split; [|intros [? _]]|].
  destruct (decide (y = S754_nan)) as [->|Hy].
  { split; [by destruct x | by intros (_ & ? & _)]. }
  pose proof (SFcompare_rank x y Hx Hy) as Hc. unfold SFeqb.
  destruct (f64_rank x) as [[cx ex] mx], (f64_rank y) as [[cy ey] my].
  unfold rank_lt in *. simpl in *.
  destruct (SFcompare x y) as [[]|]; try done;
    (split; [intros ?; try done | intros (_ & _ & Heq)]); try done.
  - injection Heq as -> -> ->. lia.
  - injection Heq as -> -> ->. lia.
Qed.

(** Rounding a sum of two floats that are not negative gives a float that
    is not negative, never a NaN. *)
Lemma shr_1_nonneg (mrs : shr_record) : (0 ≤ shr_m mrs)%Z → (0 ≤ shr_m (shr_1 mrs))%Z.
Proof. destruct mrs as [[|[p|p|]|p] r s]; simpl; lia. Qed.

Lemma iter_pos_invariant {X} (P : X → Prop) (f : X → X) (n : positive) (x : X) :
  (∀ y, P y → P (f y)) → P x → P (SpecFloat.iter_pos f n x).
Proof.
  intros Hf. revert x. induction n as [n IH|n IH|]; simpl; intros x Hx; auto.
Qed.

Lemma shr_nonneg (mrs : shr_record) (e n : Z) :
  (0 ≤ shr_m mrs)%Z → (0 ≤ shr_m (shr mrs e n).1)%Z.
Proof.
  intros Hm. destruct n as [|p|p]; simpl; try done.
  apply (iter_pos_invariant (λ r, (0 ≤ shr_m r)%Z)); [apply shr_1_nonneg | done].
Qed.

Lemma shr_fexp_nonneg (prec emax m e : Z) (l : location) :
  (0 ≤ m)%Z → (0 ≤ shr_m (shr_fexp prec emax m e l).1)%Z.
Proof.
  intros Hm. unfold shr_fexp. apply shr_nonneg.
  by destruct l as [|[]].
Qed.

Lemma round_nearest_even_nonneg (m : Z) (l : location) :
  (0 ≤ m)%Z → (0 ≤ round_nearest_even m l)%Z.
Proof. intros Hm. destruct l as [|[]]; simpl; try done; [destruct (Z.even m)|]; lia. Qed.

Lemma binary_round_aux_nonneg (prec emax m e : Z) (l : location) :
  (0 ≤ m)%Z → f64_nonneg (binary_round_aux prec emax false m e l).
Proof.
  intros Hm. unfold binary_round_aux.
  pose proof (shr_fexp_nonneg prec emax m e l Hm) as H1.
  destruct (shr_fexp prec emax m e l) as [mrs' e']. simpl in H1.
  pose proof (round_nearest_even_nonneg (shr_m mrs') (loc_of_shr_record mrs') H1) as H2.
  pose proof (shr_fexp_nonneg prec emax _ e' loc_Exact H2) as H3.
  destruct (shr_fexp prec emax _ e' loc_Exact) as [mrs'' e'']. simpl in H3.
  destruct (shr_m mrs'') as [|p|p]; simpl; [done| |lia].
  by destruct (e'' <=? emax - prec)%Z.
Qed.

Lemma SFadd_nonneg (x y : f64) :
  f64_nonneg x → f64_nonneg y → f64_nonneg (SFadd 53 1024 x y).
Proof.
  destruct x as [sx|sx| |sx mx ex], y as [sy|sy| |sy my ey]; simpl; try done.
  - by destruct sx, sy.
  - by intros -> ->.
  - intros -> ->. unfold binary_normalize.
    destruct (shl_align mx ex (Z.min ex ey)) as [a ?], (shl_align my ey (Z.min ex ey)) as [b ?].
    simpl. unfold binary_round.
    destruct (shl_align _ _ _) as [mz ez].
    by apply binary_round_aux_nonneg.
Qed.

Lemma f64_amount (x : f64) : is_amount x ↔ f64_nonneg x.
Proof.
  unfold is_amount, is_number. simpl. unfold SFeqb, SFltb.
  destruct x as [[]|[]| |[] m e]; simpl; try (split; [intros [? ?]|]; done).
  rewrite Z.compare_refl, Pos.compare_cont_refl. done.
Qed.

(** Binary64 values, infinities and NaN included, satisfy the laws. *)
Lemma f64_laws : NumLaws f64.
Proof.
  split.
  - intros r. simpl. unfold SFltb, SFeqb. destruct r as [[]|[]| |[] m e]; simpl; congruence.
  - intros r. simpl. unfold SFltb, SFeqb. destruct r as [[]|[]| |[] m e]; simpl; congruence.
  - intros r. simpl. unfold SFltb, SFeqb. destruct r as [[]|[]| |[] m e]; simpl; congruence.
  - simpl. intros a b (Ha & Hb & Hab)%SFltb_rank.
    destruct (SFltb b a) eqn:Hba; [|done].
    apply SFltb_rank in Hba as (_ & _ & Hba). unfold rank_lt in *. lia.
  - unfold is_number. simpl. intros a b c (Hb & _ & _)%SFeqb_rank Hab Hbc.
    destruct (SFltb a c) eqn:Hac; [|done].
    apply SFltb_rank in Hac as (Ha & Hc & Hac).
    assert (¬ rank_lt (f64_rank a) (f64_rank b)) as Hab'.
    { intros Hlt. rewrite (proj2 (SFltb_rank a b)) in Hab; done. }
    assert (¬ rank_lt (f64_rank b) (f64_rank c)) as Hbc'.
    { intros Hlt. rewrite (proj2 (SFltb_rank b c)) in Hbc; done. }
    unfold rank_lt in *. lia.
  - simpl. intros a b t (Ha & _ & Hat)%SFeqb_rank (Hb & _ & Hbt)%SFeqb_rank.
    destruct (SFltb b a) eqn:Hba; [|done].
    apply SFltb_rank in Hba as (_ & _ & Hba).
    rewrite Hat, Hbt in Hba. unfold rank_lt in Hba. lia.
  - by apply f64_amount.
  - intros a b Ha%f64_amount Hb%f64_amount. by apply f64_amount, SFadd_nonneg.
Qed.
#[export] Existing Instance f64_laws.

Section ExactFacts.
Context {A : Type} `{Exact A}.

Lemma num_add_zero_r (a : A) : num_add a num_zero = a.
Proof. rewrite num_add_comm. apply num_add_zero_l. Qed.

(** Sums do not depend on where the additions start. *)
Lemma fold_add_shift (xs : list A) (s a : A) :
  fold_left num_add xs (num_add s a) = num_add (fold_left num_add xs s) a.
Proof.
  revert s. induction xs as [|x xs IH]; intros s; simpl; [done|].
  rewrite <- IH. f_equal.
  rewrite <- !num_add_assoc. f_equal. apply num_add_comm.
Qed.

Lemma py_sum_cons (x : A) (xs : list A) : py_sum (x :: xs) = num_add (py_sum xs) x.
Proof.
  unfold py_sum. simpl. rewrite num_add_zero_l.
  rewrite <- (num_add_zero_l x) at 1. apply fold_add_shift.
Qed.


Lemma py_sum_perm (xs ys : list A) : xs ≡ₚ ys → py_sum xs = py_sum ys.
Proof.
  induction 1 as [|x xs ys _ IH|x y xs|xs ys zs _ IH1 _ IH2].
  - done.
  - by rewrite !py_sum_cons, IH.
  - rewrite !py_sum_cons. rewrite <- !num_add_assoc. f_equal. apply num_add_comm.
  - congruence.
Qed.

End ExactFacts.

(** ** [sorted] is a stable sort *)

Section SortedFacts.
Context {E K : Type} (key : E → K) (lt : K → K → bool).

Lemma insert_by_perm (x : E) (l : list E) : insert_by key lt x l ≡ₚ x :: l.
Proof.
  induction l as [|y l IH]; simpl; [done|].
  destruct (lt (key y) (key x)); [|done].
  rewrite IH. apply Permutation_swap.
Qed.

Lemma sort_by_perm (l : list E) : sort_by key lt l ≡ₚ l.
Proof.
  induction l as [|x l IH]; simpl; [done|].
  by rewrite insert_by_perm, IH.
Qed.

Lemma sorted_perm (rev : bool) (l : list E) : sorted key lt rev l ≡ₚ l.
Proof.
  unfold sorted. destruct rev; [|apply sort_by_perm].
  by rewrite reverse_Permutation, sort_by_perm, reverse_Permutation.
Qed.

Lemma sorted_length (rev : bool) (l : list E) : length (sorted key lt rev l) = length l.
Proof. apply Permutation_length, sorted_perm. Qed.

(** Elements that a predicate [Q] selects and that [<] never separates keep
    their relative order. *)
Section Stable.
Context (Q : E → Prop) `{!∀ e, Decision (Q e)}.
Hypothesis Q_tied : ∀ x y, Q x → Q y → lt (key y) (key x) = false.

Lemma insert_by_filter (x : E) (l : list E) :
  filter Q (insert_by key lt x l) = filter Q (x :: l).
Proof.
  induction l as [|y l IH]; simpl; [done|].
  destruct (lt (key y) (key x)) eqn:Hlt; [|done].
  rewrite !filter_cons in *.
  destruct (decide (Q y)) as [Hy|Hy], (decide (Q x)) as [Hx|Hx];
    rewrite IH; try done.
  rewrite (Q_tied _ _ Hx Hy) in Hlt. done.
Qed.

Lemma sort_by_stable (l : list E) : filter Q (sort_by key lt l) = filter Q l.
Proof.
  induction l as [|x l IH]; simpl; [done|].
  rewrite insert_by_filter, !filter_cons, IH. done.
Qed.

Lemma sorted_stable (rev : bool) (l : list E) : filter Q (sorted key lt rev l) = filter Q l.
Proof.
  unfold sorted. destruct rev; [|apply sort_by_stable].
  by rewrite filter_reverse, sort_by_stable, filter_reverse, reverse_involutive.
Qed.

End Stable.

(** With an order on the keys the result is in order; [ok] marks the keys
    that may stand in the middle of a chain of comparisons. *)
Section Ordered.
Context (ok : K → Prop).
Hypothesis lt_asym : ∀ a b, lt a b = true → lt b a = false.
Hypothesis lt_negtrans : ∀ a b c, ok b → lt a b = false → lt b c = false → lt a c = false.

Lemma insert_by_sorted (x : E) (l : list E) :
  Forall (λ e, ok (key e)) l →
  StronglySorted (λ a b, lt (key b) (key a) = false) l →
  StronglySorted (λ a b, lt (key b) (key a) = false) (insert_by key lt x l).
Proof.
  intros Hok. induction 1 as [|y l Hl IH Hy]; simpl.
  - repeat constructor.
  - apply Forall_cons_1 in Hok as [Hoky Hok].
    destruct (lt (key y) (key x)) eqn:Hlt.
    + constructor; [by apply IH|].
      rewrite insert_by_perm. constructor; [by apply lt_asym | done].
    + constructor; [by constructor|].
      constructor; [done|].
      eapply Forall_impl; [exact Hy|]. simpl. intros z Hz.
      by apply (lt_negtrans _ (key y)).
Qed.

Lemma sort_by_sorted (l : list E) :
  Forall (λ e, ok (key e)) l →
  StronglySorted (λ a b, lt (key b) (key a) = false) (sort_by key lt l).
Proof.
  induction 1 as [|x l Hx Hl IH]; simpl; [constructor|].
  apply insert_by_sorted; [|done]. by rewrite sort_by_perm.
Qed.

Lemma StronglySorted_reverse (R : E → E → Prop) (l : list E) :
  StronglySorted R l → StronglySorted (flip R) (reverse l).
Proof.
  induction 1 as [|y l Hl IH Hy]; [constructor|].
  rewrite reverse_cons. apply StronglySorted_app_2; [|done|repeat constructor].
  intros a b Ha ->%list_elem_of_singleton. unfold flip.
  rewrite Forall_forall in Hy. apply Hy. by rewrite elem_of_reverse in Ha.
Qed.

Lemma sorted_ascending (l : list E) :
  Forall (λ e, ok (key e)) l →
  StronglySorted (λ a b, lt (key b) (key a) = false) (sorted key lt false l).
Proof. apply sort_by_sorted. Qed.

Lemma sorted_descending (l : list E) :
  Forall (λ e, ok (key e)) l →
  StronglySorted (λ a b, lt (key a) (key b) = false) (sorted key lt true l).
Proof.
  intros Hok. unfold sorted.
  apply (StronglySorted_reverse (λ a b, lt (key b) (key a) = false)), sort_by_sorted.
  by apply Forall_reverse.
Qed.

End Ordered.
End SortedFacts.

(** The order of strings. *)
Lemma string_ltb_false (a b : string) : String.ltb a b = false ↔ String.le b a.
Proof.
  unfold String.le, String.ltb, String.leb.
  rewrite (String.compare_antisym a b).
  destruct (String.compare b a); simpl; split; done.
Qed.

Lemma string_ltb_irrefl (a : string) : String.ltb a a = false.
Proof. apply string_ltb_false. done. Qed.

Lemma string_ltb_asym (a b : string) : String.ltb a b = true → String.ltb b a = false.
Proof.
  unfold String.ltb. rewrite (String.compare_antisym a b).
  destruct (String.compare b a); simpl; done.
Qed.

Lemma string_ltb_negtrans (a b c : string) :
  String.ltb a b = false → String.ltb b c = false → String.ltb a c = false.
Proof.
  rewrite !string_ltb_false. intros Hba Hcb. by etrans.
Qed.

(** ** Dictionaries *)

Section DictFacts.
Context {V : Type}.
Implicit Types (d : dict V) (k : string) (v : V).

Lemma dict_get_set k k' v dflt d :
  dict_get k' dflt (dict_set k v d) = if decide (k = k') then v else dict_get k' dflt d.
Proof.
  induction d as [|[k0 v0] d IH]; simpl.
  - done.
  - destruct (decide (k0 = k)) as [->|Hne]; simpl.
    + destruct (decide (k = k')); done.
    + rewrite IH. destruct (decide (k0 = k')) as [->|]; [|done].
      by rewrite decide_False by done.
Qed.

Lemma dict_keys_set_in k v d :
  k ∈ dict_keys d → dict_keys (dict_set k v d) = dict_keys d.
Proof.
  unfold dict_keys. induction d as [|[k0 v0] d IH]; simpl.
  - by intros ?%elem_of_nil.
  - intros Hin. destruct (decide (k0 = k)) as [->|Hne]; simpl; [done|].
    f_equal. apply IH. apply elem_of_cons in Hin as [->|]; done.
Qed.

Lemma dict_keys_set_notin k v d :
  k ∉ dict_keys d → dict_keys (dict_set k v d) = dict_keys d ++ [k].
Proof.
  unfold dict_keys. induction d as [|[k0 v0] d IH]; simpl; [done|].
  rewrite not_elem_of_cons. intros [Hne Hin].
  rewrite decide_False by done. simpl. f_equal. by apply IH.
Qed.


(** A dictionary is the list of its keys, each with its value. *)
Lemma dict_items_by_key dflt d :
  NoDup (dict_keys d) → d = (λ k, (k, dict_get k dflt d)) <$> dict_keys d.
Proof.
  unfold dict_keys. induction d as [|[k0 v0] d IH]; simpl; [done|].
  rewrite NoDup_cons. intros [Hk0 Hnd].
  rewrite decide_True by done. f_equal.
  rewrite IH at 1 by done. apply list_fmap_ext.
  intros i k Hk. rewrite decide_False; [done|].
  intros ->. apply Hk0. by eapply list_elem_of_lookup_2.
Qed.

End DictFacts.

(** ** Lists *)

Lemma filter_all {E} (P : E → Prop) `{!∀ x, Decision (P x)} (l : list E) :
  Forall P l → filter P l = l.
Proof.
  induction 1 as [|x l Hx _ IH]; [done|].
  by rewrite filter_cons, decide_True, IH.
Qed.

(** ** The accumulation loops *)

Section AccumulateFacts.
Context {A : Type} `{Num A}.
Implicit Types (d : dict A) (l : list (expense A)) (k : expense A → string).

Local Abbreviation acc_by k d l :=
  (fold_left (λ d0 item, accumulate d0 (k item) (amount item)) l d).

Lemma acc_by_get k c d l :
  dict_get c num_zero (acc_by k d l) =
  fold_left num_add (amount <$> filter (λ e, k e = c) l) (dict_get c num_zero d).
Proof.
  revert d. induction l as [|x l IH]; intros d; simpl; [done|].
  rewrite IH. unfold accumulate. rewrite dict_get_set, filter_cons.
  destruct (decide (k x = c)) as [<-|Hne]; done.
Qed.

Lemma accumulate_keys_NoDup d c a :
  NoDup (dict_keys d) → NoDup (dict_keys (accumulate d c a)).
Proof.
  intros Hnd. unfold accumulate. destruct (decide (c ∈ dict_keys d)) as [Hin|Hin].
  - by rewrite dict_keys_set_in.
  - rewrite dict_keys_set_notin by done. apply NoDup_app. split_and!; [done| |].
    + intros x Hx ->%list_elem_of_singleton. done.
    + apply NoDup_singleton.
Qed.

Lemma acc_by_keys_NoDup k d l : NoDup (dict_keys d) → NoDup (dict_keys (acc_by k d l)).
Proof.
  revert d. induction l as [|x l IH]; intros d Hnd; simpl; [done|].
  by apply IH, accumulate_keys_NoDup.
Qed.

(** Keys enter the dictionary in the order in which they are first met. *)
Lemma acc_by_keys k d l :
  dict_keys (acc_by k d l) =
  dict_keys d ++ filter (λ c, c ∉ dict_keys d) (first_seen (k <$> l)).
Proof.
  revert d. induction l as [|x l IH]; intros d; simpl.
  - by rewrite app_nil_r.
  - rewrite IH. unfold accumulate. rewrite filter_cons.
    destruct (decide (k x ∈ dict_keys d)) as [Hin|Hin].
    + rewrite dict_keys_set_in by done. rewrite decide_False by auto.
      f_equal. rewrite list_filter_filter. apply list_filter_iff.
      intros c. split; [|tauto]. intros Hc. split; [done|]. by intros ->.
    + rewrite dict_keys_set_notin by done. rewrite decide_True by done.
      rewrite <- app_assoc. simpl. do 2 f_equal.
      rewrite list_filter_filter. apply list_filter_iff.
      intros c. rewrite elem_of_app, list_elem_of_singleton. tauto.
Qed.

Lemma category_spending_keys l :
  dict_keys (category_spending l) = first_seen (category <$> l).
Proof.
  unfold category_spending. rewrite acc_by_keys. simpl.
  apply filter_all, Forall_forall. intros c _. apply not_elem_of_nil.
Qed.

Lemma category_spending_get l c :
  dict_get c num_zero (category_spending l) = category_total l c.
Proof. unfold category_spending. by rewrite acc_by_get. Qed.

(** The spending by category, read off the records. *)
Lemma category_spending_items l :
  category_spending l = (λ c, (c, category_total l c)) <$> first_seen (category <$> l).
Proof.
  rewrite (dict_items_by_key num_zero (category_spending l)).
  - rewrite category_spending_keys. apply list_fmap_ext.
    intros i c _. by rewrite category_spending_get.
  - apply acc_by_keys_NoDup. constructor.
Qed.

(** The loop over dates is the same loop when every date parses, and raises
    otherwise. *)
Lemma spending_by_None fmt l :
  foldl (λ acc item, d ← acc; t ← strptime (date item);
           Some (accumulate d (fmt t) (amount item))) None l = None.
Proof. induction l; simpl; done. Qed.

Lemma spending_by_valid fmt d l :
  Forall valid_date l →
  foldl (λ acc item, d0 ← acc; t ← strptime (date item);
           Some (accumulate d0 (fmt t) (amount item))) (Some d) l =
  Some (acc_by (group_key fmt) d l).
Proof.
  intros Hl. revert d. induction Hl as [|x l [t Ht] _ IH]; intros d; simpl; [done|].
  rewrite Ht. simpl. rewrite IH.
  replace (group_key fmt x) with (fmt t); [done|].
  unfold group_key. by rewrite Ht.
Qed.

Lemma spending_by_invalid fmt d l :
  ¬ Forall valid_date l →
  foldl (λ acc item, d0 ← acc; t ← strptime (date item);
           Some (accumulate d0 (fmt t) (amount item))) (Some d) l = None.
Proof.
  revert d. induction l as [|x l IH]; intros d Hl; simpl.
  - destruct Hl. constructor.
  - destruct (strptime (date x)) as [t|] eqn:Ht; simpl; [|apply spending_by_None].
    apply IH. intros Hl'. apply Hl. constructor; [by exists t | done].
Qed.

End AccumulateFacts.

(** ** Budgets *)

Lemma check_budgets_lines {A : Type} `{Num A} (expenses : list (expense A)) (budgets : dict A) :
  check_budgets expenses budgets =
  (λ '(c, limit),
     let spent := category_total expenses c in
     let remaining := num_sub limit spent in
     BudgetLine c limit spent remaining (budget_status remaining)) <$> budgets.
Proof.
  unfold check_budgets. destruct budgets as [|b budgets]; [done|].
  apply list_fmap_ext. intros i [c limit] _. simpl.
  by rewrite category_spending_get.
Qed.

(** C1: for every list of records and every budget dictionary,
    [check_budgets] reports exactly the keys of the dictionary, once each and
    in insertion order, and nothing else; in the line of a category, the
    amount spent is the sum of the amounts of the records of that category
    (zero when there is none), the remainder is the limit minus the amount
    spent, and the status is [Over] for a negative remainder,
    [Exact_on_budget] for zero and [Under] for a positive one. *)
Theorem check_budgets_report {A : Type} `{NumLaws A}
    (expenses : list (expense A)) (budgets : dict A) :
  bl_category <$> check_budgets expenses budgets = dict_keys budgets
  ∧ (∀ line : budget_line A,
       line ∈ check_budgets expenses budgets → bl_category line ∈ dict_keys budgets)
  ∧ ∀ (i : nat) (c : string) (limit : A),
      budgets !! i = Some (c, limit) →
      ∃ line : budget_line A,
        check_budgets expenses budgets !! i = Some line
        ∧ bl_category line = c
        ∧ bl_limit line = limit
        ∧ bl_spent line = py_sum (amount <$> in_category c expenses)
        ∧ (in_category c expenses = [] → bl_spent line = num_zero)
        ∧ bl_remaining line = num_sub limit (bl_spent line)
        ∧ (num_ltb (bl_remaining line) num_zero = true → bl_status line = Over)
        ∧ (num_eqb (bl_remaining line) num_zero = true → bl_status line = Exact_on_budget)
        ∧ (num_ltb num_zero (bl_remaining line) = true → bl_status line = Under).
Proof.
  assert (Hkeys : bl_category <$> check_budgets expenses budgets = dict_keys budgets).
  { rewrite check_budgets_lines. unfold dict_keys. rewrite <- list_fmap_compose.
    apply list_fmap_ext. by intros i [c limit] _. }
  split_and!.
  - done.
  - intros line Hline. rewrite <- Hkeys. by apply list_elem_of_fmap_2.
  - intros i c limit Hi. rewrite check_budgets_lines, list_lookup_fmap, Hi. simpl.
    eexists. split; [done|]. simpl. split_and!; try done.
    + unfold category_total. by intros ->.
    + unfold budget_status. by intros ->.
    + unfold budget_status. intros Hz.
      by rewrite (num_zero_not_neg _ Hz), Hz.
    + unfold budget_status. intros Hp.
      by rewrite (num_pos_not_neg _ Hp), (num_pos_not_zero _ Hp).
Qed.

(** Scenario B in floats: a budget of 120 for Food against 150 spent, and a
    budget for Rent with no spending. *)
Lemma check_budgets_report_witness :
  check_budgets [Expense (f64_of_Z 100) "Food" "2024-01-05";
                 Expense (f64_of_Z 50) "Food" "2024-02-01"]
                [("Food", f64_of_Z 120); ("Rent", f64_of_Z 900)]
  = [BudgetLine "Food" (f64_of_Z 120) (f64_of_Z 150) (SFopp (f64_of_Z 30)) Over;
     BudgetLine "Rent" (f64_of_Z 900) (S754_zero false) (f64_of_Z 900) Under]
  ∧ bl_category <$> check_budgets
        [Expense (f64_of_Z 100) "Food" "2024-01-05";
         Expense (f64_of_Z 50) "Food" "2024-02-01"]
        [("Food", f64_of_Z 120); ("Rent", f64_of_Z 900)]
    = ["Food"; "Rent"].
Proof.
  split; [vm_compute; reflexivity|].
  exact (proj1 (check_budgets_report (A:=f64)
    [Expense (f64_of_Z 100) "Food" "2024-01-05";
     Expense (f64_of_Z 50) "Food" "2024-02-01"]
    [("Food", f64_of_Z 120); ("Rent", f64_of_Z 900)])).
Defined.

(** ** Totals by group *)

Section GroupTotals.
Context {A : Type} `{Exact A}.
Implicit Types (d : dict A) (l : list (expense A)).

Lemma py_sum_nil : py_sum (A:=A) [] = num_zero.
Proof. done. Qed.

Lemma accumulate_sum d (c : string) (a : A) :
  py_sum (dict_values (accumulate d c a)) = num_add (py_sum (dict_values d)) a.
Proof.
  unfold accumulate, dict_values.
  induction d as [|[k v] d IH]; csimpl.
  - by rewrite py_sum_cons, num_add_zero_l.
  - destruct (decide (k = c)) as [->|Hne]; csimpl.
    + rewrite !py_sum_cons. apply num_add_assoc.
    + rewrite !py_sum_cons, IH.
      rewrite <- !num_add_assoc. f_equal. apply num_add_comm.
Qed.

Lemma acc_by_sum (k : expense A → string) d l :
  py_sum (dict_values (fold_left (λ d0 item, accumulate d0 (k item) (amount item)) l d)) =
  num_add (py_sum (dict_values d)) (py_sum (amount <$> l)).
Proof.
  revert d. induction l as [|x l IH]; intros d; simpl.
  - by rewrite py_sum_nil, num_add_zero_r.
  - rewrite IH, accumulate_sum, py_sum_cons.
    rewrite <- !num_add_assoc. f_equal. apply num_add_comm.
Qed.

Lemma acc_by_total (k : expense A → string) l :
  py_sum (dict_values (fold_left (λ d0 item, accumulate d0 (k item) (amount item)) l [])) =
  total_spending l.
Proof. rewrite acc_by_sum. apply num_add_zero_l. Qed.

(** The lines printed in key order are the items of the dictionary. *)
Lemma by_sorted_keys_perm d : NoDup (dict_keys d) → by_sorted_keys d ≡ₚ d.
Proof.
  intros Hnd. unfold by_sorted_keys.
  transitivity ((λ k, (k, dict_get k num_zero d)) <$> dict_keys d).
  - apply fmap_Permutation, sorted_perm.
  - by rewrite <- dict_items_by_key.
Qed.

Lemma by_sorted_keys_sum (k : expense A → string) l :
  py_sum (by_sorted_keys
            (fold_left (λ d0 item, accumulate d0 (k item) (amount item)) l [])).*2 =
  total_spending l.
Proof.
  rewrite <- (acc_by_total k). apply py_sum_perm, fmap_Permutation, by_sorted_keys_perm.
  apply acc_by_keys_NoDup. constructor.
Qed.

End GroupTotals.

(** C2, as amended: when the additions are exact (whole-number amounts), the
    totals by category, by month and by year each add up to the overall
    total, which is zero for no record; this holds for the dictionaries the
    loops build and for the lines printed from them, and the monthly and
    annual loops do complete when every date is valid. *)
Theorem group_totals_add_up {A : Type} `{Exact A} (expenses : list (expense A)) :
  total_spending (A:=A) [] = num_zero
  ∧ py_sum (dict_values (category_spending expenses)) = total_spending expenses
  ∧ py_sum (sorted_categories expenses).*2 = total_spending expenses
  ∧ (Forall valid_date expenses →
     ∃ monthly annual by_month by_year,
       monthly_spending expenses = Some monthly
       ∧ annual_spending expenses = Some annual
       ∧ view_monthly_summary expenses = Some by_month
       ∧ view_annual_summary expenses = Some by_year
       ∧ py_sum (dict_values monthly) = total_spending expenses
       ∧ py_sum (dict_values annual) = total_spending expenses
       ∧ py_sum by_month.*2 = total_spending expenses
       ∧ py_sum by_year.*2 = total_spending expenses).
Proof.
  split_and!.
  - done.
  - apply acc_by_total.
  - rewrite <- (acc_by_total category).
    apply py_sum_perm, fmap_Permutation, sorted_perm.
  - intros Hvalid.
    assert (Hm := spending_by_valid strftime_Ym [] expenses Hvalid).
    assert (Hy := spending_by_valid strftime_Y [] expenses Hvalid).
    do 2 eexists.
    exists (match expenses with [] => [] | _ => by_sorted_keys
      (fold_left (λ d0 item, accumulate d0 (group_key strftime_Ym item) (amount item)) expenses []) end).
    exists (match expenses with [] => [] | _ => by_sorted_keys
      (fold_left (λ d0 item, accumulate d0 (group_key strftime_Y item) (amount item)) expenses []) end).
    split_and!.
    + exact Hm.
    + exact Hy.
    + unfold view_monthly_summary, monthly_spending, spending_by.
      rewrite Hm. by destruct expenses.
    + unfold view_annual_summary, annual_spending, spending_by.
      rewrite Hy. by destruct expenses.
    + apply acc_by_total.
    + apply acc_by_total.
    + destruct expenses as [|e expenses]; [done|]. apply by_sorted_keys_sum.
    + destruct expenses as [|e expenses]; [done|]. apply by_sorted_keys_sum.
Qed.

(** Scenario A, in whole numbers. *)
Lemma group_totals_add_up_witness :
  total_spending [Expense 100%Z "Food" "2024-01-05"; Expense 50%Z "Food" "2024-02-01"] = 150%Z
  ∧ monthly_spending [Expense 100%Z "Food" "2024-01-05"; Expense 50%Z "Food" "2024-02-01"]
    = Some [("2024-01", 100%Z); ("2024-02", 50%Z)]
  ∧ py_sum (dict_values (category_spending
      [Expense 100%Z "Food" "2024-01-05"; Expense 50%Z "Food" "2024-02-01"]))
    = total_spending [Expense 100%Z "Food" "2024-01-05"; Expense 50%Z "Food" "2024-02-01"].
Proof.
  split_and!; [reflexivity | reflexivity |].
  exact (proj1 (proj2 (group_totals_add_up (A:=Z)
    [Expense 100%Z "Food" "2024-01-05"; Expense 50%Z "Food" "2024-02-01"]))).
Defined.

(** Scenario A in floats: sums this small are exact, and the groupings
    agree with the total. *)
Example scenario_A_floats :
  total_spending [Expense (f64_of_Z 100) "Food" "2024-01-05";
                  Expense (f64_of_Z 50) "Food" "2024-02-01"] = f64_of_Z 150
  ∧ category_spending [Expense (f64_of_Z 100) "Food" "2024-01-05";
                       Expense (f64_of_Z 50) "Food" "2024-02-01"]
    = [("Food", f64_of_Z 150)]
  ∧ monthly_spending [Expense (f64_of_Z 100) "Food" "2024-01-05";
                      Expense (f64_of_Z 50) "Food" "2024-02-01"]
    = Some [("2024-01", f64_of_Z 100); ("2024-02", f64_of_Z 50)].
Proof. vm_compute. done. Qed.

(** On [rounding_expenses] the category total is rounded back to 10^16 at
    each addition, while the month totals 10^16 and 2 add up to 10^16 + 2:
    the two groupings disagree with each other, so they cannot both agree
    with one total, however that total is summed. *)
Lemma rounding_groups_differ :
  py_sum (dict_values (category_spending rounding_expenses)) = f64_of_Z (10 ^ 16)
  ∧ (λ m, py_sum (dict_values m)) <$> monthly_spending rounding_expenses
    = Some (f64_of_Z (10 ^ 16 + 2))
  ∧ num_eqb (f64_of_Z (10 ^ 16)) (f64_of_Z (10 ^ 16 + 2)) = false.
Proof. vm_compute. done. Qed.

(** C2 as stated fails on floats: on [rounding_expenses], whose dates are
    valid, the month totals do not add up to the overall total; and no other
    value of the overall total would do, since the totals by category and by
    month add up to different numbers. *)
Lemma group_totals_float_counterexample :
  Forall valid_date rounding_expenses
  ∧ ¬ (py_sum (dict_values (category_spending rounding_expenses))
         = total_spending rounding_expenses
       ∧ (∀ monthly, monthly_spending rounding_expenses = Some monthly →
            py_sum (dict_values monthly) = total_spending rounding_expenses)
       ∧ (∀ annual, annual_spending rounding_expenses = Some annual →
            py_sum (dict_values annual) = total_spending rounding_expenses))
  ∧ ¬ (∃ total : f64,
         py_sum (dict_values (category_spending rounding_expenses)) = total
         ∧ ∀ monthly, monthly_spending rounding_expenses = Some monthly →
             py_sum (dict_values monthly) = total).
Proof.
  split_and!.
  - repeat constructor; by eexists.
  - intros (_ & Hm & _).
    specialize (Hm _ eq_refl). vm_compute in Hm. discriminate Hm.
  - intros (total & Hc & Hm).
    specialize (Hm _ eq_refl). rewrite <- Hc in Hm. vm_compute in Hm. discriminate Hm.
Qed.

(** ** Categories by spending *)

Section TotalsAreNumbers.
Context {A : Type} `{NumLaws A}.

Lemma fold_add_amount (xs : list A) (s : A) :
  is_amount s → Forall is_amount xs → is_amount (fold_left num_add xs s).
Proof.
  intros Hs Hxs. revert s Hs. induction Hxs as [|x xs Hx _ IH]; intros s Hs; simpl; [done|].
  by apply IH, num_add_amount.
Qed.

Lemma category_total_amount (expenses : list (expense A)) (c : string) :
  Forall (λ e, is_amount (amount e)) expenses → is_amount (category_total expenses c).
Proof.
  intros Hvalid. unfold category_total, py_sum.
  apply fold_add_amount; [apply num_zero_amount|].
  apply Forall_fmap. unfold in_category.
  apply Forall_forall. intros e [_ He]%list_elem_of_filter.
  rewrite Forall_forall in Hvalid. by apply Hvalid.
Qed.

End TotalsAreNumbers.

(** C5: for every list of records whose amounts are numbers and not
    negative, [view_summary] lists the pairs of a category and its total so
    that no later total is larger, and the categories whose totals compare
    equal come in the order in which they first occur in the records. *)
Theorem sorted_categories_order {A : Type} `{NumLaws A} (expenses : list (expense A)) :
  let totals := (λ c, (c, category_total expenses c)) <$> first_seen (category <$> expenses) in
  Forall (λ e, is_amount (amount e)) expenses →
  sorted_categories expenses ≡ₚ totals
  ∧ StronglySorted (λ x y, num_ltb x.2 y.2 = false) (sorted_categories expenses)
  ∧ (∀ t : A,
       filter (λ x, num_eqb x.2 t = true) (sorted_categories expenses)
       = filter (λ x, num_eqb x.2 t = true) totals)
  ∧ (expenses ≠ [] →
     view_summary expenses = Some (total_spending expenses, sorted_categories expenses)).
Proof.
  simpl. intros Hvalid.
  assert (Hnum : Forall (λ x : string * A, is_number x.2) (category_spending expenses)).
  { rewrite category_spending_items. apply Forall_fmap, Forall_forall.
    intros c _. simpl. by apply category_total_amount. }
  rewrite <- category_spending_items. unfold sorted_categories. split_and!.
  - apply sorted_perm.
  - by apply (sorted_descending _ _ is_number); [apply num_ltb_asym | apply num_ltb_negtrans |].
  - intros t. apply sorted_stable.
    intros x y Hx Hy. by apply (num_eqb_tied _ _ t).
  - by destruct expenses.
Qed.

(** Floats: two categories tied at 2.0, first met in the order A, B, behind
    C at 3.0. *)
Lemma sorted_categories_order_witness :
  sorted_categories
    [Expense (f64_of_Z 1) "A" "2024-01-05"; Expense (f64_of_Z 2) "B" "2024-03-01";
     Expense (f64_of_Z 3) "C" "2024-01-05"; Expense (f64_of_Z 1) "D" "2024-03-01";
     Expense (f64_of_Z 1) "A" "2024-02-01"]
  = [("C", f64_of_Z 3); ("A", f64_of_Z 2); ("B", f64_of_Z 2); ("D", f64_of_Z 1)]
  ∧ StronglySorted (λ x y, num_ltb x.2 y.2 = false)
      (sorted_categories
         [Expense (f64_of_Z 1) "A" "2024-01-05"; Expense (f64_of_Z 2) "B" "2024-03-01";
          Expense (f64_of_Z 3) "C" "2024-01-05"; Expense (f64_of_Z 1) "D" "2024-03-01";
          Expense (f64_of_Z 1) "A" "2024-02-01"]).
Proof.
  split; [vm_compute; reflexivity|].
  refine (proj1 (proj2 (sorted_categories_order (A:=f64)
    [Expense (f64_of_Z 1) "A" "2024-01-05"; Expense (f64_of_Z 2) "B" "2024-03-01";
     Expense (f64_of_Z 3) "C" "2024-01-05"; Expense (f64_of_Z 1) "D" "2024-03-01";
     Expense (f64_of_Z 1) "A" "2024-02-01"] _))).
  repeat constructor.
Defined.

(** ** Editing the stored records *)

Section EditorFacts.
Context {A : Type} `{Num A}.
Implicit Types (e : expense A) (expenses : list (expense A)).

Lemma expense_eqb_refl e : is_number (amount e) → expense_eqb e e = true.
Proof.
  intros He. unfold expense_eqb. by rewrite He, !bool_decide_eq_true_2.
Qed.

(** [index] finds the first stored record that compares equal to the one
    looked for. *)
Lemma index_first e expenses i :
  index expense_eqb e expenses = Some i →
  ∃ e', expenses !! i = Some e' ∧ expense_eqb e' e = true
        ∧ ∀ j x, j < i → expenses !! j = Some x → expense_eqb x e = false.
Proof.
  revert i. induction expenses as [|y expenses IH]; intros i; simpl; [done|].
  destruct (expense_eqb y e) eqn:Heq.
  - intros [= <-]. exists y. split_and!; [done..|]. lia.
  - destruct (index expense_eqb e expenses) as [i'|]; [|done].
    intros [= <-]. destruct (IH i' eq_refl) as (e' & Hi & He' & Hfirst).
    exists e'. split_and!; [done..|].
    intros [|j] x Hj; simpl.
    + by intros [= <-].
    + apply Hfirst. lia.
Qed.

Lemma index_found e expenses :
  is_number (amount e) → e ∈ expenses → is_Some (index expense_eqb e expenses).
Proof.
  intros He. induction 1 as [e expenses|e y expenses _ IH]; simpl.
  - rewrite expense_eqb_refl by done. by eexists.
  - destruct (expense_eqb y e); [by eexists|].
    destruct (IH He) as [i ->]. by eexists.
Qed.

Lemma select_out_of_range expenses (number : Z) :
  ¬ (1 ≤ number ≤ Z.of_nat (length expenses))%Z →
  select_expense expenses number = OutOfRange.
Proof.
  intros Hout. unfold select_expense, sorted_by_date.
  rewrite sorted_length. rewrite bool_decide_eq_false_2; [done|]. lia.
Qed.

(** A number on the list selects the record shown on that line, and
    resolves to the first position of the stored list that holds an equal
    record. *)
Lemma select_in_range expenses (number : Z) :
  Forall (λ e, is_number (amount e)) expenses →
  (1 ≤ number ≤ Z.of_nat (length expenses))%Z →
  ∃ e e' i,
    select_expense expenses number = Selected e i
    ∧ sorted_by_date true expenses !! Z.to_nat (number - 1) = Some e
    ∧ expenses !! i = Some e'
    ∧ expense_eqb e' e = true
    ∧ ∀ j x, j < i → expenses !! j = Some x → expense_eqb x e = false.
Proof.
  intros Hnum Hin. unfold select_expense.
  assert (Hlen : length (sorted_by_date true expenses) = length expenses)
    by apply sorted_length.
  rewrite bool_decide_eq_true_2 by lia.
  destruct (lookup_lt_is_Some_2 (sorted_by_date true expenses) (Z.to_nat (number - 1)))
    as [e He]; [lia|].
  rewrite He.
  assert (Hmem : e ∈ expenses).
  { rewrite <- (sorted_perm date String.ltb true expenses).
    by eapply list_elem_of_lookup_2. }
  assert (He_num : is_number (amount e)).
  { rewrite Forall_forall in Hnum. by apply Hnum. }
  destruct (index_found e expenses He_num Hmem) as [i Hi]. rewrite Hi.
  destruct (index_first e expenses i Hi) as (e' & Hlook & Heq & Hfirst).
  by exists e, e', i.
Qed.

End EditorFacts.

(** ** Listings sorted by date *)

(** C6: for every list of records and either direction, the listing sorted
    by date is a permutation of the list; it is ordered by date string,
    ascending without [reverse] and descending with it; records with the same
    date keep their relative order; [view_all_expenses_detailed] numbers the
    ascending listing, and [manage_expenses] picks from the descending one:
    a number off the list is refused, and every number on the list resolves
    to the record at that place of the descending listing, which is found in
    the stored list whenever its amount is a number. *)
Theorem sorted_by_date_stable_permutation {A : Type} `{Num A}
    (expenses : list (expense A)) (rev : bool) :
  sorted_by_date rev expenses ≡ₚ expenses
  ∧ StronglySorted (λ a b, String.ltb (date b) (date a) = false)
      (sorted_by_date false expenses)
  ∧ StronglySorted (λ a b, String.ltb (date a) (date b) = false)
      (sorted_by_date true expenses)
  ∧ (∀ d : string,
       filter (λ e, date e = d) (sorted_by_date rev expenses)
       = filter (λ e, date e = d) expenses)
  ∧ (view_all_expenses_detailed expenses).*2 = sorted_by_date false expenses
  ∧ (∀ (number : Z) (e : expense A) (i : nat),
       select_expense expenses number = Selected e i →
       sorted_by_date true expenses !! Z.to_nat (number - 1) = Some e)
  ∧ (∀ number : Z,
       ¬ (1 ≤ number ≤ Z.of_nat (length expenses))%Z →
       select_expense expenses number = OutOfRange)
  ∧ (∀ number : Z,
       (1 ≤ number ≤ Z.of_nat (length expenses))%Z →
       ∃ shown : expense A,
         sorted_by_date true expenses !! Z.to_nat (number - 1) = Some shown
         ∧ select_expense expenses number ≠ OutOfRange
         ∧ (is_number (amount shown) →
            ∃ i, select_expense expenses number = Selected shown i)).
Proof.
  split_and!.
  - apply sorted_perm.
  - apply (sorted_ascending _ _ (λ _, True)); [apply string_ltb_asym | |].
    + intros a b c _. apply string_ltb_negtrans.
    + by apply Forall_forall.
  - apply (sorted_descending _ _ (λ _, True)); [apply string_ltb_asym | |].
    + intros a b c _. apply string_ltb_negtrans.
    + by apply Forall_forall.
  - intros d. apply sorted_stable.
    intros x y -> <-. apply string_ltb_irrefl.
  - unfold view_all_expenses_detailed. rewrite fmap_imap.
    change (λ n : nat, snd ∘ (λ e : expense A, (n + 1, e))) with (@const (expense A → expense A) nat id).
    by rewrite imap_const, list_fmap_id.
  - intros number e i. unfold select_expense, sorted_by_date.
    case_bool_decide; [|done].
    destruct (sorted date String.ltb true expenses !! Z.to_nat (number - 1)) as [e'|]; [|done].
    destruct (index expense_eqb e' expenses); [|done].
    by intros [= -> _].
  - intros number. apply select_out_of_range.
  - intros number Hin.
    assert (Hlen : length (sorted_by_date true expenses) = length expenses)
      by apply sorted_length.
    destruct (lookup_lt_is_Some_2 (sorted_by_date true expenses) (Z.to_nat (number - 1)))
      as [shown Hshown]; [lia|].
    exists shown. unfold select_expense.
    rewrite bool_decide_eq_true_2 by lia. rewrite Hshown. split_and!; [done| |].
    + by destruct (index expense_eqb shown expenses).
    + intros Hnum.
      assert (Hmem : shown ∈ expenses).
      { rewrite <- (sorted_perm date String.ltb true expenses).
        by eapply list_elem_of_lookup_2. }
      destruct (index_found shown expenses Hnum Hmem) as [i ->]. by exists i.
Qed.

(** C7: for every list of records whose amounts are numbers (no float NaN)
    and every number typed: a number that is on no line of the list is
    refused as [InvalidNumber] and the list stays as it is; a number on the
    list, once confirmed, deletes one stored record, which compares equal to
    the one shown on that line, returns it, and leaves the other records in
    their order.  The deletion itself is [pop] at the position the line
    resolves to: [pop] returns the record at its position and the list
    without it, and fails beyond the end of the list. *)
Theorem manage_delete_removes_one {A : Type} `{Num A}
    (expenses : list (expense A)) (number : Z) :
  Forall (λ e, is_number (amount e)) expenses →
  (¬ (1 ≤ number ≤ Z.of_nat (length expenses))%Z →
   ∀ confirm : string, manage_delete expenses number confirm = (InvalidNumber, expenses))
  ∧ ((1 ≤ number ≤ Z.of_nat (length expenses))%Z →
     ∃ (shown deleted : expense A) (i : nat),
       sorted_by_date true expenses !! Z.to_nat (number - 1) = Some shown
       ∧ expenses !! i = Some deleted
       ∧ expense_eqb deleted shown = true
       ∧ pop i expenses = Some (deleted, delete i expenses)
       ∧ manage_delete expenses number "y" = (Deleted deleted, delete i expenses)
       ∧ delete i expenses = take i expenses ++ drop (S i) expenses
       ∧ length (delete i expenses) = length expenses - 1)
  ∧ (∀ i : nat, length expenses ≤ i → pop i expenses = None)
  ∧ (∀ (i : nat) (e : expense A), expenses !! i = Some e →
       pop i expenses = Some (e, take i expenses ++ drop (S i) expenses)).
Proof.
  intros Hnum. split_and!.
  - intros Hout confirm. unfold manage_delete.
    by rewrite select_out_of_range.
  - intros Hin. destruct (select_in_range expenses number Hnum Hin)
      as (e & e' & i & Hsel & Hshown & Hstored & Heq & _).
    exists e, e', i. split_and!; try done.
    + unfold pop. by rewrite Hstored.
    + unfold manage_delete, pop. rewrite Hsel, Hstored. done.
    + apply delete_take_drop.
    + apply length_delete. by eexists.
  - intros i Hi. unfold pop. by rewrite lookup_ge_None_2.
  - intros i e Hi. unfold pop. by rewrite Hi, delete_take_drop.
Qed.

(** Scenario D in floats: number 5 against two records is refused; number 1
    deletes the record shown first, the newer one. *)
Lemma manage_delete_removes_one_witness :
  manage_delete [Expense (f64_of_Z 100) "Food" "2024-01-05";
                 Expense (f64_of_Z 50) "Food" "2024-02-01"] 1 "y"
  = (Deleted (Expense (f64_of_Z 50) "Food" "2024-02-01"),
     [Expense (f64_of_Z 100) "Food" "2024-01-05"])
  ∧ manage_delete [Expense (f64_of_Z 100) "Food" "2024-01-05";
                   Expense (f64_of_Z 50) "Food" "2024-02-01"] 5 "y"
    = (InvalidNumber, [Expense (f64_of_Z 100) "Food" "2024-01-05";
                       Expense (f64_of_Z 50) "Food" "2024-02-01"]).
Proof.
  split; [vm_compute; reflexivity|].
  refine (proj1 (manage_delete_removes_one (A:=f64)
    [Expense (f64_of_Z 100) "Food" "2024-01-05";
     Expense (f64_of_Z 50) "Food" "2024-02-01"] 5 _) _ "y").
  - repeat constructor.
  - simpl. lia.
Defined.

(** C10: for every list of records whose amounts are numbers, a number on
    the list resolves to the first position of the stored list whose record
    compares equal to the one shown on that line, and both deleting and
    editing act at that position and nowhere else. *)
Theorem manage_acts_on_first_equal {A : Type} `{Num A}
    (expenses : list (expense A)) (number : Z) :
  Forall (λ e, is_number (amount e)) expenses →
  (1 ≤ number ≤ Z.of_nat (length expenses))%Z →
  ∃ (shown stored : expense A) (i : nat),
    sorted_by_date true expenses !! Z.to_nat (number - 1) = Some shown
    ∧ select_expense expenses number = Selected shown i
    ∧ expenses !! i = Some stored
    ∧ expense_eqb stored shown = true
    ∧ (∀ j x, j < i → expenses !! j = Some x → expense_eqb x shown = false)
    ∧ manage_delete expenses number "y" = (Deleted stored, delete i expenses)
    ∧ ∀ (new_amount : option A) (new_category new_date : string),
        manage_edit expenses number new_amount new_category new_date
        = (Updated, <[i := amend stored new_amount new_category new_date]> expenses).
Proof.
  intros Hnum Hin. destruct (select_in_range expenses number Hnum Hin)
    as (e & e' & i & Hsel & Hshown & Hstored & Heq & Hfirst).
  exists e, e', i. split_and!; try done.
  - unfold manage_delete, pop. rewrite Hsel, Hstored. done.
  - intros new_amount new_category new_date.
    unfold manage_edit. rewrite Hsel, Hstored. done.
Qed.

(** Three records of one day, the first and the last equal: line 3 shows the
    last one, and the first one is deleted. *)
Lemma manage_acts_on_first_equal_witness :
  manage_delete
    [Expense (f64_of_Z 5) "Food" "2024-01-05"; Expense (f64_of_Z 7) "Rent" "2024-01-05";
     Expense (f64_of_Z 5) "Food" "2024-01-05"] 3 "y"
  = (Deleted (Expense (f64_of_Z 5) "Food" "2024-01-05"),
     [Expense (f64_of_Z 7) "Rent" "2024-01-05"; Expense (f64_of_Z 5) "Food" "2024-01-05"])
  ∧ ∃ (shown : expense f64) (i : nat),
      sorted_by_date true
        [Expense (f64_of_Z 5) "Food" "2024-01-05"; Expense (f64_of_Z 7) "Rent" "2024-01-05";
         Expense (f64_of_Z 5) "Food" "2024-01-05"] !! Z.to_nat (3 - 1) = Some shown
      ∧ select_expense
          [Expense (f64_of_Z 5) "Food" "2024-01-05"; Expense (f64_of_Z 7) "Rent" "2024-01-05";
           Expense (f64_of_Z 5) "Food" "2024-01-05"] 3 = Selected shown i.
Proof.
  split; [vm_compute; reflexivity|].
  destruct (manage_acts_on_first_equal (A:=f64)
    [Expense (f64_of_Z 5) "Food" "2024-01-05"; Expense (f64_of_Z 7) "Rent" "2024-01-05";
     Expense (f64_of_Z 5) "Food" "2024-01-05"] 3) as (e & e' & i & Hshown & Hsel & _).
  - repeat constructor.
  - simpl. lia.
  - by exists e, i.
Defined.

(** ** File names *)

Lemma string_length_app (s1 s2 : string) :
  String.length (s1 +:+ s2) = String.length s1 + String.length s2.
Proof. induction s1 as [|a s1 IH]; simpl; [done|]. by rewrite IH. Qed.

Lemma expense_file_not_users (username : string) : expense_file_path username ≠ USERS_FILE.
Proof.
  intros Heq%(f_equal String.length). unfold expense_file_path in Heq.
  rewrite string_length_app in Heq. simpl in Heq. lia.
Qed.

Lemma budget_file_not_users (username : string) : budget_file_path username ≠ USERS_FILE.
Proof.
  intros Heq%(f_equal String.length). unfold budget_file_path in Heq.
  rewrite string_length_app in Heq. simpl in Heq. lia.
Qed.

Lemma prefix_cons (c a : ascii) (n h : string) :
  String.prefix (String c n) (String a h) =
  if Ascii.ascii_dec c a then String.prefix n h else false.
Proof. done. Qed.

Lemma prefix_refl (s : string) : String.prefix s s = true.
Proof.
  induction s as [|a s IH]; [done|].
  rewrite prefix_cons. by destruct (Ascii.ascii_dec a a).
Qed.

Lemma contains_cons (needle : string) (a : ascii) (hay : string) :
  contains needle (String a hay) = String.prefix needle (String a hay) || contains needle hay.
Proof. done. Qed.

Lemma contains_self (s : string) : contains s s = true.
Proof. destruct s as [|a s]; [done|]. by rewrite contains_cons, prefix_refl. Qed.

Lemma contains_suffix (username suffix : string) : contains suffix (username +:+ suffix) = true.
Proof.
  induction username as [|a username IH].
  - apply contains_self.
  - change (String a username +:+ suffix) with (String a (username +:+ suffix)).
    rewrite contains_cons, IH. apply orb_true_r.
Qed.

(** No budget file of an alphanumeric name looks like an expense file. *)
Lemma budget_file_not_expense (cs : list ascii) :
  forallb is_alnum_char cs = true →
  contains BASE_EXPENSE_FILE (String.string_of_list_ascii cs +:+ BASE_BUDGET_FILE) = false.
Proof.
  induction cs as [|a cs IH].
  - intros _. by vm_compute.
  - intros [Ha Hcs]%andb_true_iff.
    change (String.string_of_list_ascii (a :: cs) +:+ BASE_BUDGET_FILE)
      with (String a (String.string_of_list_ascii cs +:+ BASE_BUDGET_FILE)).
    rewrite contains_cons, (IH Hcs), orb_false_r.
    unfold BASE_EXPENSE_FILE. rewrite prefix_cons.
    destruct (Ascii.ascii_dec "_" a) as [<-|]; [|done].
    by vm_compute in Ha.
Qed.

(** ** The record store *)

(** C3, as amended: [load_data] falls back to an empty value when the file
    is missing ([FileNotFoundError]) or [json.load] raises [JSONDecodeError],
    the two errors it catches, and then only; the empty value is chosen from
    the file name alone: an empty list for a name that contains the expense
    suffix, so for every expense file, and for the registry; an empty
    dictionary for a name that contains the budget suffix and not the expense
    suffix, so for the budget file of an alphanumeric user name, and for any
    other name.  A file that holds JSON of any shape is returned as parsed. *)
Theorem load_data_defaults {A T : Type} `{Codec A T} (fs : gmap string T) (filename : string) :
  (fs !! filename = None → load_data fs filename = empty_default filename)
  ∧ (∀ text : T, fs !! filename = Some text → json_load text = None →
       load_data fs filename = empty_default filename)
  ∧ (∀ (text : T) (v : pyval A), fs !! filename = Some text → json_load text = Some v →
       load_data fs filename = v)
  ∧ (∀ username : string, empty_default (A:=A) (expense_file_path username) = PList [])
  ∧ (∀ username : string, isalnum username = true →
       empty_default (A:=A) (budget_file_path username) = PDict [])
  ∧ empty_default (A:=A) USERS_FILE = PList []
  ∧ (contains BASE_EXPENSE_FILE filename = true → empty_default (A:=A) filename = PList [])
  ∧ (contains BASE_EXPENSE_FILE filename = false →
     contains BASE_BUDGET_FILE filename = true →
     empty_default (A:=A) filename = PDict [])
  ∧ (contains BASE_EXPENSE_FILE filename = false →
     contains BASE_BUDGET_FILE filename = false →
     filename ≠ USERS_FILE →
     empty_default (A:=A) filename = PDict [])
  ∧ empty_default (A:=A) "notes.json" = PDict [].
Proof.
  unfold load_data. split_and!.
  - by intros ->.
  - by intros text -> ->.
  - by intros text v -> ->.
  - intros username. unfold empty_default, expense_file_path.
    by rewrite contains_suffix.
  - intros username Halnum. unfold empty_default, budget_file_path.
    rewrite <- (String.string_of_list_ascii_of_string username).
    rewrite budget_file_not_expense, contains_suffix; [done|].
    unfold isalnum in Halnum. by destruct (String.list_ascii_of_string username).
  - done.
  - unfold empty_default. by intros ->.
  - unfold empty_default. by intros -> ->.
  - unfold empty_default. intros -> -> Hother. by rewrite bool_decide_eq_false_2.
  - done.
Qed.

(** A well-formed JSON object in an expense file: [load_data] returns the
    object, not the empty list of records. *)
Lemma load_data_schema_counterexample :
  load_data (A:=Z) {["bob_expenses.json" := Some (PDict [("amount", PNum 5%Z)])]}
    "bob_expenses.json"
  = PDict [("amount", PNum 5%Z)]
  ∧ load_data (A:=Z) {["bob_expenses.json" := Some (PDict [("amount", PNum 5%Z)])]}
      "bob_expenses.json"
    ≠ PList [].
Proof.
  assert (Hload : load_data (A:=Z)
            {["bob_expenses.json" := Some (PDict [("amount", PNum 5%Z)])]}
            "bob_expenses.json" = PDict [("amount", PNum 5%Z)]).
  { unfold load_data. by rewrite lookup_singleton_eq. }
  rewrite Hload. done.
Qed.

(** ** Decimal numerals *)

Lemma read_digits_cons (acc : Z) (c : ascii) (cs : list ascii) :
  read_digits acc (c :: cs) = d ← digit_of c; read_digits (10 * acc + Z.of_nat d) cs.
Proof.
  unfold read_digits. simpl. destruct (digit_of c) as [d|]; [|done]. simpl.
  by destruct (mapM digit_of cs).
Qed.

Lemma digit_of_pretty (k : N) :
  (k < 10)%N → digit_of (pretty_N_char k) = Some (N.to_nat k)
               ∧ is_digit_char (pretty_N_char k) = true.
Proof.
  intros Hk.
  assert (k = 0 ∨ k = 1 ∨ k = 2 ∨ k = 3 ∨ k = 4 ∨ k = 5 ∨ k = 6 ∨ k = 7 ∨ k = 8 ∨ k = 9)%N
    as Hcases by lia.
  repeat destruct Hcases as [->|Hcases]; try done. by subst.
Qed.

Lemma pretty_N_go_read (x : N) (s : string) :
  read_digits 0 (String.list_ascii_of_string (pretty_N_go x s))
  = read_digits (Z.of_N x) (String.list_ascii_of_string s).
Proof.
  revert s. induction (N.lt_wf_0 x) as [x _ IH]; intros s.
  assert (x = 0 ∨ 0 < x)%N as [->|Hx] by lia; [by rewrite pretty_N_go_0|].
  rewrite pretty_N_go_step by done. rewrite IH by (by apply N.div_lt).
  cbn [String.list_ascii_of_string]. rewrite read_digits_cons.
  destruct (digit_of_pretty (x `mod` 10)) as [-> _]; [by apply N.mod_lt|].
  cbn [mbind option_bind]. f_equal.
  rewrite N2Z.inj_div. rewrite N_nat_Z, N2Z.inj_mod.
  change (Z.of_N 10) with 10%Z. pose proof (Z.div_mod (Z.of_N x) 10). lia.
Qed.

(** ** The texts of [json] are read back *)

Lemma scan_string_escape (c : ascii) (more : list ascii) :
  scan_string (escape_char c ++ more) = '(s, r) ← scan_string more; Some (String c s, r).
Proof. destruct c as [[] [] [] [] [] [] [] []]; reflexivity. Qed.

Lemma scan_string_encode (s : string) (rest : list ascii) :
  scan_string (flat_map escape_char (String.list_ascii_of_string s) ++ "034"%char :: rest)
  = Some (s, rest).
Proof.
  induction s as [|c s IH]; [done|].
  cbn [String.list_ascii_of_string flat_map]. rewrite <- app_assoc.
  rewrite scan_string_escape, IH. done.
Qed.

Lemma skip_ws_nonws (c : ascii) (cs : list ascii) : is_ws c = false → skip_ws (c :: cs) = c :: cs.
Proof. intros Hc. simpl. by rewrite Hc. Qed.

Lemma skip_ws_indent (level : nat) (cs : list ascii) :
  skip_ws (newline_indent level ++ cs) = skip_ws cs.
Proof.
  unfold newline_indent. cbn [app skip_ws]. change (is_ws "010") with true. cbn match.
  induction (4 * level) as [|n IH]; [done|]. cbn [replicate app skip_ws].
  by change (is_ws " ") with true.
Qed.

Section JsonFacts.
Context {A : Type} `{NumText A}.

Lemma pyval_nested_ind (P : pyval A → Prop) :
  P PNone → (∀ b, P (PBool b)) → (∀ a, P (PNum a)) → (∀ s, P (PStr s)) →
  (∀ xs, Forall P xs → P (PList xs)) →
  (∀ kvs, Forall (λ kv, P kv.2) kvs → P (PDict kvs)) →
  ∀ v, P v.
Proof.
  intros HNone HBool HNum HStr HList HDict.
  fix IH 1. intros [| b | a | s | xs | kvs].
  - apply HNone.
  - apply HBool.
  - apply HNum.
  - apply HStr.
  - apply HList. induction xs as [|x xs IHxs]; constructor; [apply IH | apply IHxs].
  - apply HDict. induction kvs as [|[k x] kvs IHkvs]; constructor; [apply IH | apply IHkvs].
Qed.

(** A value read with fuel 1 as a number is read so with any fuel. *)
Lemma scan_number_fuel (cs r : list ascii) (a : A) (fuel : nat) :
  scan_value 1 cs = Some (PNum a, r) → scan_value (S fuel) cs = Some (PNum a, r).
Proof.
  destruct cs as [|c rest]; [done|]. cbn [scan_value].
  repeat case_decide; try done.
  - destruct (skip_ws rest) as [|c1 r1]; [done|]. repeat case_decide; try done.
  - destruct (skip_ws rest) as [|c1 r1]; [done|]. repeat case_decide; try done.
Qed.

Lemma scan_number_head (c : ascii) (cs r : list ascii) (a : A) :
  scan_value 1 (c :: cs) = Some (PNum a, r) →
  is_ws c = false ∧ c ≠ "]"%char.
Proof.
  intros Hscan. split.
  - destruct (is_ws c) eqn:Hc; [|done]. exfalso.
    unfold is_ws in Hc. apply bool_decide_eq_true in Hc.
    rewrite !elem_of_cons, elem_of_nil in Hc.
    destruct Hc as [->|[->|[->|[->|[]]]]]; by vm_compute in Hscan.
  - intros ->. by vm_compute in Hscan.
Qed.

Lemma encode_head (level : nat) (v : pyval A) :
  dumpable v → ∃ c cs, encode level v = c :: cs ∧ is_ws c = false ∧ c ≠ "]"%char.
Proof.
  destruct v as [| [] | a | s | [|x xs] | [|kv kvs]]; intros Hv;
    try (by eexists _, _; split_and!; [reflexivity|..]).
  cbn [encode].
  specialize (Hv [] (or_introl eq_refl)). rewrite app_nil_r in Hv.
  destruct (num_repr a) as [|c cs]; [done|].
  exists c, cs. split; [done|]. by eapply scan_number_head.
Qed.

Lemma delimited_comma (cs : list ascii) : delimited (","%char :: cs).
Proof. right. eexists _, _. split; [done|]. by left. Qed.

Lemma delimited_indent (level : nat) (cs : list ascii) : delimited (newline_indent level ++ cs).
Proof. right. eexists _, _. split; [done|]. by right. Qed.

End JsonFacts.

Section JsonRoundTrip.
Context {A : Type} `{NumText A}.

Lemma scan_elements_join (xs : list (pyval A)) (level : nat) (rest : list ascii) (fuel : nat) :
  xs ≠ [] →
  Forall (λ x, dumpable x ∧ read_back_at x) xs →
  2 * length (join (","%char :: newline_indent (S level)) (map (encode (S level)) xs)) + 1
    ≤ fuel →
  scan_elements fuel
    (join (","%char :: newline_indent (S level)) (map (encode (S level)) xs)
     ++ newline_indent level ++ "]"%char :: rest)
  = Some (xs, rest).
Proof.
  intros Hne Hall. revert fuel.
  induction Hall as [|x xs [Hx Hread] Hall IH]; intros fuel Hfuel; [done|]. clear Hne.
  destruct fuel as [|fuel]; [lia|]. cbn [scan_elements].
  destruct xs as [|y xs].
  - cbn [map join] in *.
    rewrite (Hread (S level) _ fuel) by (apply delimited_indent || lia).
    cbn [mbind option_bind]. rewrite skip_ws_indent. by rewrite skip_ws_nonws.
  - change (join (","%char :: newline_indent (S level)) (map (encode (S level)) (x :: y :: xs)))
      with (encode (S level) x ++ (","%char :: newline_indent (S level))
            ++ join (","%char :: newline_indent (S level)) (map (encode (S level)) (y :: xs)))
      in *.
    rewrite !length_app in Hfuel. cbn [length] in Hfuel.
    rewrite <- !app_assoc. cbn [app].
    rewrite (Hread (S level) _ fuel) by (apply delimited_comma || lia).
    cbn [mbind option_bind]. rewrite skip_ws_nonws by done.
    rewrite decide_False by done. rewrite decide_True by done.
    rewrite skip_ws_indent.
    assert (Hy : ∃ c cs, join (","%char :: newline_indent (S level))
                           (map (encode (S level)) (y :: xs)) = c :: cs
                         ∧ is_ws c = false).
    { apply Forall_cons_1 in Hall as [[Hy _] _].
      destruct (encode_head (S level) y Hy) as (c & cs & Hc & Hws & _).
      destruct xs as [|z xs]; cbn [map join]; rewrite Hc; by eexists _, _. }
    destruct Hy as (c & cs & Hc & Hws).
    assert (Hskip : ∀ more, skip_ws (join (","%char :: newline_indent (S level))
                                       (map (encode (S level)) (y :: xs)) ++ more)
                            = join (","%char :: newline_indent (S level))
                                (map (encode (S level)) (y :: xs)) ++ more).
    { intros more. rewrite Hc. by apply skip_ws_nonws. }
    rewrite Hskip. rewrite IH by (done || lia). done.
Qed.

Lemma scan_members_join (kvs : list (string * pyval A)) (level : nat) (rest : list ascii)
    (fuel : nat) :
  kvs ≠ [] →
  Forall (λ kv, dumpable kv.2 ∧ read_back_at kv.2) kvs →
  2 * length (join (","%char :: newline_indent (S level)) (map (member_text level) kvs)) + 1
    ≤ fuel →
  ∃ text,
    join (","%char :: newline_indent (S level)) (map (member_text level) kvs)
    = "034"%char :: text
    ∧ scan_members fuel (text ++ newline_indent level ++ "}"%char :: rest) = Some (kvs, rest).
Proof.
  intros Hne Hall. revert fuel.
  induction Hall as [|[k x] kvs [Hx Hread] Hall IH]; intros fuel Hfuel; [done|]. clear Hne.
  simpl in Hx, Hread.
  destruct fuel as [|fuel]; [lia|].
  destruct (encode_head (S level) x Hx) as (c & cs & Hc & Hws & _).
  assert (Hvalue : ∀ more, skip_ws (" "%char :: encode (S level) x ++ more)
                           = encode (S level) x ++ more).
  { intros more. cbn [skip_ws]. change (is_ws " ") with true. cbn match.
    rewrite Hc. by apply skip_ws_nonws. }
  destruct kvs as [|kv kvs].
  - cbn [map join member_text encode_string app] in *. eexists. split; [done|].
    cbn [scan_members]. rewrite <- !app_assoc. cbn [app].
    rewrite scan_string_encode. cbn [mbind option_bind].
    rewrite skip_ws_nonws by done. rewrite decide_True by done.
    rewrite Hvalue.
    repeat first [rewrite length_app in Hfuel | progress cbn [length] in Hfuel].
    rewrite (Hread (S level) _ fuel) by (apply delimited_indent || lia).
    cbn [mbind option_bind]. rewrite skip_ws_indent. by rewrite skip_ws_nonws.
  - change (join (","%char :: newline_indent (S level)) (map (member_text level) ((k, x) :: kv :: kvs)))
      with (member_text level (k, x) ++ (","%char :: newline_indent (S level))
            ++ join (","%char :: newline_indent (S level)) (map (member_text level) (kv :: kvs)))
      in *.
    cbn [member_text encode_string app] in *.
    repeat first [rewrite length_app in Hfuel | progress cbn [length] in Hfuel].
    destruct (IH ltac:(done) fuel) as (text & Htext & Hscan); [lia|].
    eexists. split; [done|].
    cbn [scan_members]. rewrite <- !app_assoc. cbn [app].
    rewrite scan_string_encode. cbn [mbind option_bind].
    rewrite skip_ws_nonws by done. rewrite decide_True by done.
    rewrite <- !app_assoc. cbn [app]. rewrite Hvalue.
    rewrite (Hread (S level) _ fuel) by (apply delimited_comma || lia).
    cbn [mbind option_bind]. rewrite skip_ws_nonws by done.
    rewrite decide_False by done. rewrite decide_True by done.
    rewrite skip_ws_indent. rewrite Htext. cbn [app].
    rewrite skip_ws_nonws by done. rewrite decide_True by done.
    by rewrite Hscan.
Qed.


Lemma dict_set_new {V} (k : string) (v : V) (d : dict V) :
  k ∉ d.*1 → dict_set k v d = d ++ [(k, v)].
Proof.
  induction d as [|[k' v'] d IH]; simpl; [done|].
  intros Hk. rewrite decide_False by (intros ->; apply Hk; left).
  rewrite IH; [done|]. intros Hin. apply Hk. by right.
Qed.

Lemma dict_of_pairs_NoDup {V} (pairs : list (string * V)) :
  NoDup pairs.*1 → dict_of_pairs pairs = pairs.
Proof.
  unfold dict_of_pairs.
  assert (Hacc : ∀ acc : dict V, NoDup (acc ++ pairs).*1 →
            foldl (λ d kv, dict_set kv.1 kv.2 d) acc pairs = acc ++ pairs).
  { induction pairs as [|[k v] pairs IH]; intros acc Hnd; simpl.
    - by rewrite app_nil_r.
    - rewrite dict_set_new.
      + rewrite IH; rewrite <- app_assoc; done.
      + rewrite fmap_app in Hnd. apply NoDup_app in Hnd as (_ & Hdisj & _).
        intros Hin. apply (Hdisj k Hin). left. }
  intros Hnd. by apply (Hacc []).
Qed.

Lemma dumpable_list (xs : list (pyval A)) :
  dumpable (PList xs) ↔ Forall dumpable xs.
Proof.
  cbn [dumpable]. induction xs as [|x xs IH]; simpl.
  - by split; [constructor|].
  - rewrite Forall_cons, IH. done.
Qed.

Lemma dumpable_dict (kvs : list (string * pyval A)) :
  dumpable (PDict kvs) ↔ NoDup kvs.*1 ∧ Forall (λ kv, dumpable kv.2) kvs.
Proof.
  cbn [dumpable]. apply and_iff_compat_l.
  induction kvs as [|[k x] kvs IH]; simpl.
  - by split; [constructor|].
  - rewrite Forall_cons, IH. done.
Qed.

Lemma encode_list (level : nat) (x : pyval A) (xs : list (pyval A)) :
  encode level (PList (x :: xs))
  = ["["%char] ++ newline_indent (S level)
    ++ join (","%char :: newline_indent (S level)) (map (encode (S level)) (x :: xs))
    ++ newline_indent level ++ ["]"%char].
Proof. done. Qed.

Lemma encode_dict (level : nat) (kv : string * pyval A) (kvs : list (string * pyval A)) :
  encode level (PDict (kv :: kvs))
  = ["{"%char] ++ newline_indent (S level)
    ++ join (","%char :: newline_indent (S level)) (map (member_text level) (kv :: kvs))
    ++ newline_indent level ++ ["}"%char].
Proof. done. Qed.

Lemma scan_value_S (fuel : nat) (c : ascii) (rest : list ascii) :
  scan_value (A:=A) (S fuel) (c :: rest) =
  if decide (c = "034"%char) then
    '(s, r) ← scan_string rest; Some (PStr s, r)
  else if decide (c = "{"%char) then
    match skip_ws rest with
    | c1 :: r =>
        if decide (c1 = "}"%char) then Some (PDict [], r)
        else if decide (c1 = "034"%char) then
          '(pairs, r') ← scan_members fuel r; Some (PDict (dict_of_pairs pairs), r')
        else None
    | [] => None
    end
  else if decide (c = "["%char) then
    match skip_ws rest with
    | c1 :: r =>
        if decide (c1 = "]"%char) then Some (PList [], r)
        else '(xs, r') ← scan_elements fuel (c1 :: r); Some (PList xs, r')
    | [] => None
    end
  else scan_atom (c :: rest).
Proof. done. Qed.

(** [json.load] reads back what [json.dump] wrote, for every value whose
    numbers read back and whose dictionaries have distinct keys. *)
Lemma scan_value_encode (v : pyval A) : dumpable v → read_back_at v.
Proof.
  induction v as [| b | a | s | xs IH | kvs IH] using pyval_nested_ind;
    intros Hv level rest fuel Hrest Hfuel.
  - destruct fuel as [|fuel]; [simpl in Hfuel; lia|]. done.
  - destruct fuel as [|fuel]; [destruct b; simpl in Hfuel; lia|]. by destruct b.
  - destruct (encode_head level (PNum a) Hv) as (c & cs & Hc & _).
    destruct fuel as [|fuel]; [rewrite Hc in Hfuel; simpl in Hfuel; lia|].
    apply scan_number_fuel. by apply Hv.
  - destruct fuel as [|fuel]; [simpl in Hfuel; lia|].
    change (encode level (PStr s)) with (encode_string s). unfold encode_string.
    rewrite <- !app_assoc. cbn [app]. rewrite scan_value_S. rewrite decide_True by done.
    by rewrite scan_string_encode.
  - apply dumpable_list in Hv.
    destruct xs as [|x xs].
    { destruct fuel as [|fuel]; [simpl in Hfuel; lia|]. done. }
    rewrite encode_list in *.
    repeat first [rewrite length_app in Hfuel | progress cbn [length] in Hfuel].
    destruct fuel as [|fuel]; [lia|].
    rewrite <- !app_assoc. cbn [app]. rewrite scan_value_S.
    rewrite decide_False by done. rewrite decide_False by done.
    rewrite decide_True by done. rewrite skip_ws_indent.
    destruct (encode_head (S level) x) as (c & cs & Hc & Hws & Hbr).
    { by apply Forall_cons_1 in Hv as [? _]. }
    assert (Hjoin : ∃ cs', join (","%char :: newline_indent (S level))
                             (map (encode (S level)) (x :: xs)) = c :: cs').
    { destruct xs as [|y xs]; cbn [map join]; rewrite Hc; by eexists. }
    destruct Hjoin as [cs' Hjoin].
    assert (Hscan := scan_elements_join (x :: xs) level rest fuel).
    rewrite Hjoin in Hscan, Hfuel |- *. cbn [app] in Hscan |- *.
    rewrite skip_ws_nonws by done. rewrite decide_False by done.
    rewrite Hscan; [done|done| |lia].
    apply Forall_forall. intros y Hy. split.
    + by apply (proj1 (Forall_forall _ _) Hv).
    + apply (proj1 (Forall_forall _ _) IH y Hy). by apply (proj1 (Forall_forall _ _) Hv).
  - apply dumpable_dict in Hv as [Hnd Hv].
    destruct kvs as [|kv kvs].
    { destruct fuel as [|fuel]; [simpl in Hfuel; lia|]. done. }
    rewrite encode_dict in *.
    repeat first [rewrite length_app in Hfuel | progress cbn [length] in Hfuel].
    destruct fuel as [|fuel]; [lia|].
    rewrite <- !app_assoc. cbn [app]. rewrite scan_value_S.
    rewrite decide_False by done. rewrite decide_True by done.
    rewrite skip_ws_indent.
    destruct (scan_members_join (kv :: kvs) level rest fuel) as (text & Htext & Hscan);
      [done| |lia|].
    { apply Forall_forall. intros y Hy. split.
      - by apply (proj1 (Forall_forall _ _) Hv).
      - apply (proj1 (Forall_forall _ _) IH y Hy). by apply (proj1 (Forall_forall _ _) Hv). }
    rewrite Htext. cbn [app]. rewrite skip_ws_nonws by done.
    rewrite decide_False by done. rewrite decide_True by done.
    rewrite Hscan. cbn [mbind option_bind].
    by rewrite dict_of_pairs_NoDup.
Qed.

Lemma json_loads_dumps (v : pyval A) : dumpable v → json_loads (json_dumps v) = Some v.
Proof.
  intros Hv. unfold json_loads, json_dumps.
  rewrite String.list_ascii_of_string_of_list_ascii.
  destruct (encode_head 0 v Hv) as (c & cs & Hc & Hws & _).
  assert (Hskip : skip_ws (encode 0 v) = encode 0 v).
  { rewrite Hc. by apply skip_ws_nonws. }
  rewrite Hskip.
  pose proof (scan_value_encode v Hv 0 [] (2 * length (encode 0 v) + 2)) as Hscan.
  rewrite app_nil_r in Hscan. rewrite Hscan; [done|by left|lia].
Qed.

End JsonRoundTrip.

(** ** Whole numbers are read back *)

Lemma pretty_N_char_digit (k : N) :
  (k < 10)%N →
  is_digit09 (pretty_N_char k) = true
  ∧ digit_of (pretty_N_char k) = Some (N.to_nat k)
  ∧ (k ≠ 0%N → pretty_N_char k ≠ "0"%char).
Proof.
  intros Hk.
  assert (k = 0 ∨ k = 1 ∨ k = 2 ∨ k = 3 ∨ k = 4 ∨ k = 5 ∨ k = 6 ∨ k = 7 ∨ k = 8 ∨ k = 9)%N
    as Hcases by lia.
  repeat destruct Hcases as [->|Hcases]; try done. by subst.
Qed.

Lemma pretty_N_go_shape (x : N) (s : string) :
  (0 < x)%N →
  ∃ d ds, String.list_ascii_of_string (pretty_N_go x s) = d :: ds ++ String.list_ascii_of_string s
          ∧ is_digit09 d = true ∧ d ≠ "0"%char
          ∧ Forall (λ c, is_digit09 c = true) ds.
Proof.
  revert s. induction (N.lt_wf_0 x) as [x _ IH]; intros s Hx.
  rewrite pretty_N_go_step by done.
  destruct (pretty_N_char_digit (x `mod` 10)) as (Hd & _ & Hnz); [by apply N.mod_lt|].
  destruct (N.eq_0_gt_0_cases (x `div` 10)) as [Hq|Hq].
  - rewrite Hq, pretty_N_go_0. exists (pretty_N_char (x `mod` 10)), [].
    split_and!; [done..| |constructor].
    apply Hnz. apply N.div_small_iff in Hq; [|done]. rewrite N.mod_small by done. lia.
  - destruct (IH (x `div` 10)%N) with (s := String (pretty_N_char (x `mod` 10)) s)
      as (d & ds & Heq & Hdd & Hdz & Hds); [by apply N.div_lt|done|].
    exists d, (ds ++ [pretty_N_char (x `mod` 10)]). split_and!; [|done..|].
    + rewrite Heq. cbn [String.list_ascii_of_string]. by rewrite <- app_assoc.
    + apply Forall_app. split; [done|]. by constructor.
Qed.

Lemma span_digits_app (ds rest : list ascii) :
  Forall (λ c, is_digit09 c = true) ds →
  delimited rest →
  span_digits (ds ++ rest) = (ds, rest).
Proof.
  intros Hds Hrest. induction Hds as [|c ds Hc _ IH]; cbn [app span_digits].
  - destruct Hrest as [->|(c & r & -> & [->| ->])]; done.
  - by rewrite Hc, IH.
Qed.

Lemma scan_frac_delimited (rest : list ascii) :
  delimited rest → scan_frac rest = ([], rest).
Proof. by intros [->|(c & r & -> & [->| ->])]. Qed.

Lemma scan_exp_delimited (rest : list ascii) :
  delimited rest → scan_exp rest = ([], rest).
Proof. by intros [->|(c & r & -> & [->| ->])]. Qed.

Lemma scan_int_digits (d : ascii) (ds rest : list ascii) :
  is_digit09 d = true → d ≠ "0"%char →
  Forall (λ c, is_digit09 c = true) ds →
  delimited rest →
  scan_int (d :: ds ++ rest) = Some (d :: ds, rest)
  ∧ scan_int ("-"%char :: d :: ds ++ rest) = Some ("-"%char :: d :: ds, rest).
Proof.
  intros Hd Hnz Hds Hrest. unfold scan_int.
  assert (Hminus : d ≠ "-"%char) by (by intros ->).
  rewrite (decide_True (P := "-"%char = "-"%char)) by done.
  rewrite (decide_False (P := d = "-"%char)) by done.
  rewrite !(decide_False (P := d = "0"%char)) by done.
  rewrite Hd. by rewrite span_digits_app by done.
Qed.

Lemma scan_number_digits (d : ascii) (ds rest : list ascii) :
  is_digit09 d = true → d ≠ "0"%char →
  Forall (λ c, is_digit09 c = true) ds →
  delimited rest →
  scan_number (d :: ds ++ rest) = Some (d :: ds, rest)
  ∧ scan_number ("-"%char :: d :: ds ++ rest) = Some ("-"%char :: d :: ds, rest).
Proof.
  intros Hd Hnz Hds Hrest. unfold scan_number.
  destruct (scan_int_digits d ds rest) as [-> ->]; [done..|].
  cbn [mbind option_bind].
  rewrite scan_frac_delimited, scan_exp_delimited by done. by rewrite !app_nil_r.
Qed.

Lemma scan_atom_number (c : ascii) (cs : list ascii) :
  is_digit09 c = true ∨ c = "-"%char →
  scan_atom (A:=Z) (c :: cs)
  = match scan_number (c :: cs) with
    | Some (token, r) => a ← num_read token; Some (PNum a, r)
    | None =>
        match after (String.list_ascii_of_string "-Infinity") (c :: cs) with
        | Some r => a ← num_read (String.list_ascii_of_string "-Infinity"); Some (PNum a, r)
        | None => None
        end
    end.
Proof.
  intros [Hc| ->].
  - unfold is_digit09 in Hc. apply bool_decide_eq_true in Hc.
    rewrite <- (ascii_nat_embedding c).
    assert (nat_of_ascii c ∈ seq 48 10) as Hin by (apply elem_of_seq; lia).
    cbn [seq] in Hin. rewrite !elem_of_cons, elem_of_nil in Hin.
    repeat destruct Hin as [->|Hin]; try done; by destruct (scan_number _) as [[]|].
  - unfold scan_atom. cbn [after String.list_ascii_of_string].
    rewrite !decide_False by done. by destruct (scan_number _) as [[]|].
Qed.

Lemma Z_reads_back (z : Z) : short_number z → reads_back z.
Proof.
  intros Hshort rest Hrest. unfold short_number in Hshort.
  destruct z as [|p|p].
  - destruct Hrest as [->|(c & r & -> & [->| ->])]; done.
  - change (num_repr (Z.pos p)) with (String.list_ascii_of_string (pretty_N_go (N.pos p) "")).
    change (pretty (Z.abs_N (Z.pos p))) with (pretty_N_go (N.pos p) "") in Hshort.
    destruct (pretty_N_go_shape (N.pos p) "") as (d & ds & Heq & Hd & Hnz & Hds); [done|].
    pose proof (pretty_N_go_read (N.pos p) "") as Hread.
    rewrite Heq in Hshort, Hread |- *. cbn [String.list_ascii_of_string] in *.
    rewrite app_nil_r in *. cbn [app].
    assert (Hq : d ≠ "034"%char ∧ d ≠ "{"%char ∧ d ≠ "["%char ∧ d ≠ "-"%char).
    { split_and!; by intros ->. }
    destruct Hq as (? & ? & ? & ?).
    cbn [scan_value]. rewrite !decide_False by done.
    rewrite scan_atom_number by (by left).
    rewrite (proj1 (scan_number_digits d ds rest Hd Hnz Hds Hrest)).
    cbn [num_read Z_text]. unfold Z_read. rewrite decide_False by done.
    rewrite bool_decide_eq_true_2 by done. rewrite Hread. done.
  - change (num_repr (Z.neg p))
      with ("-"%char :: String.list_ascii_of_string (pretty_N_go (N.pos p) "")).
    change (pretty (Z.abs_N (Z.neg p))) with (pretty_N_go (N.pos p) "") in Hshort.
    destruct (pretty_N_go_shape (N.pos p) "") as (d & ds & Heq & Hd & Hnz & Hds); [done|].
    pose proof (pretty_N_go_read (N.pos p) "") as Hread.
    rewrite Heq in Hshort, Hread |- *. cbn [String.list_ascii_of_string] in *.
    rewrite app_nil_r in *. cbn [app].
    cbn [scan_value]. rewrite !decide_False by done.
    rewrite scan_atom_number by (by right).
    rewrite (proj2 (scan_number_digits d ds rest Hd Hnz Hds Hrest)).
    cbn [num_read Z_text]. unfold Z_read. rewrite decide_True by done.
    rewrite bool_decide_eq_true_2 by done. rewrite Hread. done.
Qed.

(** ** The three kinds of stored values *)

Section StoredValues.
Context {A : Type} `{NumText A}.

Lemma dumpable_users (users : list string) : dumpable (users_value (A:=A) users).
Proof.
  unfold users_value. apply dumpable_list, Forall_fmap, Forall_true. done.
Qed.

Lemma dumpable_expenses (expenses : list (expense A)) :
  Forall (λ e, reads_back (amount e)) expenses → dumpable (expenses_value expenses).
Proof.
  intros Hamounts. unfold expenses_value. apply dumpable_list, Forall_fmap.
  eapply Forall_impl; [done|]. intros e He. cbn. split; [|done].
  cbn [fmap list_fmap fst]. by apply (bool_decide_unpack _).
Qed.

Lemma dumpable_budgets (budgets : dict A) :
  NoDup (dict_keys budgets) → Forall (λ kv, reads_back kv.2) budgets →
  dumpable (budgets_value budgets).
Proof.
  intros Hkeys Hlimits. unfold budgets_value. apply dumpable_dict. split.
  - unfold dict_keys in Hkeys. rewrite <- list_fmap_compose.
    erewrite list_fmap_ext; [exact Hkeys|]. by intros i [k a] _.
  - apply Forall_fmap. eapply Forall_impl; [done|]. by intros [k a].
Qed.

End StoredValues.

(** The text of a list in a list and of a dictionary, and what is read from
    some texts: a comma before the closing bracket, a leading zero, text
    after the value and an empty text are no JSON; white space is skipped;
    a key that comes again takes the later value. *)
Example json_text_examples :
  encode 0 (PList [PNum 1%Z; PList []])
  = ["["; "010"; " "; " "; " "; " "; "1"; ","; "010"; " "; " "; " "; " "; "["; "]"; "010";
     "]"]%char
  ∧ encode 0 (PDict [("a", PStr (A:=Z) "b")])
    = ["{"; "010"; " "; " "; " "; " "; "034"; "a"; "034"; ":"; " "; "034"; "b"; "034"; "010";
       "}"]%char
  ∧ json_loads (A:=Z) "[1, 2,]" = None
  ∧ json_loads (A:=Z) "01" = None
  ∧ json_loads (A:=Z) "[1] x" = None
  ∧ json_loads (A:=Z) "" = None
  ∧ json_loads (A:=Z) " [ 1 ,-2 ] " = Some (PList [PNum 1%Z; PNum (-2)%Z])
  ∧ json_loads (A:=Z)
      (String.string_of_list_ascii
         ["{"; "034"; "a"; "034"; ":"; "1"; ","; "034"; "b"; "034"; ":"; "2"; ",";
          "034"; "a"; "034"; ":"; "3"; "}"]%char)
    = Some (PDict [("a", PNum 3%Z); ("b", PNum 2%Z)]).
Proof. split_and!; by vm_compute. Qed.



(** ** The user registry *)

Lemma list_remove_length (u : string) (users : list string) :
  u ∈ users → length (list_remove u users) = length users - 1.
Proof.
  induction users as [|v users IH]; simpl; intros Hin.
  - by apply elem_of_nil in Hin.
  - destruct (decide (v = u)) as [->|Hne]; simpl; [lia|].
    apply elem_of_cons in Hin as [->|Hin]; [done|].
    rewrite IH by done. destruct users; [by apply elem_of_nil in Hin | simpl; lia].
Qed.


Lemma list_remove_NoDup (u : string) (users : list string) :
  NoDup users → u ∉ list_remove u users.
Proof.
  induction 1 as [|x users Hx Hnd IH]; simpl.
  - apply not_elem_of_nil.
  - destruct (decide (x = u)) as [->|Hne]; [done|].
    rewrite not_elem_of_cons. split; [done|]. apply IH.
Qed.

Lemma filter_absent (u : string) (users : list string) :
  u ∉ users → filter (λ v, v = u) users = [].
Proof.
  induction users as [|x users IH]; [done|].
  rewrite not_elem_of_cons, filter_cons. intros [Hne Hnot].
  rewrite decide_False by done. by apply IH.
Qed.

Lemma NoDup_occurs_once (u : string) (users : list string) :
  NoDup users → u ∈ users → length (filter (λ v, v = u) users) = 1.
Proof.
  induction 1 as [|x users Hx Hnd IH]; intros Hin.
  - by apply elem_of_nil in Hin.
  - rewrite filter_cons.
    destruct (decide (x = u)) as [->|Hne]; simpl.
    + by rewrite filter_absent.
    + apply elem_of_cons in Hin as [->|Hin]; [done|]. by apply IH.
Qed.

(** C4, as amended: once the deletion is confirmed, [delete_user_profile]
    removes both backing files of the name, whether they exist or not, before
    it looks the name up.  For a name that is not in the registry it then
    fails with [UnknownUser] and leaves the registry, in memory and on disk,
    and the active user as they were.  For a name in the registry it removes
    the name from the registry, writes the registry to its file, and clears
    the active user when that was the deleted name. *)
Theorem delete_user_profile_outcomes {A T : Type} `{Codec A T}
    (users : list string) (username : string) (w : world T) :
  (username ∉ users →
   ∃ w' : world T,
     delete_user_profile "DELETE USER" users username w = (UnknownUser, users, w')
     ∧ delete_returns UnknownUser = false
     ∧ files w' !! USERS_FILE = files w !! USERS_FILE
     ∧ CURRENT_USERNAME w' = CURRENT_USERNAME w
     ∧ files w' !! expense_file_path username = None
     ∧ files w' !! budget_file_path username = None)
  ∧ (username ∈ users →
     ∃ w' : world T,
       delete_user_profile "DELETE USER" users username w
       = (ProfileDeleted, list_remove username users, w')
       ∧ delete_returns ProfileDeleted = true
       ∧ files w' !! expense_file_path username = None
       ∧ files w' !! budget_file_path username = None
       ∧ length (list_remove username users) = length users - 1
       ∧ (NoDup users → username ∉ list_remove username users)
       ∧ files w' !! USERS_FILE = Some (json_dump (users_value (list_remove username users)))
       ∧ (CURRENT_USERNAME w = Some username → CURRENT_USERNAME w' = None)
       ∧ (CURRENT_USERNAME w ≠ Some username → CURRENT_USERNAME w' = CURRENT_USERNAME w)).
Proof.
  pose proof (expense_file_not_users username) as Hexp.
  pose proof (budget_file_not_users username) as Hbud.
  unfold delete_user_profile, save_data, remove_if_exists.
  rewrite bool_decide_eq_true_2 by done. split.
  - intros Hnot. rewrite bool_decide_eq_false_2 by done.
    eexists. split; [done|]. simpl. split_and!.
    + done.
    + by rewrite !lookup_delete_ne.
    + done.
    + rewrite lookup_delete. case_decide; [done|]. apply lookup_delete_eq.
    + apply lookup_delete_eq.
  - intros Hin. rewrite bool_decide_eq_true_2 by done.
    eexists. split; [done|]. simpl. split_and!.
    + done.
    + rewrite lookup_insert_ne by done.
      rewrite lookup_delete. case_decide; [done|]. apply lookup_delete_eq.
    + rewrite lookup_insert_ne by done. apply lookup_delete_eq.
    + by apply list_remove_length.
    + apply list_remove_NoDup.
    + apply lookup_insert_eq.
    + intros Hactive. by rewrite bool_decide_eq_true_2.
    + intros Hother. by rewrite bool_decide_eq_false_2.
Qed.

(** The registry is empty and bob is nobody's name, yet a file called
    [bob_expenses.json] is gone after the failed deletion. *)
Lemma delete_unknown_user_counterexample :
  ("bob" ∉ @nil string)
  ∧ (delete_user_profile (A:=Z) "DELETE USER" [] "bob"
       (World "" "" None {["bob_expenses.json" := Some (PList [])]})).1.1 = UnknownUser
  ∧ files (World "" "" None {["bob_expenses.json" := Some (PList (A:=Z) [])]})
      !! "bob_expenses.json" = Some (Some (PList []))
  ∧ files (delete_user_profile (A:=Z) "DELETE USER" [] "bob"
             (World "" "" None {["bob_expenses.json" := Some (PList [])]})).2
      !! "bob_expenses.json" = None.
Proof.
  split_and!.
  - apply not_elem_of_nil.
  - done.
  - apply lookup_singleton_eq.
  - unfold delete_user_profile, remove_if_exists. simpl.
    rewrite lookup_delete_ne by done. apply lookup_delete_eq.
Qed.

(** C8: on a registry of distinct alphanumeric names, creating a name that
    is present fails with [DuplicateUser] and the registry keeps its single
    occurrence of the name; a name that is empty or not alphanumeric fails
    with [InvalidUsername] and nothing changes; any other name is appended to
    the registry, which is written to its file. *)
Theorem create_user_outcomes {A T : Type} `{Codec A T}
    (users : list string) (username : string) (w : world T) :
  NoDup users →
  Forall (λ v, isalnum v = true) users →
  (username ∈ users →
   create_user username users w = (DuplicateUser, users, w)
   ∧ length (filter (λ v, v = username) users) = 1)
  ∧ (isalnum username = false → create_user username users w = (InvalidUsername, users, w))
  ∧ isalnum "" = false
  ∧ (isalnum username = true → username ∉ users →
     ∃ w' : world T,
       create_user username users w = (UserCreated, users ++ [username], w')
       ∧ files w' = <[USERS_FILE := json_dump (users_value (users ++ [username]))]> (files w)
       ∧ files w' !! USERS_FILE = Some (json_dump (users_value (users ++ [username])))
       ∧ CURRENT_USERNAME w' = Some username).
Proof.
  intros Hnd Halnum. unfold create_user. split_and!.
  - intros Hin. rewrite Forall_forall in Halnum.
    rewrite (Halnum _ Hin). simpl. rewrite bool_decide_eq_true_2 by done.
    split; [done|]. by apply NoDup_occurs_once.
  - by intros ->.
  - done.
  - intros -> Hnot. simpl. rewrite bool_decide_eq_false_2 by done.
    eexists. split; [done|]. simpl. unfold save_data. split_and!; try done.
    apply lookup_insert_eq.
Qed.

(** Scenario C: bob is created, and created again. *)
Lemma create_user_outcomes_witness :
  (create_user (A:=Z) "bob" [] (World "" "" None ∅)).1
  = (UserCreated, ["bob"])
  ∧ create_user (A:=Z) "bob" ["bob"] (World "" "" None ∅)
    = (DuplicateUser, ["bob"], World "" "" None ∅)
  ∧ length (filter (λ v, v = "bob") ["bob"]) = 1.
Proof.
  split; [reflexivity|].
  refine (proj1 (create_user_outcomes (A:=Z) ["bob"] "bob" (World "" "" None ∅) _ _) _).
  - apply NoDup_singleton.
  - repeat constructor.
  - apply list_elem_of_here.
Defined.

(** * Further properties *)

(** ** The amount prompt *)

Section AmountPrompt.
Context {A : Type} `{Num A}.

Lemma get_valid_amount_skips (refused : list (option A)) (rest : list (option A)) :
  Forall refused_amount refused →
  get_valid_amount (refused ++ rest) = get_valid_amount rest.
Proof.
  induction 1 as [|answer refused Hanswer _ IH]; [done|].
  destruct answer as [a|]; simpl; [|done].
  by rewrite (Hanswer a eq_refl).
Qed.

Lemma get_valid_amount_answered (answers : list (option A)) (amount : A) :
  get_valid_amount answers = Answered amount →
  ∃ refused rest, answers = refused ++ Some amount :: rest
    ∧ num_leb amount num_zero = false
    ∧ Forall refused_amount refused.
Proof.
  induction answers as [|[a|] answers IH]; simpl; [done| |].
  - destruct (num_leb a num_zero) eqn:Ha.
    + intros (refused & rest & -> & Hamount & Hrefused)%IH.
      exists (Some a :: refused), rest. split_and!; [done..|].
      constructor; [|done]. by intros ? [= <-].
    + intros [= <-]. exists [], answers. by split_and!.
  - intros (refused & rest & -> & Hamount & Hrefused)%IH.
    exists (None :: refused), rest. split_and!; [done..|].
    constructor; [|done]. by intros ? [=].
Qed.

End AmountPrompt.

(** X1: [get_valid_amount] never raises; it returns the first answer that is
    a number and not [<= 0], whatever was typed before; it keeps waiting
    exactly when no such answer comes. *)
Theorem get_valid_amount_first_accepted {A : Type} `{Num A} (answers : list (option A)) :
  get_valid_amount answers ≠ Raised
  ∧ (∀ amount : A,
       get_valid_amount answers = Answered amount ↔
       ∃ refused rest, answers = refused ++ Some amount :: rest
         ∧ num_leb amount num_zero = false
         ∧ Forall refused_amount refused)
  ∧ (get_valid_amount answers = Waiting ↔ Forall refused_amount answers).
Proof.
  split_and!.
  - induction answers as [|[a|] answers IH]; simpl; [done| |done].
    by destruct (num_leb a num_zero).
  - intros amount. split; [apply get_valid_amount_answered|].
    intros (refused & rest & -> & Hamount & Hrefused).
    rewrite get_valid_amount_skips by done. simpl. by rewrite Hamount.
  - induction answers as [|[a|] answers IH]; simpl.
    + split; [constructor | done].
    + destruct (num_leb a num_zero) eqn:Ha.
      * rewrite IH. split.
        -- intros Hrest. constructor; [|done]. by intros ? [= <-].
        -- by intros [_ ?]%Forall_cons_1.
      * split; [done|]. intros [Hhead _]%Forall_cons_1.
        specialize (Hhead a eq_refl). congruence.
    + rewrite IH. split.
      * intros Hrest. constructor; [|done]. by intros ? [=].
      * by intros [_ ?]%Forall_cons_1.
Qed.

(** X2: an amount that [get_valid_amount] returns is positive when it is a
    whole number; when it is a float it is positive or a NaN, and a NaN is
    indeed accepted, since [nan <= 0] is false. *)
Theorem get_valid_amount_sign :
  (∀ (answers : list (option Z)) (amount : Z),
     get_valid_amount answers = Answered amount → (0 < amount)%Z)
  ∧ (∀ (answers : list (option f64)) (amount : f64),
       get_valid_amount answers = Answered amount →
       amount = S754_nan ∨ num_ltb num_zero amount = true)
  ∧ (∀ rest : list (option f64),
       get_valid_amount (Some S754_nan :: rest) = Answered S754_nan).
Proof.
  split_and!.
  - intros answers amount (_ & _ & _ & Hamount & _)%get_valid_amount_answered.
    unfold num_leb in Hamount. simpl in Hamount.
    apply orb_false_iff in Hamount as [?%Z.ltb_ge ?%Z.eqb_neq]. lia.
  - intros answers amount (_ & _ & _ & Hamount & _)%get_valid_amount_answered.
    destruct (decide (amount = S754_nan)) as [|Hnan]; [by left|]. right.
    unfold num_leb in Hamount. simpl in *.
    apply orb_false_iff in Hamount as [Hlt Heq].
    assert (Hzero : S754_zero false ≠ S754_nan) by done.
    pose proof (SFcompare_rank amount (S754_zero false) Hnan Hzero) as Hc.
    unfold SFltb, SFeqb in Hlt, Heq.
    apply SFltb_rank. split_and!; [done..|].
    by destruct (SFcompare amount (S754_zero false)) as [[]|].
  - done.
Qed.

(** ** The date prompt *)

Lemma digit_of_char (k : nat) : k < 10 → digit_of (digit_char k) = Some k.
Proof. intros Hk. do 10 (destruct k as [|k]; [done|]). lia. Qed.

Lemma digit_char_not_dash (k : nat) : k < 10 → digit_char k ≠ "-"%char.
Proof. intros Hk. do 10 (destruct k as [|k]; [done|]). lia. Qed.

Lemma digit_char_not_space (k : nat) : k < 10 → digit_char k ≠ " "%char.
Proof. intros Hk. do 10 (destruct k as [|k]; [done|]). lia. Qed.

Lemma digit_char_not_zero (k : nat) : 1 ≤ k < 10 → digit_char k ≠ "0"%char.
Proof. intros Hk. do 10 (destruct k as [|k]; [done || lia|]). lia. Qed.

Lemma two_digits_pad (n : nat) :
  n < 100 → two_digits (digit_char (n `div` 10)) (digit_char (n `mod` 10)) = Some n.
Proof.
  intros Hn. unfold two_digits.
  rewrite !digit_of_char;
    try (apply Nat.mod_upper_bound; lia); try (apply Nat.Div0.div_lt_upper_bound; lia).
  cbn [mbind option_bind]. f_equal. symmetry. apply Nat.div_mod_eq.
Qed.

Lemma days_in_month_le (y m : nat) : days_in_month y m ≤ 31.
Proof.
  unfold days_in_month.
  do 12 (destruct m as [|m]; [try lia; try (destruct (is_leap y); lia)|]). lia.
Qed.

Lemma days_in_month_ge (y m : nat) : 28 ≤ days_in_month y m.
Proof.
  unfold days_in_month.
  do 12 (destruct m as [|m]; [try lia; try (destruct (is_leap y); lia)|]). lia.
Qed.

(** What [strftime] writes for a date with a year of four digits,
    [strptime] reads back. *)
Lemma strptime_strftime (t : ymd) :
  valid_ymd t → (1000 ≤ Z.of_nat (year t) ≤ 9999)%Z → strptime (strftime_Ymd t) = Some t.
Proof.
  destruct t as [y m d]. unfold valid_ymd. simpl. intros [Hm Hd] Hy.
  pose proof (days_in_month_le y m) as H31.
  assert (Hhi : 10 ≤ y `div` 100 < 100).
  { split; [apply Nat.div_le_lower_bound; lia | apply Nat.Div0.div_lt_upper_bound; lia]. }
  assert (Hlo : y `mod` 100 < 100) by (apply Nat.mod_upper_bound; lia).
  assert (Hy1 : 1 ≤ (y `div` 100) `div` 10 < 10).
  { split; [apply Nat.div_le_lower_bound; lia | apply Nat.Div0.div_lt_upper_bound; lia]. }
  unfold strftime_Ymd, strptime. rewrite String.list_ascii_of_string_of_list_ascii.
  cbn [year month day].
  unfold year_digits, pad2. cbn [app strip_zeros].
  rewrite (decide_False (P := _ = "0"%char)) by (by apply digit_char_not_zero).
  cbn [app].
  rewrite decide_True by done.
  rewrite !two_digits_pad by lia.
  cbn [mbind option_bind].
  rewrite <- Nat.div_mod_eq.
  assert (Hnz : ∀ n, 1 ≤ n → nonzero n = Some n).
  { intros n Hn. unfold nonzero. by rewrite bool_decide_eq_true_2. }
  assert (Hdm : ∀ n, n < 100 → n `div` 10 < 10 ∧ n `mod` 10 < 10).
  { intros n Hn. split; [apply Nat.Div0.div_lt_upper_bound; lia | apply Nat.mod_upper_bound; lia]. }
  destruct (Hdm m) as [Hm1 Hm2]; [lia|]. destruct (Hdm d) as [Hd1 Hd2]; [lia|].
  rewrite Hnz by lia. cbn [mbind option_bind split_dash].
  rewrite !(decide_False (P := digit_char _ = "-"%char)) by (by apply digit_char_not_dash).
  rewrite decide_True by done.
  cbn [mbind option_bind fmap option_fmap option_map month_field day_field].
  rewrite (decide_False (P := digit_char _ = " "%char)) by (by apply digit_char_not_space).
  rewrite !two_digits_pad by lia. cbn [mbind option_bind].
  rewrite !Hnz by lia. cbn [mbind option_bind].
  rewrite !bool_decide_eq_true_2 by lia. cbn [mbind option_bind].
  by rewrite bool_decide_eq_true_2 by lia.
Qed.

(** The day before a date of the calendar is a date of the calendar, of the
    same year or of the one before. *)
Lemma prev_day_valid (t t' : ymd) :
  valid_ymd t → prev_day t = Some t' →
  valid_ymd t' ∧ (year t' = year t ∨ (2 ≤ year t ∧ year t' = year t - 1)).
Proof.
  destruct t as [y m d]. unfold valid_ymd, prev_day. cbn [year month day].
  intros [Hm Hd] Hprev.
  pose proof (days_in_month_ge y (m - 1)).
  assert (days_in_month (y - 1) 12 = 31) by done.
  repeat case_bool_decide; simplify_eq; cbn [year month day]; lia.
Qed.

Lemma prev_day_exists (t : ymd) : 2 ≤ year t → is_Some (prev_day t).
Proof. intros Hy. unfold prev_day. repeat case_bool_decide; done || lia. Qed.

Lemma get_valid_date_answered (now : ymd) (default_date : option string)
    (answers : list string) (date : string) :
  valid_ymd now →
  (1001 ≤ Z.of_nat (year now) ≤ 9999)%Z →
  (∀ d, default_date = Some d → d = "" ∨ is_Some (strptime d)) →
  get_valid_date now default_date answers = Answered date →
  is_Some (strptime date).
Proof.
  intros Hnow Hyear Hdefault.
  assert (Htoday : is_Some (strptime (strftime_Ymd now))).
  { rewrite strptime_strftime; [done..|lia]. }
  induction answers as [|date_input rest IH]; simpl; [done|].
  repeat case_bool_decide.
  - intros [= <-]. destruct default_date as [d|]; [|done].
    case_bool_decide; [done|]. by destruct (Hdefault d eq_refl).
  - by intros [= <-].
  - destruct (prev_day now) as [t|] eqn:Hprev; [|done].
    intros [= <-]. destruct (prev_day_valid _ _ Hnow Hprev) as [Ht Hy].
    rewrite strptime_strftime; [done..|lia].
  - destruct (strptime date_input) eqn:Hparse; [|done].
    intros [= <-]. by rewrite Hparse.
Qed.

Lemma get_valid_date_raised (now : ymd) (default_date : option string)
    (answers : list string) :
  get_valid_date now default_date answers = Raised → prev_day now = None.
Proof.
  induction answers as [|date_input rest IH]; simpl; [done|].
  repeat case_bool_decide; try done.
  - by destruct (prev_day now).
  - by destruct (strptime date_input).
Qed.

(** X3: when the clock shows a date of the calendar in the years 1001 to
    9999, and the default (if any) is empty or a date that [strptime]
    accepts, [get_valid_date] never raises and every date it returns is
    accepted by [strptime]: nothing that the reports cannot parse is
    returned. *)
Theorem get_valid_date_parses (now : ymd) (default_date : option string)
    (answers : list string) :
  valid_ymd now →
  (1001 ≤ Z.of_nat (year now) ≤ 9999)%Z →
  (∀ d, default_date = Some d → d = "" ∨ is_Some (strptime d)) →
  get_valid_date now default_date answers ≠ Raised
  ∧ ∀ date, get_valid_date now default_date answers = Answered date →
            is_Some (strptime date).
Proof.
  intros Hnow Hyear Hdefault. split.
  - intros Hnone%get_valid_date_raised.
    destruct (prev_day_exists now) as [t Ht]; [lia|congruence].
  - intros date. by apply get_valid_date_answered.
Qed.

Lemma get_valid_date_parses_witness :
  get_valid_date (Ymd 2024 3 1) None ["31/12/2023"; "yesterday"] ≠ Raised
  ∧ ∀ date, get_valid_date (Ymd 2024 3 1) None ["31/12/2023"; "yesterday"] = Answered date →
            is_Some (strptime date).
Proof.
  apply (get_valid_date_parses (Ymd 2024 3 1) None ["31/12/2023"; "yesterday"]).
  - unfold valid_ymd. simpl. lia.
  - simpl. lia.
  - intros d Hd. discriminate Hd.
Defined.

(** ** The category prompt *)

Lemma digit_of_superscript (c : ascii) :
  is_digit_char c = true → digit_of c = None ↔ superscript_digit c.
Proof.
  unfold is_digit_char, digit_of, superscript_digit.
  generalize (nat_of_ascii c). intros n Hn.
  apply orb_true_iff in Hn as [Hn%bool_decide_eq_true|Hn%bool_decide_eq_true].
  - rewrite bool_decide_eq_true_2 by done. split; [done|].
    rewrite !elem_of_cons, elem_of_nil. lia.
  - split; [done|]. intros _. case_bool_decide as Hd; [|done].
    revert Hn. rewrite !elem_of_cons, elem_of_nil. lia.
Qed.

Lemma isdigit_chars (s : string) :
  isdigit s = true → Forall (λ c, is_digit_char c = true) (String.list_ascii_of_string s).
Proof.
  unfold isdigit. destruct (String.list_ascii_of_string s) as [|c cs] eqn:Hs; [done|].
  generalize (c :: cs). clear. intros l.
  induction l as [|x l IH]; simpl; [done|].
  intros [? ?]%andb_true_iff. constructor; [done | by apply IH].
Qed.

Lemma mapM_digit_of_None (cs : list ascii) :
  Forall (λ c, is_digit_char c = true) cs →
  mapM digit_of cs = None ↔ Exists superscript_digit cs.
Proof.
  intros Hcs. rewrite mapM_None.
  induction Hcs as [|c cs Hc _ IH]; [by rewrite !Exists_nil|].
  by rewrite !Exists_cons, IH, (digit_of_superscript c Hc).
Qed.

Lemma py_int_refuses (s : string) : isdigit s = true → py_int s = None ↔ int_refuses s.
Proof.
  intros Hm%isdigit_chars%mapM_digit_of_None. unfold py_int, int_refuses.
  case_bool_decide as Hlen.
  - destruct (mapM digit_of (String.list_ascii_of_string s)) as [ds|]; simpl.
    + split; [done|]. intros [Hex|?]; [|lia]. by apply Hm in Hex.
    + split; [|done]. intros _. left. by apply Hm.
  - split; [|done]. intros _. right. lia.
Qed.

Lemma isdigit_not_c (s : string) : isdigit s = true → s ≠ "c".
Proof. by intros Hs ->. Qed.

Lemma common_category_nonempty (category : string) :
  category ∈ common_categories → category ≠ "".
Proof.
  unfold common_categories. rewrite !elem_of_cons, elem_of_nil.
  intros Hc ->. by repeat destruct Hc as [Hc|Hc].
Qed.

(** X4: a category that [get_valid_category] returns is never empty, and it
    is one of the ten listed categories or a custom name, typed right after
    the choice [c]. *)
Theorem get_valid_category_result (answers : list string) (category : string) :
  get_valid_category answers = Answered category →
  category ≠ ""
  ∧ (category ∈ common_categories
     ∨ ∃ before after, answers = before ++ "c" :: category :: after).
Proof.
  revert category.
  induction answers as [answers IH] using (induction_ltof1 _ length).
  unfold ltof in IH. intros category.
  destruct answers as [|category_choice rest]; simpl; [done|].
  assert (Hrest : get_valid_category rest = Answered category →
                  category ≠ ""
                  ∧ (category ∈ common_categories
                     ∨ ∃ before after,
                         category_choice :: rest = before ++ "c" :: category :: after)).
  { intros (Hne & [Hin|(before & after & ->)])%IH; [by split; [|left]| |simpl; lia].
    split; [done|]. right. by exists (category_choice :: before), after. }
  case_bool_decide as Hc.
  - destruct rest as [|custom rest']; [done|].
    case_bool_decide as Hempty.
    + intros (Hne & [Hin|(before & after & ->)])%IH; [by split; [|left]| |simpl; lia].
      split; [done|]. right. by exists (category_choice :: custom :: before), after.
    + intros [= <-]. split; [done|]. right. subst. by exists [], rest'.
  - destruct (isdigit category_choice); [|done].
    destruct (py_int category_choice) as [n|]; [|done].
    case_bool_decide; [|done].
    destruct (common_categories !! Z.to_nat (n - 1)) as [found|] eqn:Hfound; [|done].
    intros [= <-]. apply list_elem_of_lookup_2 in Hfound.
    split; [by apply common_category_nonempty | by left].
Qed.

Lemma get_valid_category_result_witness :
  "Entertainment" ≠ ""
  ∧ ("Entertainment" ∈ common_categories
     ∨ ∃ before after,
         ["x"; "11"; "c"; ""; "3"] = before ++ "c" :: "Entertainment" :: after).
Proof. by apply (get_valid_category_result ["x"; "11"; "c"; ""; "3"] "Entertainment"). Defined.

(** X5: [get_valid_category] raises [ValueError] only at a choice that
    [isdigit] accepts and [int] refuses (a superscript digit, or more than
    4300 digits), and at every such choice it does raise: the loop does not
    ask again. *)
Theorem get_valid_category_raises :
  (∀ answers, get_valid_category answers = Raised →
     ∃ before choice after, answers = before ++ choice :: after
       ∧ isdigit choice = true ∧ int_refuses choice)
  ∧ (∀ choice rest, isdigit choice = true → int_refuses choice →
       get_valid_category (choice :: rest) = Raised)
  ∧ get_valid_category ["7"; String (ascii_of_nat 178) ""; "3"] = Answered "Shopping"
  ∧ get_valid_category ["0"; String (ascii_of_nat 178) ""; "3"] = Raised.
Proof.
  split_and!; [| |done..].
  - intros answers.
    induction answers as [answers IH] using (induction_ltof1 _ length).
    unfold ltof in IH.
    destruct answers as [|category_choice rest]; simpl; [done|].
    assert (Hrest : get_valid_category rest = Raised →
                    ∃ before choice after,
                      category_choice :: rest = before ++ choice :: after
                      ∧ isdigit choice = true ∧ int_refuses choice).
    { intros (before & choice & after & -> & Hd & Hr)%IH; [|simpl; lia].
      by exists (category_choice :: before), choice, after. }
    case_bool_decide as Hc.
    + destruct rest as [|custom rest']; [done|].
      case_bool_decide; [|done].
      intros (before & choice & after & -> & Hd & Hr)%IH; [|simpl; lia].
      by exists (category_choice :: custom :: before), choice, after.
    + destruct (isdigit category_choice) eqn:Hd; [|done].
      destruct (py_int category_choice) as [n|] eqn:Hn.
      * case_bool_decide as Hrange; [|done].
        assert (Hlt : Z.to_nat (n - 1) < length common_categories).
        { change (length common_categories) with 10. lia. }
        by apply lookup_lt_is_Some_2 in Hlt as [found ->].
      * intros _. exists [], category_choice, rest. split_and!; [done..|].
        by apply py_int_refuses.
  - intros choice rest Hd Hr. simpl.
    rewrite bool_decide_eq_false_2 by (by apply isdigit_not_c).
    rewrite Hd. by apply py_int_refuses in Hr as ->.
Qed.

Lemma get_valid_category_nonempty (answers : list string) (category : string) :
  get_valid_category answers = Answered category → category ≠ "".
Proof.
  induction answers as [answers IH] using (induction_ltof1 _ length).
  unfold ltof in IH.
  destruct answers as [|category_choice rest]; simpl; [done|].
  case_bool_decide.
  - destruct rest as [|custom rest']; [done|].
    case_bool_decide; [apply IH; simpl; lia | by intros [= <-]].
  - destruct (isdigit category_choice); [|apply IH; simpl; lia].
    destruct (py_int category_choice) as [n|]; [|done].
    case_bool_decide; [|apply IH; simpl; lia].
    destruct (common_categories !! Z.to_nat (n - 1)) as [found|] eqn:Hfound; [|done].
    intros [= <-]. by apply list_elem_of_lookup_2, common_category_nonempty in Hfound.
Qed.

(** ** [add_expense] *)

Section EntryFacts.
Context {A : Type} `{Num A}.
Implicit Types (e : expense A) (expenses : list (expense A)).

Lemma add_expense_answered expenses (amount_answers : list (option A))
    (category_answers : list string) (now : ymd) (date_answers : list string) expenses' :
  add_expense expenses amount_answers category_answers now date_answers = Answered expenses' →
  ∃ (amount : A) (category date : string),
    get_valid_amount amount_answers = Answered amount
    ∧ get_valid_category category_answers = Answered category
    ∧ get_valid_date now None date_answers = Answered date
    ∧ expenses' = expenses ++ [Expense amount category date].
Proof.
  unfold add_expense.
  destruct (get_valid_amount amount_answers) as [amount| |]; [|done..].
  destruct (get_valid_category category_answers) as [category| |]; [|done..].
  destruct (get_valid_date now None date_answers) as [date| |]; [|done..].
  intros [= <-]. by exists amount, category, date.
Qed.

Lemma category_spending_snoc expenses e :
  category_spending (expenses ++ [e]) =
  accumulate (category_spending expenses) (category e) (amount e).
Proof. unfold category_spending. by rewrite fold_left_app. Qed.

Lemma amend_entered e (new_amount : option A) (new_category new_date : string) :
  entered e → is_Some (strptime new_date) →
  entered (amend e new_amount new_category new_date).
Proof.
  unfold entered, valid_date, amend. intros (Ha & Hc & Hd) Hnew.
  destruct new_amount as [a|]; [destruct (num_leb a num_zero) eqn:Hle|];
    repeat case_bool_decide; simpl; split_and!; congruence.
Qed.

End EntryFacts.

(** X6: when the clock shows a date of the calendar in the years 1001 to
    9999, [add_expense] appends exactly one record at the end and leaves the
    records before it as they were; the new record has an amount that is not
    [<= 0], a category that is not empty and a date that [strptime] accepts,
    so a list of such records stays one.  [add_expense] raises only when the
    amount was accepted and the category prompt raises. *)
Theorem add_expense_appends {A : Type} `{Num A} (expenses : list (expense A))
    (amount_answers : list (option A)) (category_answers : list string)
    (now : ymd) (date_answers : list string) :
  valid_ymd now →
  (1001 ≤ Z.of_nat (year now) ≤ 9999)%Z →
  (∀ expenses',
     add_expense expenses amount_answers category_answers now date_answers
     = Answered expenses' →
     ∃ e, expenses' = expenses ++ [e] ∧ entered e
          ∧ (Forall entered expenses → Forall entered expenses'))
  ∧ (add_expense expenses amount_answers category_answers now date_answers = Raised
     ↔ (∃ amount, get_valid_amount amount_answers = Answered amount)
       ∧ get_valid_category category_answers = Raised).
Proof.
  intros Hnow Hyear. split.
  - intros expenses' (amount & category & date & Ha & Hc & Hd & ->)%add_expense_answered.
    assert (He : entered (Expense amount category date)).
    { split_and!; simpl.
      - by apply get_valid_amount_answered in Ha as (_ & _ & _ & ? & _).
      - by apply get_valid_category_nonempty in Hc.
      - unfold valid_date. simpl.
        by apply (get_valid_date_answered now None date_answers). }
    exists (Expense amount category date). split_and!; [done..|].
    intros Hall. apply Forall_app. by split; [|constructor].
  - unfold add_expense.
    destruct (get_valid_amount amount_answers) as [amount| |] eqn:Ha.
    + destruct (get_valid_category category_answers) as [category| |] eqn:Hc.
      * destruct (get_valid_date now None date_answers) as [date| |] eqn:Hd.
        -- split; [done | by intros [_ ?]].
        -- apply get_valid_date_raised in Hd.
           destruct (prev_day_exists now) as [t Ht]; [lia|congruence].
        -- split; [done | by intros [_ ?]].
      * split; [by eauto | done].
      * split; [done | by intros [_ ?]].
    + exfalso. revert Ha. clear. induction amount_answers as [|[a|] rest IH]; simpl; [done| |done].
      by destruct (num_leb a num_zero).
    + split; [done | by intros [[? ?] _]].
Qed.

Lemma add_expense_appends_witness :
  (∀ expenses',
     add_expense [Expense 100%Z "Food" "2024-01-05"] [None; Some 0%Z; Some 50%Z]
       ["c"; "Books"] (Ymd 2024 3 1) ["yesterday"] = Answered expenses' →
     ∃ e, expenses' = [Expense 100%Z "Food" "2024-01-05"] ++ [e] ∧ entered e
          ∧ (Forall entered [Expense 100%Z "Food" "2024-01-05"] →
             Forall entered expenses'))
  ∧ (add_expense [Expense 100%Z "Food" "2024-01-05"] [None; Some 0%Z; Some 50%Z]
       ["c"; "Books"] (Ymd 2024 3 1) ["yesterday"] = Raised
     ↔ (∃ amount, get_valid_amount [None; Some 0%Z; Some 50%Z] = Answered amount)
       ∧ get_valid_category ["c"; "Books"] = Raised).
Proof.
  apply (add_expense_appends [Expense 100%Z "Food" "2024-01-05"] [None; Some 0%Z; Some 50%Z]
           ["c"; "Books"] (Ymd 2024 3 1) ["yesterday"]).
  - unfold valid_ymd. simpl. lia.
  - simpl. lia.
Defined.

(** X7: after [add_expense], the totals by category that [view_summary]
    and [check_budgets] compute have changed in one place: the total of the
    new record's category has grown by its amount, every other total is as
    before, and the categories keep their order, a new one going last. *)
Theorem add_expense_summary {A : Type} `{Num A} (expenses expenses' : list (expense A))
    (amount_answers : list (option A)) (category_answers : list string)
    (now : ymd) (date_answers : list string) :
  add_expense expenses amount_answers category_answers now date_answers = Answered expenses' →
  ∃ e, expenses' = expenses ++ [e]
    ∧ (∀ c, dict_get c num_zero (category_spending expenses') =
            if decide (category e = c)
            then num_add (dict_get c num_zero (category_spending expenses)) (amount e)
            else dict_get c num_zero (category_spending expenses))
    ∧ (category e ∈ dict_keys (category_spending expenses) →
       dict_keys (category_spending expenses') = dict_keys (category_spending expenses))
    ∧ (category e ∉ dict_keys (category_spending expenses) →
       dict_keys (category_spending expenses')
       = dict_keys (category_spending expenses) ++ [category e]).
Proof.
  intros (amount & category & date & _ & _ & _ & ->)%add_expense_answered.
  exists (Expense amount category date). rewrite category_spending_snoc. simpl.
  unfold accumulate. split_and!; [done| | |].
  - intros c. rewrite dict_get_set. by case_decide; subst.
  - apply dict_keys_set_in.
  - apply dict_keys_set_notin.
Qed.

Lemma add_expense_summary_witness :
  ∃ e, [Expense 100%Z "Food" "2024-01-05"; Expense 50%Z "Food" "2024-02-29"]
       = [Expense 100%Z "Food" "2024-01-05"] ++ [e]
    ∧ (∀ c, dict_get c num_zero
              (category_spending
                 [Expense 100%Z "Food" "2024-01-05"; Expense 50%Z "Food" "2024-02-29"]) =
            if decide (category e = c)
            then num_add (dict_get c num_zero
                            (category_spending [Expense 100%Z "Food" "2024-01-05"]))
                         (amount e)
            else dict_get c num_zero (category_spending [Expense 100%Z "Food" "2024-01-05"]))
    ∧ (category e ∈ dict_keys (category_spending [Expense 100%Z "Food" "2024-01-05"]) →
       dict_keys (category_spending
                    [Expense 100%Z "Food" "2024-01-05"; Expense 50%Z "Food" "2024-02-29"])
       = dict_keys (category_spending [Expense 100%Z "Food" "2024-01-05"]))
    ∧ (category e ∉ dict_keys (category_spending [Expense 100%Z "Food" "2024-01-05"]) →
       dict_keys (category_spending
                    [Expense 100%Z "Food" "2024-01-05"; Expense 50%Z "Food" "2024-02-29"])
       = dict_keys (category_spending [Expense 100%Z "Food" "2024-01-05"]) ++ [category e]).
Proof.
  apply (add_expense_summary [Expense 100%Z "Food" "2024-01-05"] _
           [None; Some 0%Z; Some 50%Z] ["1"] (Ymd 2024 3 1) ["yesterday"]).
  reflexivity.
Defined.

(** ** The editor keeps records well formed *)

Section EditorInvariant.
Context {A : Type} `{Num A}.
Implicit Types (e : expense A) (expenses result : list (expense A)).

Lemma manage_delete_deleted expenses (number : Z) (confirm : string) e result :
  manage_delete expenses number confirm = (Deleted e, result) →
  confirm = "y" ∧ ∃ i, expenses !! i = Some e ∧ result = delete i expenses.
Proof.
  unfold manage_delete, pop.
  destruct (select_expense expenses number) as [| |shown i]; [done..|].
  case_bool_decide as Hy; [|done].
  destruct (expenses !! i) as [e'|] eqn:He; simpl; [|done].
  intros [= <- <-]. split; [done|]. by exists i.
Qed.

Lemma manage_delete_unchanged expenses (number : Z) (confirm : string)
    (o : manage_outcome A) result :
  manage_delete expenses number confirm = (o, result) →
  (∀ e, o ≠ Deleted e) → result = expenses.
Proof.
  unfold manage_delete, pop.
  destruct (select_expense expenses number) as [| |shown i]; [by intros [= <- <-]..|].
  case_bool_decide as Hy; [|by intros [= <- <-]].
  destruct (expenses !! i) as [e'|] eqn:He; simpl; [|by intros [= <- <-]].
  intros [= <- <-] Ho. by destruct (Ho e').
Qed.

Lemma manage_edit_updated expenses (number : Z) (new_amount : option A)
    (new_category new_date : string) result :
  manage_edit expenses number new_amount new_category new_date = (Updated, result) →
  ∃ i e, expenses !! i = Some e
         ∧ result = <[i := amend e new_amount new_category new_date]> expenses.
Proof.
  unfold manage_edit.
  destruct (select_expense expenses number) as [| |shown i]; [done..|].
  destruct (expenses !! i) as [e|] eqn:He; [|done].
  intros [= <-]. by exists i, e.
Qed.

Lemma manage_edit_unchanged expenses (number : Z) (new_amount : option A)
    (new_category new_date : string) (o : manage_outcome A) result :
  manage_edit expenses number new_amount new_category new_date = (o, result) →
  o ≠ Updated → result = expenses.
Proof.
  unfold manage_edit.
  destruct (select_expense expenses number) as [| |shown i]; [by intros [= <- <-]..|].
  destruct (expenses !! i) as [e|] eqn:He; [|by intros [= <- <-]].
  by intros [= <- <-] Ho.
Qed.

Lemma delete_entered expenses (i : nat) :
  Forall entered expenses → Forall entered (delete i expenses).
Proof.
  intros Hall. rewrite delete_take_drop. apply Forall_app.
  split; [by apply Forall_take | by apply Forall_drop].
Qed.

Lemma insert_amend_entered expenses (i : nat) e (new_amount : option A)
    (new_category new_date : string) :
  Forall entered expenses → expenses !! i = Some e → is_Some (strptime new_date) →
  Forall entered (<[i := amend e new_amount new_category new_date]> expenses).
Proof.
  intros Hall He Hdate. apply Forall_insert; [done|]. apply amend_entered; [|done].
  by apply (Forall_lookup_1 _ _ _ _ Hall He).
Qed.

End EditorInvariant.

(** X8: the editor keeps a list of well-formed records well formed: deleting
    leaves records of the list, and does nothing at all unless the answer to
    the confirmation is [y]; editing keeps the amount not [<= 0] (a refused
    amount keeps the old one), the category not empty (an empty answer keeps
    the old one), and, given a date that [strptime] accepts, the date valid;
    editing never changes the number of records. *)
Theorem manage_keeps_entered {A : Type} `{Num A} (expenses : list (expense A)) (number : Z) :
  Forall entered expenses →
  (∀ confirm : string,
     Forall entered (manage_delete expenses number confirm).2
     ∧ (confirm ≠ "y" → (manage_delete expenses number confirm).2 = expenses))
  ∧ (∀ (new_amount : option A) (new_category new_date : string),
       is_Some (strptime new_date) →
       Forall entered (manage_edit expenses number new_amount new_category new_date).2
       ∧ length (manage_edit expenses number new_amount new_category new_date).2
         = length expenses).
Proof.
  intros Hall. split.
  - intros confirm.
    destruct (manage_delete expenses number confirm) as [o result] eqn:Hdel. simpl.
    assert (Hcases : (∃ e, o = Deleted e) ∨ ∀ e, o ≠ Deleted e).
    { destruct o; try (by right); left; by eexists. }
    destruct Hcases as [[e ->]|Ho].
    + apply manage_delete_deleted in Hdel as (-> & i & _ & ->).
      split; [by apply delete_entered | done].
    + by apply manage_delete_unchanged in Hdel as ->.
  - intros new_amount new_category new_date Hdate.
    destruct (manage_edit expenses number new_amount new_category new_date)
      as [o result] eqn:Hedit. simpl.
    assert (Hcases : o = Updated ∨ o ≠ Updated) by (destruct o; by (left + right)).
    destruct Hcases as [->|Ho].
    + apply manage_edit_updated in Hedit as (i & e & He & ->).
      split; [by apply insert_amend_entered | by rewrite length_insert].
    + by apply manage_edit_unchanged in Hedit as ->.
Qed.

Lemma manage_keeps_entered_witness :
  (∀ confirm : string,
     Forall entered (manage_delete [Expense 100%Z "Food" "2024-01-05"] 1 confirm).2
     ∧ (confirm ≠ "y" →
        (manage_delete [Expense 100%Z "Food" "2024-01-05"] 1 confirm).2
        = [Expense 100%Z "Food" "2024-01-05"]))
  ∧ (∀ (new_amount : option Z) (new_category new_date : string),
       is_Some (strptime new_date) →
       Forall entered
         (manage_edit [Expense 100%Z "Food" "2024-01-05"] 1
            new_amount new_category new_date).2
       ∧ length (manage_edit [Expense 100%Z "Food" "2024-01-05"] 1
                   new_amount new_category new_date).2
         = length [Expense 100%Z "Food" "2024-01-05"]).
Proof.
  apply (manage_keeps_entered [Expense 100%Z "Food" "2024-01-05"] 1).
  repeat constructor; simpl; [done|]. unfold valid_date. simpl. by eexists.
Defined.

(** ** [set_budget] *)

Section BudgetFacts.
Context {A : Type} `{Num A}.

Lemma budget_limit_answered (answers : list (option A)) (limit : A) :
  budget_limit answers = Answered limit → num_ltb limit num_zero = false.
Proof.
  induction answers as [|[a|] rest IH]; simpl; [done| |done].
  destruct (num_ltb a num_zero) eqn:Ha; [done|]. by intros [= <-].
Qed.

Lemma budget_limit_skips (refused rest : list (option A)) :
  Forall refused_limit refused → budget_limit (refused ++ rest) = budget_limit rest.
Proof.
  induction 1 as [|answer refused Hanswer _ IH]; [done|].
  destruct answer as [a|]; simpl; [|done].
  by rewrite (Hanswer a eq_refl).
Qed.

Lemma budget_limit_first (answers : list (option A)) (limit : A) :
  budget_limit answers = Answered limit →
  ∃ refused rest, answers = refused ++ Some limit :: rest
    ∧ Forall refused_limit refused
    ∧ num_ltb limit num_zero = false.
Proof.
  induction answers as [|[a|] answers IH]; simpl; [done| |].
  - destruct (num_ltb a num_zero) eqn:Ha.
    + intros (refused & rest & -> & Hrefused & Hlimit)%IH.
      exists (Some a :: refused), rest. split_and!; [done| |done].
      constructor; [|done]. by intros ? [= <-].
    + intros [= <-]. exists [], answers. by split_and!.
  - intros (refused & rest & -> & Hrefused & Hlimit)%IH.
    exists (None :: refused), rest. split_and!; [done| |done].
    constructor; [|done]. by intros ? [=].
Qed.

Lemma budget_limit_waiting (answers : list (option A)) :
  budget_limit answers = Waiting ↔ Forall refused_limit answers.
Proof.
  induction answers as [|[a|] answers IH]; simpl.
  - split; [constructor | done].
  - destruct (num_ltb a num_zero) eqn:Ha.
    + rewrite IH. split.
      * intros Hrest. constructor; [|done]. by intros ? [= <-].
      * by intros [_ ?]%Forall_cons_1.
    + split; [done|]. intros [Hhead _]%Forall_cons_1.
      specialize (Hhead a eq_refl). congruence.
  - rewrite IH. split.
    + intros Hrest. constructor; [|done]. by intros ? [=].
    + by intros [_ ?]%Forall_cons_1.
Qed.

Lemma budget_limit_not_raised (answers : list (option A)) : budget_limit answers ≠ Raised.
Proof.
  induction answers as [|[a|] rest IH]; simpl; [done| |done].
  by destruct (num_ltb a num_zero).
Qed.

Lemma dict_set_elem {V} (k : string) (v : V) (d : dict V) : (k, v) ∈ dict_set k v d.
Proof.
  induction d as [|[k' v'] d IH]; simpl.
  - by apply list_elem_of_singleton.
  - case_decide as Hk; subst; [left | by right].
Qed.

Lemma dict_set_first {V} (k : string) (v dflt : V) (d : dict V) :
  dict_get k dflt (dict_set k v d) = v.
Proof. rewrite dict_get_set. by rewrite decide_True. Qed.

Lemma dict_set_keys_NoDup {V} (k : string) (v : V) (d : dict V) :
  NoDup (dict_keys d) → NoDup (dict_keys (dict_set k v d)).
Proof.
  intros Hnd. destruct (decide (k ∈ dict_keys d)) as [Hin|Hin].
  - by rewrite dict_keys_set_in.
  - rewrite dict_keys_set_notin by done. apply NoDup_app. split_and!; [done| |].
    + intros c Hc ->%list_elem_of_singleton. done.
    + apply NoDup_singleton.
Qed.

End BudgetFacts.

(** X9: [set_budget] never raises, and the limit it takes is the first
    answer that is a number and not [< 0], whatever was typed before it; it
    keeps waiting exactly when no such answer comes.  Afterwards the category
    has that limit, whether it had one before or not; every other category
    keeps its limit; the categories keep their order, a new one going last,
    and stay distinct; and [check_budgets] reports the category with that
    limit against what was spent in it. *)
Theorem set_budget_sets {A : Type} `{Num A} (budgets : dict A) (category : string)
    (answers : list (option A)) :
  set_budget budgets category answers ≠ Raised
  ∧ (set_budget budgets category answers = Waiting ↔ Forall refused_limit answers)
  ∧ (∀ (limit : A) (refused rest : list (option A)),
       answers = refused ++ Some limit :: rest →
       Forall refused_limit refused →
       num_ltb limit num_zero = false →
       set_budget budgets category answers = Answered (dict_set category limit budgets))
  ∧ ∀ budgets', set_budget budgets category answers = Answered budgets' →
      ∃ (limit : A) (refused rest : list (option A)),
        answers = refused ++ Some limit :: rest
        ∧ Forall refused_limit refused
        ∧ num_ltb limit num_zero = false
        ∧ (∀ dflt, dict_get category dflt budgets' = limit)
        ∧ (∀ c dflt, c ≠ category → dict_get c dflt budgets' = dict_get c dflt budgets)
        ∧ (category ∈ dict_keys budgets → dict_keys budgets' = dict_keys budgets)
        ∧ (category ∉ dict_keys budgets → dict_keys budgets' = dict_keys budgets ++ [category])
        ∧ (NoDup (dict_keys budgets) → NoDup (dict_keys budgets'))
        ∧ (∀ expenses : list (expense A), ∃ line : budget_line A,
             line ∈ check_budgets expenses budgets'
             ∧ bl_category line = category
             ∧ bl_limit line = limit
             ∧ bl_spent line = dict_get category num_zero (category_spending expenses)).
Proof.
  unfold set_budget. split_and!.
  - pose proof (budget_limit_not_raised answers).
    by destruct (budget_limit answers).
  - rewrite <- budget_limit_waiting. by destruct (budget_limit answers).
  - intros limit refused rest -> Hrefused Hlimit.
    rewrite budget_limit_skips by done. simpl. by rewrite Hlimit.
  - intros budgets'. destruct (budget_limit answers) as [limit| |] eqn:Hlimit; [|done..].
    intros [= <-].
    destruct (budget_limit_first answers limit Hlimit) as (refused & rest & Hans & Href & Hlt).
    exists limit, refused, rest. split_and!; [done..| | | | | |].
    + intros dflt. apply dict_set_first.
    + intros c dflt Hc. rewrite dict_get_set. by rewrite decide_False.
    + apply dict_keys_set_in.
    + apply dict_keys_set_notin.
    + apply dict_set_keys_NoDup.
    + intros expenses. rewrite check_budgets_lines.
      eexists. split.
      * apply list_elem_of_fmap. exists (category, limit).
        split; [done|]. apply dict_set_elem.
      * simpl. by rewrite category_spending_get.
Qed.

(** ** The summaries by month and by year *)

Lemma first_seen_elem (l : list string) (k : string) : k ∈ first_seen l ↔ k ∈ l.
Proof.
  induction l as [|x l IH]; simpl; [done|].
  rewrite !elem_of_cons, list_elem_of_filter, IH.
  destruct (decide (k = x)); tauto.
Qed.

Lemma string_ltb_total (a b : string) :
  String.ltb a b = false → String.ltb b a = false → a = b.
Proof.
  unfold String.ltb. rewrite (String.compare_antisym a b).
  destruct (String.compare b a) eqn:Hc; simpl; try done.
  intros _ _. symmetry. by apply String.compare_eq_iff.
Qed.

Lemma StronglySorted_strict (l : list string) :
  StronglySorted (λ a b, String.ltb b a = false) l → NoDup l →
  StronglySorted (λ a b, String.ltb a b = true) l.
Proof.
  induction 1 as [|a l _ IH Hall]; intros Hnd; [constructor|].
  apply NoDup_cons in Hnd as [Ha Hnd]. constructor; [by apply IH|].
  apply Forall_forall. intros b Hb.
  rewrite Forall_forall in Hall. specialize (Hall b Hb).
  destruct (String.ltb a b) eqn:Hab; [done|].
  destruct Ha. by rewrite (string_ltb_total a b).
Qed.

Section ReportFacts.
Context {A : Type} `{Num A}.
Implicit Types (expenses : list (expense A)) (fmt : ymd → string).

Lemma spending_by_Some fmt expenses (d : dict A) :
  spending_by fmt expenses = Some d →
  Forall valid_date expenses
  ∧ d = fold_left (λ d0 item, accumulate d0 (group_key fmt item) (amount item)) expenses [].
Proof.
  unfold spending_by. intros Hd.
  destruct (decide (Forall valid_date expenses)) as [Hall|Hall].
  - rewrite (spending_by_valid fmt [] expenses Hall) in Hd. by injection Hd as <-.
  - by rewrite (spending_by_invalid fmt [] expenses Hall) in Hd.
Qed.

Lemma by_sorted_keys_report fmt expenses :
  report_of fmt expenses
    (by_sorted_keys
       (fold_left (λ d0 item, accumulate d0 (group_key fmt item) (amount item)) expenses [])).
Proof.
  set (d := fold_left _ expenses []).
  assert (Hkeys : dict_keys d = first_seen (group_key fmt <$> expenses)).
  { unfold d. rewrite acc_by_keys. simpl.
    apply filter_all, Forall_forall. intros c _. apply not_elem_of_nil. }
  assert (Hnd : NoDup (dict_keys d)).
  { unfold d. apply acc_by_keys_NoDup. constructor. }
  assert (Hfst : (by_sorted_keys d).*1 = sorted id String.ltb false (dict_keys d)).
  { unfold by_sorted_keys. rewrite <- list_fmap_compose. apply list_fmap_id. }
  unfold report_of. rewrite Hfst. split_and!.
  - apply StronglySorted_strict.
    + apply (sorted_ascending id String.ltb (λ _, True)).
      * apply string_ltb_asym.
      * intros a b c _. apply string_ltb_negtrans.
      * by apply Forall_forall.
    + by rewrite sorted_perm.
  - intros k. rewrite sorted_perm, Hkeys, first_seen_elem, list_elem_of_fmap.
    split; intros (e & ? & ?); by exists e.
  - intros k total (k' & [= -> ->] & _)%list_elem_of_fmap.
    unfold d, py_sum. by rewrite acc_by_get.
Qed.

Lemma report_of_nil fmt : report_of fmt (A:=A) [] [].
Proof.
  split_and!.
  - constructor.
  - intros k. split; [by intros ?%elem_of_nil|]. by intros (e & ?%elem_of_nil & _).
  - by intros k total ?%elem_of_nil.
Qed.

End ReportFacts.

(** X10: [view_monthly_summary] and [view_annual_summary] raise
    [ValueError] exactly when some record has a date that [strptime] refuses;
    on records as [add_expense] lets them in, they return. *)
Theorem summaries_raise_on_bad_dates {A : Type} `{Num A} (expenses : list (expense A)) :
  (view_monthly_summary expenses = None ↔ ¬ Forall valid_date expenses)
  ∧ (view_annual_summary expenses = None ↔ ¬ Forall valid_date expenses)
  ∧ (Forall entered expenses →
     is_Some (view_monthly_summary expenses) ∧ is_Some (view_annual_summary expenses)).
Proof.
  assert (Hview : ∀ fmt,
    (match expenses with [] => Some [] | _ => by_sorted_keys <$> spending_by fmt expenses end
     = None ↔ ¬ Forall valid_date expenses)).
  { intros fmt. destruct expenses as [|e expenses]; [by split; [|intros []]|].
    unfold spending_by.
    destruct (decide (Forall valid_date (e :: expenses))) as [Hall|Hall].
    - by rewrite (spending_by_valid fmt [] _ Hall).
    - by rewrite (spending_by_invalid fmt [] _ Hall). }
  split_and!; [apply Hview..|].
  intros Hall.
  assert (Hdates : Forall valid_date expenses).
  { eapply Forall_impl; [done|]. by intros e (_ & _ & ?). }
  split; apply not_eq_None_Some; intros Hnone;
    by apply (proj1 (Hview _)) in Hnone.
Qed.

Lemma summary_report_of {A : Type} `{Num A} (fmt : ymd → string)
    (expenses : list (expense A)) (lines : list (string * A)) :
  match expenses with [] => Some [] | _ => by_sorted_keys <$> spending_by fmt expenses end
  = Some lines →
  report_of fmt expenses lines.
Proof.
  destruct expenses as [|e expenses].
  - intros [= <-]. apply report_of_nil.
  - destruct (spending_by fmt (e :: expenses)) as [d|] eqn:Hd; [|done].
    intros [= <-]. apply spending_by_Some in Hd as [_ ->].
    apply by_sorted_keys_report.
Qed.

(** X11: when [view_monthly_summary] or [view_annual_summary] returns, its
    lines have the months (or years) in strictly ascending order of their
    text, one line for each month (or year) in which some record falls and
    no other, and the total of a line is the sum of the amounts of the
    records of that month (or year), added in the order of the list. *)
Theorem summaries_report {A : Type} `{Num A} (expenses : list (expense A)) :
  (∀ lines, view_monthly_summary expenses = Some lines →
            report_of strftime_Ym expenses lines)
  ∧ (∀ lines, view_annual_summary expenses = Some lines →
              report_of strftime_Y expenses lines).
Proof. split; intros lines; apply summary_report_of. Qed.

(** ** The files of the profiles *)

Lemma list_ascii_app (s1 s2 : string) :
  String.list_ascii_of_string (s1 +:+ s2)
  = String.list_ascii_of_string s1 ++ String.list_ascii_of_string s2.
Proof. induction s1 as [|a s1 IH]; simpl; [done|]. by rewrite IH. Qed.

Lemma list_ascii_inj (s1 s2 : string) :
  String.list_ascii_of_string s1 = String.list_ascii_of_string s2 → s1 = s2.
Proof.
  intros Heq%(f_equal String.string_of_list_ascii).
  by rewrite !String.string_of_list_ascii_of_string in Heq.
Qed.

Lemma string_app_inj_r (suffix u v : string) : u +:+ suffix = v +:+ suffix → u = v.
Proof.
  intros Heq%(f_equal String.list_ascii_of_string). rewrite !list_ascii_app in Heq.
  by apply app_inv_tail, list_ascii_inj in Heq.
Qed.

Lemma expense_file_path_inj (u v : string) : expense_file_path u = expense_file_path v → u = v.
Proof. apply string_app_inj_r. Qed.

Lemma budget_file_path_inj (u v : string) : budget_file_path u = budget_file_path v → u = v.
Proof. apply string_app_inj_r. Qed.

(** Seven characters from the end, the name of an expense file has an [e]
    and the name of a budget file has a [t]. *)
Lemma expense_file_not_budget (u v : string) : expense_file_path u ≠ budget_file_path v.
Proof.
  unfold expense_file_path, budget_file_path.
  intros Heq%(f_equal String.list_ascii_of_string)%(f_equal reverse).
  rewrite !list_ascii_app, !reverse_app in Heq.
  apply (f_equal (λ l, l !! 6)) in Heq.
  rewrite !lookup_app_l in Heq by (vm_compute; lia).
  by vm_compute in Heq.
Qed.

Section StoreFacts.
Context {A T : Type} `{Codec A T}.
Implicit Types (w : world T) (users : list string).

Lemma empty_default_expense (username : string) :
  empty_default (A:=A) (expense_file_path username) = PList [].
Proof. unfold empty_default, expense_file_path. by rewrite contains_suffix. Qed.

Lemma empty_default_budget (username : string) :
  isalnum username = true → empty_default (A:=A) (budget_file_path username) = PDict [].
Proof.
  intros Halnum. unfold empty_default, budget_file_path.
  rewrite <- (String.string_of_list_ascii_of_string username).
  rewrite budget_file_not_expense, contains_suffix; [done|].
  unfold isalnum in Halnum. by destruct (String.list_ascii_of_string username).
Qed.

Lemma load_data_missing (fs : gmap string T) (filename : string) :
  fs !! filename = None → load_data (A:=A) fs filename = empty_default filename.
Proof. unfold load_data. by intros ->. Qed.

Lemma list_remove_subseteq (u : string) users : list_remove u users ⊆ users.
Proof.
  induction users as [|v users IH]; simpl; [done|].
  case_decide; [by intros x Hx; right|].
  intros x [->|Hx]%elem_of_cons; [left | right; by apply IH].
Qed.

Lemma list_remove_registry (u : string) users :
  registry_ok users → registry_ok (list_remove u users).
Proof.
  intros [Hnd Hall]. split.
  - clear Hall. induction Hnd as [|v users Hv Hnd IH]; simpl; [constructor|].
    case_decide; [done|]. constructor; [|done].
    intros Hin. apply Hv. by apply (list_remove_subseteq u).
  - apply Forall_forall. intros v Hv%list_remove_subseteq.
    by apply (proj1 (Forall_forall _ _) Hall).
Qed.

Lemma list_remove_other (u v : string) users : v ≠ u → v ∈ users → v ∈ list_remove u users.
Proof.
  intros Hne. induction users as [|x users IH]; simpl; [done|].
  intros [->|Hin]%elem_of_cons.
  - rewrite decide_False by done. left.
  - case_decide; [done|]. right. by apply IH.
Qed.

End StoreFacts.

(** X12: a reset confirmed with [YES] removes the two files of the user, so
    that the next load of the expense file gives the empty list and, for an
    alphanumeric name, the next load of the budget file the empty
    dictionary, which is what [main] then holds in memory; the registry, the
    active user and every file of another name are as before, and a second
    reset changes nothing more.  Any other answer changes nothing. *)
Theorem reset_user_data_clears {A T : Type} `{Codec A T}
    (username : string) (w : world T) :
  (∀ confirm, confirm ≠ "YES" → reset_user_data confirm username w = (false, w))
  ∧ ∃ w' : world T,
      reset_user_data "YES" username w = (true, w')
      ∧ load_data (A:=A) (files w') (expense_file_path username) = PList []
      ∧ (isalnum username = true →
         load_data (A:=A) (files w') (budget_file_path username) = PDict [])
      ∧ (∀ filename, filename ≠ expense_file_path username →
           filename ≠ budget_file_path username →
           files w' !! filename = files w !! filename)
      ∧ files w' !! USERS_FILE = files w !! USERS_FILE
      ∧ CURRENT_USERNAME w' = CURRENT_USERNAME w
      ∧ CURRENT_EXPENSE_FILE w' = CURRENT_EXPENSE_FILE w
      ∧ CURRENT_BUDGET_FILE w' = CURRENT_BUDGET_FILE w
      ∧ reset_user_data "YES" username w' = (true, w').
Proof.
  split.
  - intros confirm Hno. unfold reset_user_data. by rewrite bool_decide_eq_false_2.
  - eexists. split; [done|]. simpl. unfold remove_if_exists. split_and!; try done.
    + rewrite load_data_missing; [apply empty_default_expense|].
      rewrite lookup_delete_ne by (apply not_eq_sym, expense_file_not_budget).
      apply lookup_delete_eq.
    + intros Halnum. rewrite load_data_missing; [by apply empty_default_budget|].
      apply lookup_delete_eq.
    + intros filename He Hb. by rewrite !lookup_delete_ne.
    + rewrite !lookup_delete_ne; [done|..].
      * apply expense_file_not_users.
      * apply budget_file_not_users.
    + unfold reset_user_data. simpl. unfold remove_if_exists. do 2 f_equal.
      rewrite (delete_delete (delete _ (delete _ _))), delete_delete_eq.
      by rewrite (delete_delete (delete _ _)), delete_delete_eq.
Qed.

(** X13: the profiles are separate.  Deleting a profile, resetting its data
    or creating it touches no file of a user of another name, whatever is
    answered to the confirmation, and deleting a profile leaves every other
    name in the registry. *)
Theorem profiles_are_separate {A T : Type} `{Codec A T}
    (username other : string) (w : world T) :
  other ≠ username →
  (∀ confirm users,
     same_profile other w (delete_user_profile (A:=A) confirm users username w).2
     ∧ (other ∈ users →
        other ∈ (delete_user_profile (A:=A) confirm users username w).1.2))
  ∧ (∀ confirm, same_profile other w (reset_user_data confirm username w).2)
  ∧ (∀ users, same_profile other w (create_user (A:=A) username users w).2).
Proof.
  intros Hother.
  assert (He : expense_file_path other ≠ expense_file_path username)
    by (by intros ?%expense_file_path_inj).
  assert (Hb : budget_file_path other ≠ budget_file_path username)
    by (by intros ?%budget_file_path_inj).
  pose proof (expense_file_not_budget other username) as Heb.
  pose proof (not_eq_sym (expense_file_not_budget username other)) as Hbe.
  pose proof (expense_file_not_users other) as Heu.
  pose proof (budget_file_not_users other) as Hbu.
  split_and!.
  - intros confirm users. unfold delete_user_profile, same_profile, save_data, remove_if_exists.
    repeat case_bool_decide; simpl; split_and!; try done;
      rewrite ?lookup_insert_ne, ?lookup_delete_ne by done; try done.
    all: intros Hin; by apply list_remove_other.
  - intros confirm. unfold reset_user_data, same_profile, remove_if_exists.
    case_bool_decide; simpl; [|done]. by rewrite !lookup_delete_ne.
  - intros users. unfold create_user, same_profile, save_data.
    destruct (isalnum username); simpl; [|done].
    case_bool_decide; simpl; [done|]. by rewrite !lookup_insert_ne.
Qed.

Lemma profiles_are_separate_witness :
  (∀ confirm users,
     same_profile "ann" (World "" "" None ∅)
       (delete_user_profile (A:=Z) (T:=option (pyval Z)) confirm users "bob"
          (World "" "" None ∅)).2
     ∧ ("ann" ∈ users →
        "ann" ∈ (delete_user_profile (A:=Z) (T:=option (pyval Z)) confirm users "bob"
                   (World "" "" None ∅)).1.2))
  ∧ (∀ confirm,
       same_profile "ann" (World "" "" None ∅)
         (reset_user_data (T:=option (pyval Z)) confirm "bob" (World "" "" None ∅)).2)
  ∧ (∀ users,
       same_profile "ann" (World "" "" None ∅)
         (create_user (A:=Z) (T:=option (pyval Z)) "bob" users (World "" "" None ∅)).2).
Proof. by apply (profiles_are_separate (A:=Z) "bob" "ann" (World "" "" None ∅)). Defined.

(** X14: a registry of distinct alphanumeric names stays one under
    [create_user] and [delete_user_profile], whatever name is typed and
    whatever is answered. *)
Theorem registry_kept {A T : Type} `{Codec A T} (users : list string) (w : world T) :
  registry_ok users →
  (∀ name, registry_ok (create_user (A:=A) name users w).1.2)
  ∧ (∀ confirm name, registry_ok (delete_user_profile (A:=A) confirm users name w).1.2).
Proof.
  intros Hok. split.
  - intros name. unfold create_user.
    destruct (isalnum name) eqn:Hname; simpl; [|done].
    case_bool_decide as Hin; simpl; [done|].
    destruct Hok as [Hnd Hall]. split.
    + apply NoDup_app. split_and!; [done| |apply NoDup_singleton].
      by intros v Hv ->%list_elem_of_singleton.
    + apply Forall_app. split; [done|]. by constructor.
  - intros confirm name. unfold delete_user_profile.
    repeat case_bool_decide; simpl; try done; by apply list_remove_registry.
Qed.

Lemma registry_kept_witness :
  (∀ name, registry_ok
             (create_user (A:=Z) (T:=option (pyval Z)) name ["ann"; "bob"]
                (World "" "" None ∅)).1.2)
  ∧ (∀ confirm name,
       registry_ok
         (delete_user_profile (A:=Z) (T:=option (pyval Z)) confirm ["ann"; "bob"] name
            (World "" "" None ∅)).1.2).
Proof.
  apply (registry_kept (A:=Z) ["ann"; "bob"] (World "" "" None ∅)).
  split.
  - by apply (bool_decide_unpack _).
  - by repeat constructor.
Defined.

(** X15: the file names the main loop works on are always those of the
    active user: this holds at the start, when no user is active, and
    selecting, creating or deleting a user and resetting data keep it. *)
Theorem current_files_follow_user {A T : Type} `{Codec A T} (users : list string)
    (w : world T) :
  consistent w →
  (∀ choice w', select_user choice users w = UserSelected w' → consistent w')
  ∧ (∀ name, consistent (create_user (A:=A) name users w).2)
  ∧ (∀ confirm name, consistent (delete_user_profile (A:=A) confirm users name w).2)
  ∧ (∀ confirm name, consistent (reset_user_data confirm name w).2)
  ∧ (∀ fs : gmap string T, consistent (World "" "" None fs)).
Proof.
  intros Hw. split_and!.
  - intros choice w'. unfold select_user.
    case_bool_decide; [done|]. destruct (isdigit choice); [|done].
    destruct (py_int choice) as [n|]; [|done].
    case_bool_decide; [|done].
    destruct (users !! Z.to_nat (n - 1)) as [username|]; [|done].
    intros [= <-] u. simpl. by intros [= <-].
  - intros name. unfold create_user.
    destruct (isalnum name); simpl; [|done].
    case_bool_decide; simpl; [done|]. intros u. simpl. by intros [= <-].
  - intros confirm name. unfold delete_user_profile.
    repeat case_bool_decide; simpl; try done; intros u; simpl; done.
  - intros confirm name. unfold reset_user_data. by case_bool_decide.
  - intros fs u. simpl. done.
Qed.

Lemma current_files_follow_user_witness :
  (∀ choice w',
     select_user choice ["ann"; "bob"] (World "" "" None (∅ : gmap string (option (pyval Z))))
     = UserSelected w' → consistent w')
  ∧ (∀ name, consistent
               (create_user (A:=Z) name ["ann"; "bob"]
                  (World "" "" None (∅ : gmap string (option (pyval Z))))).2)
  ∧ (∀ confirm name,
       consistent
         (delete_user_profile (A:=Z) confirm ["ann"; "bob"] name
            (World "" "" None (∅ : gmap string (option (pyval Z))))).2)
  ∧ (∀ confirm name,
       consistent
         (reset_user_data confirm name
            (World "" "" None (∅ : gmap string (option (pyval Z))))).2)
  ∧ (∀ fs : gmap string (option (pyval Z)), consistent (World "" "" None fs)).
Proof.
  apply (current_files_follow_user (A:=Z) ["ann"; "bob"]
           (World "" "" None (∅ : gmap string (option (pyval Z))))).
  intros u. simpl. done.
Defined.

(** ** The user menu *)

(** X16: selecting a user.  A selection makes a registered name the active
    user, the one on the line of the number typed, sets the two file names to
    those of that name and touches no file.  With no user there is nothing to
    select.  The selection raises [ValueError] exactly when there are users
    and the text typed is one that [isdigit] accepts and [int] refuses. *)
Theorem select_user_selects {T : Type} (user_choice : string) (users : list string)
    (w : world T) :
  (∀ w', select_user user_choice users w = UserSelected w' →
     ∃ (n : Z) (username : string),
       py_int user_choice = Some n
       ∧ (1 ≤ n ≤ Z.of_nat (length users))%Z
       ∧ users !! Z.to_nat (n - 1) = Some username
       ∧ username ∈ users
       ∧ w' = World (expense_file_path username) (budget_file_path username)
                    (Some username) (files w))
  ∧ (select_user user_choice users w = NoUsers ↔ users = [])
  ∧ (select_user user_choice users w = SelectRaised
     ↔ users ≠ [] ∧ isdigit user_choice = true ∧ int_refuses user_choice).
Proof.
  unfold select_user. split_and!.
  - intros w'. case_bool_decide; [done|].
    destruct (isdigit user_choice); [|done].
    destruct (py_int user_choice) as [n|]; [|done].
    case_bool_decide as Hrange; [|done].
    destruct (users !! Z.to_nat (n - 1)) as [username|] eqn:Hu; [|done].
    intros [= <-]. exists n, username. split_and!; try done; try lia.
    by apply list_elem_of_lookup_2 in Hu.
  - case_bool_decide as Hnil; [done|]. split; [|done].
    destruct (isdigit user_choice); [|done].
    destruct (py_int user_choice) as [n|]; [|done].
    case_bool_decide; [|done].
    by destruct (users !! Z.to_nat (n - 1)).
  - case_bool_decide as Hnil; [by split; [|intros []]|].
    destruct (isdigit user_choice) eqn:Hd; [|by split; [|intros (_ & ? & _)]].
    pose proof (py_int_refuses user_choice Hd) as Hint.
    destruct (py_int user_choice) as [n|]; [|by split; [intros _; split_and!; [..|apply Hint]|]].
    assert (Hno : ¬ int_refuses user_choice) by (by intros ?%Hint).
    case_bool_decide as Hrange; [|by split; [|intros (_ & _ & ?)]].
    assert (Hlt : Z.to_nat (n - 1) < length users) by lia.
    apply lookup_lt_is_Some_2 in Hlt as [username ->].
    by split; [|intros (_ & _ & ?)].
Qed.

(** X17: deleting from the menu.  The name handed to [delete_user_profile]
    is the one on the line of the number typed, so the outcome is never
    [UnknownUser].  When [json] reads back the registry it wrote, and the
    registry in memory has distinct names and is what the registry file
    holds, then after a confirmed deletion the registry loaded again is the
    old one without the name, the two files of the name are gone and no
    number selects the name any more; after any other answer nothing has
    changed. *)
Theorem menu_delete_reloads {A T : Type} `{Codec A T}
    (user_to_delete_idx confirm : string) (users : list string) (w : world T)
    (o : delete_outcome) (reloaded : pyval A) (w' : world T) :
  (∀ l : list string, json_load (json_dump (users_value (A:=A) l)) = Some (users_value l)) →
  NoDup users →
  load_data (files w) USERS_FILE = users_value (A:=A) users →
  menu_delete user_to_delete_idx confirm users w = DeleteDone o reloaded w' →
  ∃ (n : Z) (username : string),
    py_int user_to_delete_idx = Some n
    ∧ users !! Z.to_nat (n - 1) = Some username
    ∧ o ≠ UnknownUser
    ∧ (confirm = "DELETE USER" →
       o = ProfileDeleted
       ∧ reloaded = users_value (list_remove username users)
       ∧ files w' !! expense_file_path username = None
       ∧ files w' !! budget_file_path username = None
       ∧ ∀ choice w'', select_user choice (list_remove username users) w' = UserSelected w'' →
                       CURRENT_USERNAME w'' ≠ Some username)
    ∧ (confirm ≠ "DELETE USER" → o = DeletionRefused ∧ w' = w ∧ reloaded = users_value users).
Proof.
  intros Hjson Hnd Hsync. unfold menu_delete.
  case_bool_decide; [done|]. case_bool_decide; [done|].
  destruct (isdigit user_to_delete_idx); [|done].
  destruct (py_int user_to_delete_idx) as [n|]; [|done].
  case_bool_decide as Hrange; [|done].
  destruct (users !! Z.to_nat (n - 1)) as [username|] eqn:Hu; [|done].
  assert (Hin : username ∈ users) by (by apply list_elem_of_lookup_2 in Hu).
  unfold delete_user_profile.
  case_bool_decide as Hconfirm.
  - rewrite bool_decide_eq_true_2 by done. intros [= <- <- <-].
    exists n, username. split_and!; [done..| |done].
    intros _. simpl. unfold save_data, remove_if_exists. split_and!; [done| | | |].
    + unfold load_data. by rewrite lookup_insert_eq, Hjson.
    + rewrite lookup_insert_ne by (apply not_eq_sym, expense_file_not_users).
      rewrite lookup_delete_ne by (apply not_eq_sym, expense_file_not_budget).
      apply lookup_delete_eq.
    + rewrite lookup_insert_ne by (apply not_eq_sym, budget_file_not_users).
      apply lookup_delete_eq.
    + intros choice w'' Hsel.
      assert (Hsel' : ∃ u, u ∈ list_remove username users ∧ CURRENT_USERNAME w'' = Some u).
      { revert Hsel. unfold select_user. case_bool_decide; [done|].
        destruct (isdigit choice); [|done].
        destruct (py_int choice) as [m|]; [|done].
        case_bool_decide; [|done].
        destruct (list_remove username users !! Z.to_nat (m - 1)) as [u|] eqn:Hm; [|done].
        intros [= <-]. exists u. split; [|done]. by apply list_elem_of_lookup_2 in Hm. }
      destruct Hsel' as (u & Hu' & ->). intros [= ->].
      by apply (list_remove_NoDup username users).
  - intros [= <- <- <-]. exists n, username. by split_and!.
Qed.

Lemma menu_delete_reloads_witness :
  ∃ (n : Z) (username : string),
    py_int "2" = Some n
    ∧ ["ann"; "bob"] !! Z.to_nat (n - 1) = Some username
    ∧ ProfileDeleted ≠ UnknownUser
    ∧ ("DELETE USER" = "DELETE USER" →
       ProfileDeleted = ProfileDeleted
       ∧ users_value (A:=Z) ["ann"] = users_value (list_remove username ["ann"; "bob"])
       ∧ files (World "" "" None {[USERS_FILE := Some (users_value (A:=Z) ["ann"])]})
           !! expense_file_path username = None
       ∧ files (World "" "" None {[USERS_FILE := Some (users_value (A:=Z) ["ann"])]})
           !! budget_file_path username = None
       ∧ ∀ choice w'',
           select_user choice (list_remove username ["ann"; "bob"])
             (World "" "" None {[USERS_FILE := Some (users_value (A:=Z) ["ann"])]})
           = UserSelected w'' →
           CURRENT_USERNAME w'' ≠ Some username)
    ∧ ("DELETE USER" ≠ "DELETE USER" →
       ProfileDeleted = DeletionRefused
       ∧ World "" "" None {[USERS_FILE := Some (users_value (A:=Z) ["ann"])]}
         = World "" "" None {[USERS_FILE := Some (users_value (A:=Z) ["ann"; "bob"])]}
       ∧ users_value (A:=Z) ["ann"] = users_value ["ann"; "bob"]).
Proof.
  apply (menu_delete_reloads (A:=Z) "2" "DELETE USER" ["ann"; "bob"]
           (World "" "" None {[USERS_FILE := Some (users_value (A:=Z) ["ann"; "bob"])]})).
  - done.
  - by apply (bool_decide_unpack _).
  - done.
  - by vm_compute.
Defined.

(** X18: [create_user] never touches the data files of the name typed,
    whatever the registry and whatever the outcome, so a user that is created
    (an alphanumeric name that is not in the registry) becomes the active
    user and starts with whatever the two files of that name hold: the next
    loads of the main loop return what loading the files of the name returned
    before the creation.  After a confirmed deletion they hold nothing: creating the
    deleted name again succeeds on a registry of distinct names, and the new
    profile loads an empty list of expenses and an empty budget
    dictionary. *)
Theorem deleted_profile_starts_empty {A T : Type} `{Codec A T}
    (users : list string) (name : string) (w : world T) :
  same_profile name w (create_user (A:=A) name users w).2
  ∧ (isalnum name = true → name ∉ users →
     ∃ w' : world T,
       create_user (A:=A) name users w = (UserCreated, users ++ [name], w')
       ∧ CURRENT_USERNAME w' = Some name
       ∧ same_profile name w w'
       ∧ load_data (A:=A) (files w') (CURRENT_EXPENSE_FILE w')
         = load_data (files w) (expense_file_path name)
       ∧ load_data (A:=A) (files w') (CURRENT_BUDGET_FILE w')
         = load_data (files w) (budget_file_path name))
  ∧ (NoDup users → name ∈ users → isalnum name = true →
     ∃ (users' : list string) (w' w'' : world T),
       delete_user_profile (A:=A) "DELETE USER" users name w = (ProfileDeleted, users', w')
       ∧ create_user (A:=A) name users' w' = (UserCreated, users' ++ [name], w'')
       ∧ CURRENT_USERNAME w'' = Some name
       ∧ load_data (A:=A) (files w'') (CURRENT_EXPENSE_FILE w'') = PList []
       ∧ load_data (A:=A) (files w'') (CURRENT_BUDGET_FILE w'') = PDict []).
Proof.
  split_and!.
  - unfold create_user, same_profile, save_data.
    destruct (isalnum name); simpl; [|done].
    case_bool_decide; simpl; [done|].
    rewrite !lookup_insert_ne; [done|..].
    + apply not_eq_sym, budget_file_not_users.
    + apply not_eq_sym, expense_file_not_users.
  - intros Halnum Hnew. unfold create_user. rewrite Halnum. simpl.
    rewrite bool_decide_eq_false_2 by done.
    eexists. split; [done|]. split; [done|].
    unfold same_profile, load_data, save_data. simpl.
    rewrite !lookup_insert_ne; [done|..].
    + apply not_eq_sym, budget_file_not_users.
    + apply not_eq_sym, expense_file_not_users.
  - intros Hnd Hin Halnum.
    unfold delete_user_profile, create_user.
    rewrite !bool_decide_eq_true_2 by done. rewrite Halnum. simpl.
    do 3 eexists. split; [done|].
    rewrite (bool_decide_eq_false_2 (name ∈ list_remove name users))
      by (by apply list_remove_NoDup).
    split_and!; [done..| |]; simpl; unfold save_data, remove_if_exists.
    + rewrite load_data_missing; [apply empty_default_expense|].
      rewrite !lookup_insert_ne by (apply not_eq_sym, expense_file_not_users).
      rewrite lookup_delete_ne by (apply not_eq_sym, expense_file_not_budget).
      apply lookup_delete_eq.
    + rewrite load_data_missing; [by apply empty_default_budget|].
      rewrite !lookup_insert_ne by (apply not_eq_sym, budget_file_not_users).
      apply lookup_delete_eq.
Qed.

(** A name that is created while an expense file of that name is there starts
    with the records of that file. *)
Lemma deleted_profile_starts_empty_witness :
  ∃ w' : world (option (pyval Z)),
    create_user (A:=Z) "bob" ["ann"]
      (World "" "" None {["bob_expenses.json" := Some (PList [PNone])]})
    = (UserCreated, ["ann"] ++ ["bob"], w')
    ∧ CURRENT_USERNAME w' = Some "bob"
    ∧ same_profile "bob" (World "" "" None {["bob_expenses.json" := Some (PList [PNone])]}) w'
    ∧ load_data (A:=Z) (files w') (CURRENT_EXPENSE_FILE w')
      = load_data
          (files (World "" "" None {["bob_expenses.json" := Some (PList [PNone])]}))
          (expense_file_path "bob")
    ∧ load_data (A:=Z) (files w') (CURRENT_BUDGET_FILE w')
      = load_data
          (files (World "" "" None {["bob_expenses.json" := Some (PList [PNone])]}))
          (budget_file_path "bob").
Proof.
  apply (proj1 (proj2 (deleted_profile_starts_empty (A:=Z) (T:=option (pyval Z))
           ["ann"] "bob"
           (World "" "" None {["bob_expenses.json" := Some (PList [PNone])]})))).
  - done.
  - apply (bool_decide_unpack _). by vm_compute.
Defined.

(** ** The loop of the editor and the loop of [main] *)

Section ManageLoop.
Context {A : Type} `{Num A}.
Implicit Types (expenses result : list (expense A)) (turns : list (manage_turn A)).

Lemma manage_loop_not_raised expenses turns : manage_loop expenses turns ≠ Raised.
Proof.
  revert expenses. induction turns as [|turn rest IH]; intros expenses; simpl; [done|].
  destruct turn as [|[number|] confirm|[number|] new_amount new_category new_date|];
    try done.
  - by destruct (manage_delete expenses number confirm) as [[] ?].
  - by destruct (manage_edit expenses number new_amount new_category new_date) as [[] ?].
Qed.

Lemma manage_loop_answered expenses turns result :
  manage_loop expenses turns = Answered result →
  result = expenses
  ∨ (∃ i e, expenses !! i = Some e ∧ result = delete i expenses)
  ∨ (∃ number new_amount new_category new_date i e,
       TurnEdit (Some number) new_amount new_category new_date ∈ turns
       ∧ expenses !! i = Some e
       ∧ result = <[i := amend e new_amount new_category new_date]> expenses).
Proof.
  induction turns as [|turn rest IH]; simpl; [done|].
  assert (Hrest : manage_loop expenses rest = Answered result →
    result = expenses
    ∨ (∃ i e, expenses !! i = Some e ∧ result = delete i expenses)
    ∨ (∃ number new_amount new_category new_date i e,
         TurnEdit (Some number) new_amount new_category new_date ∈ turn :: rest
         ∧ expenses !! i = Some e
         ∧ result = <[i := amend e new_amount new_category new_date]> expenses)).
  { intros [->|[Hdel|(n & a & c & d & i & e & Hin & He & ->)]]%IH;
      [by left | by right; left |].
    right; right. exists n, a, c, d, i, e. split_and!; [by right | done..]. }
  destruct turn as [|[number|] confirm|[number|] new_amount new_category new_date|];
    try done.
  - intros [= <-]. by left.
  - destruct (manage_delete expenses number confirm) as [o expenses'] eqn:Hdel.
    assert (Hcases : (∃ e, o = Deleted e) ∨ ∀ e, o ≠ Deleted e).
    { destruct o; try (by right); left; by eexists. }
    destruct Hcases as [[e ->]|Ho].
    + intros [= <-]. apply manage_delete_deleted in Hdel as (_ & i & He & ->).
      right; left. by exists i, e.
    + apply manage_delete_unchanged in Hdel as ->; [|done].
      destruct o as [| | |e|]; try exact Hrest. by destruct (Ho e).
  - destruct (manage_edit expenses number new_amount new_category new_date)
      as [o expenses'] eqn:Hedit.
    assert (Hcases : o = Updated ∨ o ≠ Updated) by (destruct o; by (left + right)).
    destruct Hcases as [->|Ho].
    + intros [= <-]. apply manage_edit_updated in Hedit as (i & e & He & ->).
      right; right. exists number, new_amount, new_category, new_date, i, e.
      split_and!; [left | done..].
    + apply manage_edit_unchanged in Hedit as ->; [|done].
      destruct o; try exact Hrest. done.
Qed.

Lemma manage_loop_entered expenses turns result :
  Forall entered expenses → Forall valid_turn turns →
  manage_loop expenses turns = Answered result → Forall entered result.
Proof.
  intros Hall Hturns
    [->|[(i & e & _ & ->)|(n & a & c & d & i & e & Hin & He & ->)]]%manage_loop_answered;
    [done | by apply delete_entered |].
  apply insert_amend_entered; [done..|].
  by apply (proj1 (Forall_forall _ _) Hturns _ Hin).
Qed.

End ManageLoop.

(** X19: a visit to the editor never raises, and it changes at most one
    record however many turns it takes: when [manage_expenses] returns, the
    list is the one it was given, or that list without one of its records, or
    that list with one record amended by the answers of an edit turn.  Well
    formed records stay well formed when the new dates are dates that
    [strptime] accepts, and with no record at all the editor returns at
    once. *)
Theorem manage_expenses_one_change {A : Type} `{Num A}
    (expenses : list (expense A)) (turns : list (manage_turn A)) :
  manage_expenses expenses turns ≠ Raised
  ∧ manage_expenses [] turns = Answered []
  ∧ ∀ result, manage_expenses expenses turns = Answered result →
      (result = expenses
       ∨ (∃ i e, expenses !! i = Some e ∧ result = delete i expenses)
       ∨ (∃ number new_amount new_category new_date i e,
            TurnEdit (Some number) new_amount new_category new_date ∈ turns
            ∧ expenses !! i = Some e
            ∧ result = <[i := amend e new_amount new_category new_date]> expenses))
      ∧ (Forall entered expenses → Forall valid_turn turns → Forall entered result).
Proof.
  unfold manage_expenses. split_and!; [|done|].
  - destruct expenses; [done|]. apply manage_loop_not_raised.
  - intros result. destruct expenses as [|e0 expenses].
    + intros [= <-]. split; [by left | done].
    + intros Hloop. split; [by apply manage_loop_answered|].
      intros Hall Hturns. by apply (manage_loop_entered (e0 :: expenses) turns).
Qed.

(** Two file names that differ: those of an expense file, a budget file and
    the registry, or the files of two names. *)
Ltac path_neq :=
  let Heq := fresh in
  intros Heq;
  first [ by apply expense_file_not_budget in Heq
        | by symmetry in Heq; apply expense_file_not_budget in Heq
        | by apply expense_file_not_users in Heq
        | by symmetry in Heq; apply expense_file_not_users in Heq
        | by apply budget_file_not_users in Heq
        | by symmetry in Heq; apply budget_file_not_users in Heq
        | apply expense_file_path_inj in Heq; congruence
        | apply budget_file_path_inj in Heq; congruence ].

Section MainFacts.
Context {A T : Type} `{Num A} `{Codec A T}.

Lemma load_data_save_ne (x : pyval A) (filename filename' : string) (fs : gmap string T) :
  filename' ≠ filename →
  load_data (A:=A) (save_data x filename fs) filename' = load_data fs filename'.
Proof. intros Hne. unfold load_data, save_data. by rewrite lookup_insert_ne. Qed.

Lemma load_data_save_eq (x : pyval A) (filename : string) (fs : gmap string T) :
  json_load (json_dump x) = Some x → load_data (save_data x filename fs) filename = x.
Proof. intros Hjson. unfold load_data, save_data. by rewrite lookup_insert_eq, Hjson. Qed.

Lemma isalnum_nonempty (username : string) : isalnum username = true → username ≠ "".
Proof. by intros Halnum ->. Qed.

End MainFacts.

(** X20: one turn of the loop of [main], for an active user with an
    alphanumeric name whose two files hold a list of records and a dictionary
    of limits, and a [json] that reads back what it writes.  When the turn
    returns, the active user and the file names are as before; the registry
    file and the files of every other name are untouched; and what the next
    turn loads is what this turn had in memory at its end: the list after
    [add_expense] or [manage_expenses] with the budgets as they were, the
    budgets after [set_budget] with the list as it was, nothing at all after
    a confirmed reset, and everything as it was after a reset that was not
    confirmed. *)
Theorem main_turn_saves {A T : Type} `{Num A} `{Codec A T}
    (now : ymd) (choice : main_choice A) (expenses : list (expense A)) (budgets : dict A)
    (w w' : world T) (username : string) :
  (∀ l : list (expense A), json_load (json_dump (expenses_value l)) = Some (expenses_value l)) →
  (∀ d : dict A, json_load (json_dump (budgets_value d)) = Some (budgets_value d)) →
  consistent w →
  CURRENT_USERNAME w = Some username →
  isalnum username = true →
  load_data (files w) (CURRENT_EXPENSE_FILE w) = expenses_value expenses →
  load_data (files w) (CURRENT_BUDGET_FILE w) = budgets_value budgets →
  main_turn now choice expenses budgets w = Answered w' →
  CURRENT_USERNAME w' = Some username
  ∧ consistent w'
  ∧ files w' !! USERS_FILE = files w !! USERS_FILE
  ∧ (∀ other, other ≠ username → same_profile other w w')
  ∧ ∃ (expenses' : list (expense A)) (budgets' : dict A),
      load_data (files w') (CURRENT_EXPENSE_FILE w') = expenses_value expenses'
      ∧ load_data (files w') (CURRENT_BUDGET_FILE w') = budgets_value budgets'
      ∧ match choice with
        | Choice1 amount_answers category_answers date_answers =>
            add_expense expenses amount_answers category_answers now date_answers
            = Answered expenses'
            ∧ budgets' = budgets
        | Choice3 turns =>
            manage_expenses expenses turns = Answered expenses' ∧ budgets' = budgets
        | Choice4 category answers =>
            expenses' = expenses ∧ set_budget budgets category answers = Answered budgets'
        | Choice6 confirm =>
            if bool_decide (confirm = "YES") then expenses' = [] ∧ budgets' = []
            else expenses' = expenses ∧ budgets' = budgets
        end.
Proof.
  intros Hje Hjb Hw Hu Halnum Hexp Hbud.
  destruct (Hw username Hu) as [He Hb].
  pose proof (isalnum_nonempty username Halnum) as Hne.
  pose proof (expense_file_not_budget username username) as Heb.
  pose proof (expense_file_not_users username) as Heu.
  pose proof (budget_file_not_users username) as Hbu.
  assert (Hsaved_e : ∀ expenses',
    let w1 := with_files w (save_data (expenses_value expenses')
                              (CURRENT_EXPENSE_FILE w) (files w)) in
    CURRENT_USERNAME w1 = Some username ∧ consistent w1
    ∧ files w1 !! USERS_FILE = files w !! USERS_FILE
    ∧ (∀ other, other ≠ username → same_profile other w w1)
    ∧ load_data (files w1) (CURRENT_EXPENSE_FILE w1) = expenses_value expenses'
    ∧ load_data (files w1) (CURRENT_BUDGET_FILE w1) = budgets_value budgets).
  { intros expenses'. simpl. split_and!; [done|done| | | |].
    - unfold save_data. rewrite He. by rewrite lookup_insert_ne by path_neq.
    - intros other Hother. unfold same_profile, save_data. simpl. rewrite He.
      by rewrite !lookup_insert_ne by path_neq.
    - by apply load_data_save_eq.
    - rewrite load_data_save_ne; [done|]. rewrite He, Hb. path_neq. }
  assert (Hsaved_b : ∀ budgets',
    let w1 := with_files w (save_data (budgets_value budgets')
                              (CURRENT_BUDGET_FILE w) (files w)) in
    CURRENT_USERNAME w1 = Some username ∧ consistent w1
    ∧ files w1 !! USERS_FILE = files w !! USERS_FILE
    ∧ (∀ other, other ≠ username → same_profile other w w1)
    ∧ load_data (files w1) (CURRENT_EXPENSE_FILE w1) = expenses_value expenses
    ∧ load_data (files w1) (CURRENT_BUDGET_FILE w1) = budgets_value budgets').
  { intros budgets'. simpl. split_and!; [done|done| | | |].
    - unfold save_data. rewrite Hb. by rewrite lookup_insert_ne by path_neq.
    - intros other Hother. unfold same_profile, save_data. simpl. rewrite Hb.
      by rewrite !lookup_insert_ne by path_neq.
    - rewrite load_data_save_ne; [done|]. rewrite He, Hb. path_neq.
    - by apply load_data_save_eq. }
  unfold main_turn. rewrite Hu. rewrite bool_decide_eq_false_2 by done.
  destruct choice as [amount_answers category_answers date_answers|turns
                     |category answers|confirm].
  - destruct (add_expense expenses amount_answers category_answers now date_answers)
      as [expenses'| |] eqn:Hadd; [|done..].
    intros [= <-]. destruct (Hsaved_e expenses') as (? & ? & ? & ? & ? & ?).
    split_and!; [done..|]. by exists expenses', budgets.
  - destruct (manage_expenses expenses turns) as [expenses'| |] eqn:Hmanage; [|done..].
    intros [= <-]. destruct (Hsaved_e expenses') as (? & ? & ? & ? & ? & ?).
    split_and!; [done..|]. by exists expenses', budgets.
  - destruct (set_budget budgets category answers) as [budgets'| |] eqn:Hset; [|done..].
    intros [= <-]. destruct (Hsaved_b budgets') as (? & ? & ? & ? & ? & ?).
    split_and!; [done..|]. by exists expenses, budgets'.
  - intros [= <-]. unfold reset_user_data. case_bool_decide as Hyes; simpl.
    + unfold remove_if_exists. split_and!; [done|done| | |].
      * by rewrite !lookup_delete_ne by path_neq.
      * intros other Hother. unfold same_profile. simpl.
        by rewrite !lookup_delete_ne by path_neq.
      * exists [], []. rewrite He, Hb. split_and!; [| |done..].
        -- rewrite load_data_missing; [apply empty_default_expense|].
           rewrite lookup_delete_ne by path_neq.
           apply lookup_delete_eq.
        -- rewrite load_data_missing; [by apply empty_default_budget|].
           apply lookup_delete_eq.
    + split_and!; try done. by exists expenses, budgets.
Qed.

Lemma main_turn_saves_witness :
  CURRENT_USERNAME
    (World "bob_expenses.json" "bob_budgets.json" (Some "bob")
       {["bob_expenses.json" := Some (expenses_value [Expense 5%Z "Food" "2024-03-01"])]})
  = Some "bob"
  ∧ consistent
      (World "bob_expenses.json" "bob_budgets.json" (Some "bob")
         {["bob_expenses.json" := Some (expenses_value [Expense 5%Z "Food" "2024-03-01"])]})
  ∧ files
      (World "bob_expenses.json" "bob_budgets.json" (Some "bob")
         {["bob_expenses.json" := Some (expenses_value [Expense 5%Z "Food" "2024-03-01"])]})
      !! USERS_FILE
    = files (World "bob_expenses.json" "bob_budgets.json" (Some "bob") ∅) !! USERS_FILE
  ∧ (∀ other, other ≠ "bob" →
       same_profile other (World "bob_expenses.json" "bob_budgets.json" (Some "bob") ∅)
         (World "bob_expenses.json" "bob_budgets.json" (Some "bob")
            {["bob_expenses.json" := Some (expenses_value [Expense 5%Z "Food" "2024-03-01"])]}))
  ∧ ∃ (expenses' : list (expense Z)) (budgets' : dict Z),
      load_data
        (files
           (World "bob_expenses.json" "bob_budgets.json" (Some "bob")
              {["bob_expenses.json" :=
                  Some (expenses_value [Expense 5%Z "Food" "2024-03-01"])]}))
        "bob_expenses.json" = expenses_value expenses'
      ∧ load_data
          (files
             (World "bob_expenses.json" "bob_budgets.json" (Some "bob")
                {["bob_expenses.json" :=
                    Some (expenses_value [Expense 5%Z "Food" "2024-03-01"])]}))
          "bob_budgets.json" = budgets_value budgets'
      ∧ add_expense [] [Some 5%Z] ["1"] (Ymd 2024 3 1) ["today"] = Answered expenses'
        ∧ budgets' = [].
Proof.
  apply (main_turn_saves (A:=Z) (Ymd 2024 3 1) (Choice1 [Some 5%Z] ["1"] ["today"]) [] []
           (World "bob_expenses.json" "bob_budgets.json" (Some "bob") ∅)
           (World "bob_expenses.json" "bob_budgets.json" (Some "bob")
              {["bob_expenses.json" :=
                  Some (expenses_value [Expense 5%Z "Food" "2024-03-01"])]})
           "bob").
  - done.
  - done.
  - intros u [= <-]. done.
  - done.
  - done.
  - done.
  - done.
  - reflexivity.
Defined.

(** ** The order of the records does not matter to the reports *)

Section OrderFacts.
Context {A : Type} `{Exact A}.
Implicit Types (l : list (expense A)) (k : expense A → string).

Lemma group_total_perm k (c : string) l l' :
  l ≡ₚ l' →
  py_sum (amount <$> filter (λ e, k e = c) l) = py_sum (amount <$> filter (λ e, k e = c) l').
Proof. intros Hperm. apply py_sum_perm. by rewrite Hperm. Qed.

Lemma group_keys_perm k l l' :
  l ≡ₚ l' →
  dict_keys (fold_left (λ d0 item, accumulate d0 (k item) (amount item)) l [])
  ≡ₚ dict_keys (fold_left (λ d0 item, accumulate d0 (k item) (amount item)) l' []).
Proof.
  intros Hperm. apply NoDup_Permutation.
  - apply acc_by_keys_NoDup. constructor.
  - apply acc_by_keys_NoDup. constructor.
  - intros c. rewrite !acc_by_keys. simpl.
    rewrite !filter_all by (apply Forall_forall; intros ? _; apply not_elem_of_nil).
    rewrite !first_seen_elem. by rewrite Hperm.
Qed.

Lemma by_sorted_keys_group_perm k l l' :
  l ≡ₚ l' →
  by_sorted_keys (fold_left (λ d0 item, accumulate d0 (k item) (amount item)) l [])
  = by_sorted_keys (fold_left (λ d0 item, accumulate d0 (k item) (amount item)) l' []).
Proof.
  intros Hperm. unfold by_sorted_keys.
  assert (Hkeys :
    sorted id String.ltb false
      (dict_keys (fold_left (λ d0 item, accumulate d0 (k item) (amount item)) l []))
    = sorted id String.ltb false
        (dict_keys (fold_left (λ d0 item, accumulate d0 (k item) (amount item)) l' []))).
  { apply (StronglySorted_unique_strong (λ a b, String.ltb b a = false)).
    - intros a b _ _ Hab Hba. by apply string_ltb_total.
    - apply (sorted_ascending id String.ltb (λ _, True));
        [apply string_ltb_asym | intros a b c _; apply string_ltb_negtrans
        | by apply Forall_forall].
    - apply (sorted_ascending id String.ltb (λ _, True));
        [apply string_ltb_asym | intros a b c _; apply string_ltb_negtrans
        | by apply Forall_forall].
    - rewrite !sorted_perm. by apply group_keys_perm. }
  rewrite Hkeys. apply list_fmap_ext. intros _ c _. f_equal.
  rewrite !acc_by_get. by apply group_total_perm.
Qed.

Lemma view_by_perm (fmt : ymd → string) l l' :
  l ≡ₚ l' →
  match l with [] => Some [] | _ => by_sorted_keys <$> spending_by fmt l end
  = match l' with [] => Some [] | _ => by_sorted_keys <$> spending_by fmt l' end.
Proof.
  intros Hperm.
  destruct l as [|e l].
  { apply Permutation_nil_l in Hperm. by subst. }
  destruct l' as [|e' l'].
  { by apply Permutation_nil_r in Hperm. }
  unfold spending_by.
  destruct (decide (Forall valid_date (e :: l))) as [Hall|Hall].
  - rewrite (spending_by_valid fmt [] _ Hall).
    rewrite Hperm in Hall. rewrite (spending_by_valid fmt [] _ Hall).
    cbn [fmap option_fmap option_map]. f_equal.
    by apply (by_sorted_keys_group_perm (group_key fmt)).
  - rewrite (spending_by_invalid fmt [] _ Hall).
    rewrite Hperm in Hall. by rewrite (spending_by_invalid fmt [] _ Hall).
Qed.

End OrderFacts.

(** X21: when the additions are exact (whole-number amounts), the reports
    do not depend on the order in which the records are stored: two lists
    with the same records give the same overall total, the same total for
    every category, the same lines of [check_budgets], and the same monthly
    and annual summaries, raising or not alike. *)
Theorem reports_ignore_order {A : Type} `{Exact A}
    (expenses expenses' : list (expense A)) (budgets : dict A) :
  expenses ≡ₚ expenses' →
  total_spending expenses = total_spending expenses'
  ∧ (∀ c, dict_get c num_zero (category_spending expenses)
          = dict_get c num_zero (category_spending expenses'))
  ∧ check_budgets expenses budgets = check_budgets expenses' budgets
  ∧ view_monthly_summary expenses = view_monthly_summary expenses'
  ∧ view_annual_summary expenses = view_annual_summary expenses'.
Proof.
  intros Hperm.
  assert (Hcat : ∀ c, category_total expenses c = category_total expenses' c).
  { intros c. by apply (group_total_perm category). }
  split_and!.
  - apply py_sum_perm. by rewrite Hperm.
  - intros c. by rewrite !category_spending_get.
  - rewrite !check_budgets_lines. apply list_fmap_ext. intros _ [c limit] _.
    by rewrite Hcat.
  - by apply view_by_perm.
  - by apply view_by_perm.
Qed.

Lemma reports_ignore_order_witness :
  total_spending [Expense 100%Z "Food" "2024-01-05"; Expense 50%Z "Rent" "2024-02-01"]
  = total_spending [Expense 50%Z "Rent" "2024-02-01"; Expense 100%Z "Food" "2024-01-05"]
  ∧ (∀ c, dict_get c num_zero
            (category_spending
               [Expense 100%Z "Food" "2024-01-05"; Expense 50%Z "Rent" "2024-02-01"])
          = dict_get c num_zero
              (category_spending
                 [Expense 50%Z "Rent" "2024-02-01"; Expense 100%Z "Food" "2024-01-05"]))
  ∧ check_budgets [Expense 100%Z "Food" "2024-01-05"; Expense 50%Z "Rent" "2024-02-01"]
      [("Food", 80%Z)]
    = check_budgets [Expense 50%Z "Rent" "2024-02-01"; Expense 100%Z "Food" "2024-01-05"]
        [("Food", 80%Z)]
  ∧ view_monthly_summary
      [Expense 100%Z "Food" "2024-01-05"; Expense 50%Z "Rent" "2024-02-01"]
    = view_monthly_summary
        [Expense 50%Z "Rent" "2024-02-01"; Expense 100%Z "Food" "2024-01-05"]
  ∧ view_annual_summary
      [Expense 100%Z "Food" "2024-01-05"; Expense 50%Z "Rent" "2024-02-01"]
    = view_annual_summary
        [Expense 50%Z "Rent" "2024-02-01"; Expense 100%Z "Food" "2024-01-05"].
Proof.
  apply (reports_ignore_order
           [Expense 100%Z "Food" "2024-01-05"; Expense 50%Z "Rent" "2024-02-01"]
           [Expense 50%Z "Rent" "2024-02-01"; Expense 100%Z "Food" "2024-01-05"]
           [("Food", 80%Z)]).
  apply Permutation_swap.
Defined.

(** ** The summaries are in the order of time *)

Lemma digit_char_compare (i j : nat) :
  i < 10 → j < 10 → Ascii.compare (digit_char i) (digit_char j) = Nat.compare i j.
Proof.
  intros Hi Hj.
  do 10 (destruct i as [|i]; [do 10 (destruct j as [|j]; [done|]); lia|]). lia.
Qed.

Lemma pad2_compare (a b : nat) (r1 r2 : list ascii) :
  a < 100 → b < 100 →
  String.compare (String.string_of_list_ascii (pad2 a ++ r1))
                 (String.string_of_list_ascii (pad2 b ++ r2))
  = match Nat.compare a b with
    | Eq => String.compare (String.string_of_list_ascii r1) (String.string_of_list_ascii r2)
    | c => c
    end.
Proof.
  intros Ha Hb. unfold pad2.
  cbn [app String.string_of_list_ascii String.compare].
  assert (Hdm : ∀ n, n < 100 → n `div` 10 < 10 ∧ n `mod` 10 < 10 ∧ n = 10 * (n `div` 10) + n `mod` 10).
  { intros n Hn. split_and!; [apply Nat.Div0.div_lt_upper_bound; lia
                             | apply Nat.mod_upper_bound; lia | apply Nat.div_mod_eq]. }
  destruct (Hdm a Ha) as (Ha1 & Ha2 & Ha3). destruct (Hdm b Hb) as (Hb1 & Hb2 & Hb3).
  rewrite !digit_char_compare by done.
  set (a1 := a `div` 10) in *. set (a0 := a `mod` 10) in *.
  set (b1 := b `div` 10) in *. set (b0 := b `mod` 10) in *.
  clearbody a1 a0 b1 b0.
  destruct (Nat.compare_spec a1 b1), (Nat.compare_spec a0 b0),
    (Nat.compare_spec a b); try done; lia.
Qed.

Lemma year_digits_four (y : nat) :
  (1000 ≤ Z.of_nat y ≤ 9999)%Z →
  year_digits y = pad2 (y `div` 100) ++ pad2 (y `mod` 100)
  ∧ y `div` 100 < 100 ∧ y `mod` 100 < 100 ∧ y = 100 * (y `div` 100) + y `mod` 100.
Proof.
  intros Hy.
  assert (Hhi : 10 ≤ y `div` 100 < 100).
  { split; [apply Nat.div_le_lower_bound; lia | apply Nat.Div0.div_lt_upper_bound; lia]. }
  assert (Hlo : y `mod` 100 < 100) by (apply Nat.mod_upper_bound; lia).
  assert (Hy1 : 1 ≤ (y `div` 100) `div` 10 < 10).
  { split; [apply Nat.div_le_lower_bound; lia | apply Nat.Div0.div_lt_upper_bound; lia]. }
  split_and!; [|lia|done|apply Nat.div_mod_eq].
  unfold year_digits, pad2. cbn [app strip_zeros].
  by rewrite (decide_False (P := _ = "0"%char)) by (by apply digit_char_not_zero).
Qed.

Lemma strftime_Ym_ltb (t1 t2 : ymd) :
  (1000 ≤ Z.of_nat (year t1) ≤ 9999)%Z → (1000 ≤ Z.of_nat (year t2) ≤ 9999)%Z →
  month t1 < 100 → month t2 < 100 →
  String.ltb (strftime_Ym t1) (strftime_Ym t2) = true ↔ earlier_month t1 t2.
Proof.
  destruct t1 as [y1 m1 d1], t2 as [y2 m2 d2]. unfold earlier_month. cbn [year month].
  intros (Hd1 & Hh1 & Hl1 & Hy1)%year_digits_four (Hd2 & Hh2 & Hl2 & Hy2)%year_digits_four
    Hm1 Hm2.
  unfold String.ltb, strftime_Ym. cbn [year month]. rewrite Hd1, Hd2, <- !app_assoc.
  rewrite !pad2_compare by done.
  cbn [app String.string_of_list_ascii String.compare].
  change (Ascii.compare "-" "-") with Eq. cbn match.
  replace (pad2 m1) with (pad2 m1 ++ []) by apply app_nil_r.
  replace (pad2 m2) with (pad2 m2 ++ []) by apply app_nil_r.
  rewrite pad2_compare by done.
  cbn [String.string_of_list_ascii String.compare].
  set (h1 := y1 `div` 100) in *. set (l1 := y1 `mod` 100) in *.
  set (h2 := y2 `div` 100) in *. set (l2 := y2 `mod` 100) in *.
  clearbody h1 l1 h2 l2.
  destruct (Nat.compare_spec h1 h2), (Nat.compare_spec l1 l2), (Nat.compare_spec m1 m2);
    split; try done; lia.
Qed.

Lemma strftime_Y_ltb (t1 t2 : ymd) :
  (1000 ≤ Z.of_nat (year t1) ≤ 9999)%Z → (1000 ≤ Z.of_nat (year t2) ≤ 9999)%Z →
  String.ltb (strftime_Y t1) (strftime_Y t2) = true ↔ year t1 < year t2.
Proof.
  destruct t1 as [y1 m1 d1], t2 as [y2 m2 d2]. cbn [year].
  intros (Hd1 & Hh1 & Hl1 & Hy1)%year_digits_four (Hd2 & Hh2 & Hl2 & Hy2)%year_digits_four.
  unfold String.ltb, strftime_Y. cbn [year]. rewrite Hd1, Hd2.
  rewrite pad2_compare by done.
  replace (pad2 (y1 `mod` 100)) with (pad2 (y1 `mod` 100) ++ []) by apply app_nil_r.
  replace (pad2 (y2 `mod` 100)) with (pad2 (y2 `mod` 100) ++ []) by apply app_nil_r.
  rewrite pad2_compare by done.
  cbn [String.string_of_list_ascii String.compare].
  set (h1 := y1 `div` 100) in *. set (l1 := y1 `mod` 100) in *.
  set (h2 := y2 `div` 100) in *. set (l2 := y2 `mod` 100) in *.
  clearbody h1 l1 h2 l2.
  destruct (Nat.compare_spec h1 h2), (Nat.compare_spec l1 l2);
    split; try done; lia.
Qed.


Lemma digit_of_lt (c : ascii) (d : nat) : digit_of c = Some d → d < 10.
Proof. unfold digit_of. case_bool_decide; [|done]. intros [= <-]. lia. Qed.

Lemma two_digits_lt (c1 c2 : ascii) (n : nat) : two_digits c1 c2 = Some n → n < 100.
Proof.
  unfold two_digits.
  destruct (digit_of c1) as [d1|] eqn:H1; [|done].
  destruct (digit_of c2) as [d2|] eqn:H2; [|done].
  apply digit_of_lt in H1, H2. intros [= <-]. lia.
Qed.

Lemma nonzero_Some (n m : nat) : nonzero n = Some m → m = n ∧ 1 ≤ n.
Proof. unfold nonzero. case_bool_decide; [|done]. by intros [= <-]. Qed.

Lemma month_field_range (tok : list ascii) (m : nat) :
  month_field tok = Some m → 1 ≤ m ≤ 12.
Proof.
  unfold month_field. destruct tok as [|c1 [|c2 [|c3 tok]]]; [done| | |done].
  - destruct (digit_of c1) as [d|] eqn:Hd; [|done]. simpl.
    apply digit_of_lt in Hd. intros [-> ?]%nonzero_Some. lia.
  - destruct (two_digits c1 c2) as [n|]; [|done]. simpl.
    destruct (nonzero n) as [n'|] eqn:Hn; [|done]. simpl.
    apply nonzero_Some in Hn as [-> ?]. case_bool_decide; [|done]. intros [= <-]. lia.
Qed.

Lemma strptime_range (s : string) (t : ymd) :
  strptime s = Some t → (1 ≤ Z.of_nat (year t) ≤ 9999)%Z ∧ 1 ≤ month t ≤ 12.
Proof.
  unfold strptime.
  destruct (String.list_ascii_of_string s) as [|y1 [|y2 [|y3 [|y4 [|dash rest]]]]]; try done.
  case_decide; [|done].
  destruct (two_digits y1 y2) as [hi|] eqn:Hhi; [|done].
  destruct (two_digits y3 y4) as [lo|] eqn:Hlo; [|done]. cbn [mbind option_bind].
  apply two_digits_lt in Hhi, Hlo.
  destruct (nonzero (100 * hi + lo)) as [y|] eqn:Hy; [|done]. cbn [mbind option_bind].
  apply nonzero_Some in Hy as [-> Hy].
  destruct (split_dash rest) as [[mtok dtok]|]; [|done]. cbn [mbind option_bind].
  destruct (month_field mtok) as [m|] eqn:Hm; [|done]. cbn [mbind option_bind].
  apply month_field_range in Hm.
  destruct (day_field dtok) as [d|]; [|done]. cbn [mbind option_bind].
  case_bool_decide; [|done]. intros [= <-]. cbn [year month]. lia.
Qed.

Lemma strictly_sorted_index (l : list string) (i j : nat) (a b : string) :
  StronglySorted (λ a b, String.ltb a b = true) l →
  l !! i = Some a → l !! j = Some b →
  i < j ↔ String.ltb a b = true.
Proof.
  intros Hsorted Hi Hj.
  assert (Hlt : ∀ i j a b, l !! i = Some a → l !! j = Some b → i < j → String.ltb a b = true).
  { clear i j a b Hi Hj. induction Hsorted as [|x l _ IH Hall]; intros i j a b Hi Hj Hij.
    - done.
    - destruct j as [|j]; [lia|]. destruct i as [|i]; simpl in *.
      + injection Hi as ->. apply list_elem_of_lookup_2 in Hj.
        by apply (proj1 (Forall_forall _ _) Hall).
      + apply (IH i j); [done..|lia]. }
  split; [by apply Hlt|]. intros Hab.
  destruct (Nat.lt_trichotomy i j) as [?|[->|Hji]]; [done| |].
  - rewrite Hi in Hj. injection Hj as ->. by rewrite string_ltb_irrefl in Hab.
  - apply (Hlt _ _ _ _ Hj Hi) in Hji. apply string_ltb_asym in Hji. congruence.
Qed.

Lemma summary_lines_order {A : Type} `{Num A} (fmt : ymd → string)
    (expenses : list (expense A)) (lines : list (string * A)) (e1 e2 : expense A)
    (t1 t2 : ymd) :
  report_of fmt expenses lines →
  e1 ∈ expenses → e2 ∈ expenses →
  strptime (date e1) = Some t1 → strptime (date e2) = Some t2 →
  ∃ i j, lines.*1 !! i = Some (fmt t1) ∧ lines.*1 !! j = Some (fmt t2)
         ∧ (i < j ↔ String.ltb (fmt t1) (fmt t2) = true).
Proof.
  intros (Hsorted & Hkeys & _) He1 He2 Ht1 Ht2.
  assert (Hk : ∀ e t, e ∈ expenses → strptime (date e) = Some t →
                      ∃ i, lines.*1 !! i = Some (fmt t)).
  { intros e t He Ht. apply list_elem_of_lookup_1, Hkeys. exists e.
    split; [done|]. unfold group_key. by rewrite Ht. }
  destruct (Hk e1 t1 He1 Ht1) as [i Hi]. destruct (Hk e2 t2 He2 Ht2) as [j Hj].
  exists i, j. split_and!; [done..|]. by apply (strictly_sorted_index lines.*1).
Qed.

(** X22: the summaries are in the order of time.  For two records of the
    list whose dates have years of four digits, the monthly summary has a
    line for the month of each, and the line of the first comes before the
    line of the second exactly when its month is the earlier one; likewise
    for the years of the annual summary. *)
Theorem summaries_chronological {A : Type} `{Num A} (expenses : list (expense A))
    (e1 e2 : expense A) (t1 t2 : ymd) :
  e1 ∈ expenses → e2 ∈ expenses →
  strptime (date e1) = Some t1 → strptime (date e2) = Some t2 →
  (1000 ≤ Z.of_nat (year t1))%Z → (1000 ≤ Z.of_nat (year t2))%Z →
  (∀ lines, view_monthly_summary expenses = Some lines →
     ∃ i j, lines.*1 !! i = Some (strftime_Ym t1) ∧ lines.*1 !! j = Some (strftime_Ym t2)
            ∧ (i < j ↔ earlier_month t1 t2))
  ∧ (∀ lines, view_annual_summary expenses = Some lines →
       ∃ i j, lines.*1 !! i = Some (strftime_Y t1) ∧ lines.*1 !! j = Some (strftime_Y t2)
              ∧ (i < j ↔ year t1 < year t2)).
Proof.
  intros He1 He2 Ht1 Ht2 Hy1 Hy2.
  destruct (strptime_range _ _ Ht1) as [Hr1 Hm1].
  destruct (strptime_range _ _ Ht2) as [Hr2 Hm2].
  split; intros lines Hreport%summary_report_of.
  - destruct (summary_lines_order _ _ _ e1 e2 t1 t2 Hreport) as (i & j & Hi & Hj & Hij);
      [done..|].
    exists i, j. split_and!; [done..|].
    rewrite Hij. apply strftime_Ym_ltb; lia.
  - destruct (summary_lines_order _ _ _ e1 e2 t1 t2 Hreport) as (i & j & Hi & Hj & Hij);
      [done..|].
    exists i, j. split_and!; [done..|].
    rewrite Hij. apply strftime_Y_ltb; lia.
Qed.

Lemma summaries_chronological_witness :
  (∀ lines,
     view_monthly_summary
       [Expense 50%Z "Food" "2024-10-01"; Expense 100%Z "Food" "2024-9-05"] = Some lines →
     ∃ i j, lines.*1 !! i = Some (strftime_Ym (Ymd 2024 9 5))
            ∧ lines.*1 !! j = Some (strftime_Ym (Ymd 2024 10 1))
            ∧ (i < j ↔ earlier_month (Ymd 2024 9 5) (Ymd 2024 10 1)))
  ∧ (∀ lines,
       view_annual_summary
         [Expense 50%Z "Food" "2024-10-01"; Expense 100%Z "Food" "2024-9-05"] = Some lines →
       ∃ i j, lines.*1 !! i = Some (strftime_Y (Ymd 2024 9 5))
              ∧ lines.*1 !! j = Some (strftime_Y (Ymd 2024 10 1))
              ∧ (i < j ↔ year (Ymd 2024 9 5) < year (Ymd 2024 10 1))).
Proof.
  apply (summaries_chronological
           [Expense 50%Z "Food" "2024-10-01"; Expense 100%Z "Food" "2024-9-05"]
           (Expense 100%Z "Food" "2024-9-05") (Expense 50%Z "Food" "2024-10-01")
           (Ymd 2024 9 5) (Ymd 2024 10 1)).
  - by apply (bool_decide_unpack _).
  - by apply (bool_decide_unpack _).
  - reflexivity.
  - reflexivity.
  - simpl. lia.
  - simpl. lia.
Defined.

(** ** Blank answers in an edit *)

(** X23: in an edit, blank answers keep the record.  For the record that a
    number selects, when its date is not empty, a blank answer to the date
    prompt returns the date of the record, whatever the clock shows, and the
    edit with no amount, a blank category and that date leaves the list
    exactly as it was, though it reports an update. *)
Theorem blank_edit_keeps {A : Type} `{Num A} (expenses : list (expense A)) (number : Z)
    (shown e : expense A) (i : nat) (now : ymd) (rest : list string) :
  select_expense expenses number = Selected shown i →
  expenses !! i = Some e →
  date e ≠ "" →
  get_valid_date now (Some (date e)) ("" :: rest) = Answered (date e)
  ∧ manage_edit expenses number None "" (date e) = (Updated, expenses)
  ∧ manage_loop expenses [TurnEdit (Some number) None "" (date e)] = Answered expenses.
Proof.
  intros Hsel He Hdate.
  assert (Hedit : manage_edit expenses number None "" (date e) = (Updated, expenses)).
  { unfold manage_edit. rewrite Hsel, He. f_equal.
    unfold amend. rewrite !bool_decide_eq_true_2 by done. by apply list_insert_id. }
  split_and!; [|done|].
  - simpl. by rewrite bool_decide_eq_false_2.
  - simpl. by rewrite Hedit.
Qed.

Lemma blank_edit_keeps_witness :
  get_valid_date (Ymd 2024 3 1) (Some (date (Expense 100%Z "Food" "2024-01-05"))) [""]
  = Answered (date (Expense 100%Z "Food" "2024-01-05"))
  ∧ manage_edit [Expense 100%Z "Food" "2024-01-05"; Expense 50%Z "Rent" "2024-02-01"] 2
      None "" (date (Expense 100%Z "Food" "2024-01-05"))
    = (Updated, [Expense 100%Z "Food" "2024-01-05"; Expense 50%Z "Rent" "2024-02-01"])
  ∧ manage_loop [Expense 100%Z "Food" "2024-01-05"; Expense 50%Z "Rent" "2024-02-01"]
      [TurnEdit (Some 2%Z) None "" (date (Expense 100%Z "Food" "2024-01-05"))]
    = Answered [Expense 100%Z "Food" "2024-01-05"; Expense 50%Z "Rent" "2024-02-01"].
Proof.
  apply (blank_edit_keeps
           [Expense 100%Z "Food" "2024-01-05"; Expense 50%Z "Rent" "2024-02-01"] 2
           (Expense 100%Z "Food" "2024-01-05") (Expense 100%Z "Food" "2024-01-05") 0
           (Ymd 2024 3 1) []).
  - reflexivity.
  - reflexivity.
  - done.
Defined.

(** ** The numbers printed in the menus *)

Lemma pretty_N_go_digits (x : N) (s : string) :
  forallb is_digit_char (String.list_ascii_of_string (pretty_N_go x s))
  = forallb is_digit_char (String.list_ascii_of_string s).
Proof.
  revert s. induction (N.lt_wf_0 x) as [x _ IH]; intros s.
  assert (x = 0 ∨ 0 < x)%N as [->|Hx] by lia; [by rewrite pretty_N_go_0|].
  rewrite pretty_N_go_step by done. rewrite IH by (by apply N.div_lt).
  cbn [String.list_ascii_of_string forallb].
  by destruct (digit_of_pretty (x `mod` 10)) as [_ ->]; [by apply N.mod_lt|].
Qed.

Lemma pretty_N_go_length (x : N) (s : string) :
  length (String.list_ascii_of_string (pretty_N_go x s))
  ≤ N.to_nat x + length (String.list_ascii_of_string s).
Proof.
  revert s. induction (N.lt_wf_0 x) as [x _ IH]; intros s.
  assert (x = 0 ∨ 0 < x)%N as [->|Hx] by lia; [by rewrite pretty_N_go_0|].
  rewrite pretty_N_go_step by done.
  etrans; [apply IH; by apply N.div_lt|]. cbn [String.list_ascii_of_string length].
  assert (x `div` 10 < x)%N by (by apply N.div_lt). lia.
Qed.

Lemma pretty_N_go_nonempty (x : N) (s : string) :
  (0 < x)%N → String.list_ascii_of_string (pretty_N_go x s) ≠ [].
Proof.
  intros Hx Hnil. pose proof (pretty_N_go_length 0 "") as _.
  assert (Hlen : ∀ y s', length (String.list_ascii_of_string s')
                         ≤ length (String.list_ascii_of_string (pretty_N_go y s'))).
  { intros y. induction (N.lt_wf_0 y) as [y _ IH]; intros s'.
    assert (y = 0 ∨ 0 < y)%N as [->|Hy] by lia; [by rewrite pretty_N_go_0|].
    rewrite pretty_N_go_step by done.
    etrans; [|apply IH; by apply N.div_lt]. cbn [String.list_ascii_of_string length]. lia. }
  rewrite pretty_N_go_step in Hnil by done.
  specialize (Hlen (x `div` 10)%N (String (pretty_N_char (x `mod` 10)) s)).
  rewrite Hnil in Hlen. simpl in Hlen. lia.
Qed.

Lemma py_int_pretty (n : nat) :
  1 ≤ n ≤ 4300 →
  isdigit (pretty n) = true ∧ py_int (pretty n) = Some (Z.of_nat n).
Proof.
  intros Hn. unfold pretty, pretty_nat, pretty, pretty_N.
  rewrite decide_False by lia.
  pose proof (pretty_N_go_length (N.of_nat n) "") as Hlen.
  pose proof (pretty_N_go_nonempty (N.of_nat n) "") as Hne.
  pose proof (pretty_N_go_digits (N.of_nat n) "") as Hdig.
  pose proof (pretty_N_go_read (N.of_nat n) "") as Hread.
  split.
  - unfold isdigit.
    destruct (String.list_ascii_of_string (pretty_N_go (N.of_nat n) "")) as [|c cs];
      [destruct Hne; [lia|done]|done].
  - unfold py_int. rewrite bool_decide_eq_true_2 by (simpl in Hlen; lia).
    unfold read_digits in Hread. rewrite Hread. simpl. f_equal. lia.
Qed.

Lemma numbered_elem (xs : list string) (number x : string) :
  (number, x) ∈ numbered xs ↔ ∃ i, xs !! i = Some x ∧ number = pretty (i + 1).
Proof.
  unfold numbered. rewrite elem_of_lookup_imap. split.
  - intros (i & y & [= -> ->] & Hi). by exists i.
  - intros (i & Hi & ->). by exists i, x.
Qed.

(** X24: typing a number as it is printed in a menu picks the item printed
    next to it: the category of that line in [get_valid_category], and, for a
    registry of at most 4300 names, the user of that line when selecting and
    when deleting, where the name handed to [delete_user_profile] is the one
    on the line. *)
Theorem listed_number_selects {A T : Type} `{Codec A T} :
  (∀ number category rest,
     (number, category) ∈ numbered common_categories →
     get_valid_category (number :: rest) = Answered category)
  ∧ (∀ users number username (w : world T),
       length users ≤ 4300 →
       (number, username) ∈ numbered users →
       select_user number users w
       = UserSelected (World (expense_file_path username) (budget_file_path username)
                             (Some username) (files w)))
  ∧ (∀ users number username confirm (w : world T),
       length users ≤ 4300 →
       (number, username) ∈ numbered users →
       menu_delete (A:=A) number confirm users w
       = DeleteDone (delete_user_profile (A:=A) confirm users username w).1.1
           (load_data (files (delete_user_profile (A:=A) confirm users username w).2)
              USERS_FILE)
           (delete_user_profile (A:=A) confirm users username w).2).
Proof.
  assert (Hpick : ∀ (xs : list string) number x,
    length xs ≤ 4300 → (number, x) ∈ numbered xs →
    xs ≠ [] ∧ number ≠ "c" ∧ number ≠ "q" ∧ isdigit number = true
    ∧ ∃ n, py_int number = Some n
           ∧ bool_decide (0 ≤ n - 1 < Z.of_nat (length xs))%Z = true
           ∧ xs !! Z.to_nat (n - 1) = Some x).
  { intros xs number x Hlen (i & Hi & ->)%numbered_elem.
    pose proof (lookup_lt_Some _ _ _ Hi) as Hlt.
    destruct (py_int_pretty (i + 1)) as [Hd Hn]; [lia|].
    split_and!; [by intros ->|by apply isdigit_not_c|by intros Hq; rewrite Hq in Hd|done|].
    exists (Z.of_nat (i + 1)). split_and!; [done| |].
    - apply bool_decide_eq_true_2. lia.
    - by replace (Z.to_nat (Z.of_nat (i + 1) - 1)) with i by lia. }
  split_and!.
  - intros number category rest Hin.
    destruct (Hpick common_categories number category) as (_ & Hc & _ & Hd & n & Hn & Hr & Hx);
      [change (length common_categories) with 10; lia|done|].
    simpl. rewrite bool_decide_eq_false_2 by done. rewrite Hd, Hn.
    change (length common_categories) with 10 in Hr. rewrite Hr. by rewrite Hx.
  - intros users number username w Hlen Hin.
    destruct (Hpick users number username) as (Hne & _ & _ & Hd & n & Hn & Hr & Hx); [done..|].
    unfold select_user. rewrite bool_decide_eq_false_2 by done.
    by rewrite Hd, Hn, Hr, Hx.
  - intros users number username confirm w Hlen Hin.
    destruct (Hpick users number username) as (Hne & _ & Hq & Hd & n & Hn & Hr & Hx); [done..|].
    unfold menu_delete. rewrite !bool_decide_eq_false_2 by done.
    rewrite Hd, Hn, Hr, Hx.
    by destruct (delete_user_profile confirm users username w) as [[o users'] w'].
Qed.
